(** * Persistence layer of the task manager: models.py, storage.py and the
      parts of business_logic.py that the testable properties mention.

    The development is a shallow embedding.  Python values are a small
    universe [pyval]; every Python function becomes a computation in the
    monad [Py], which threads the process environment ([world]: wall clock,
    uuid generator, file system, SQLite connection) and carries raised
    exceptions.  Library routines whose internals are not part of the
    repository (text/number conversions of CPython and SQLite, the ISO-8601
    codec of [datetime]) are fields of [platform]; every theorem holds for
    every platform. *)

From Stdlib Require Import ZArith List String Ascii Bool Lia.
From Stdlib Require Import DecimalString.
Import ListNotations.
Local Open Scope string_scope.
Local Open Scope Z_scope.
Set Warnings "-register-all".

(* ================================================================= *)
(** ** Python values *)

(** A Python [float], kept as its IEEE-754 binary64 bit pattern.  The
    modelled code never computes on floats; it only stores them. *)
Record pyfloat := Float64 { float_bits : Z }.

Inductive pyval :=
| PNone
| PBool (b : bool)
| PInt (z : Z)
| PFloat (f : pyfloat)
| PStr (s : string)
| PBytes (b : list Byte.byte)
| PList (l : list pyval)
| PDict (d : list (string * pyval)).

(** [dict] with [str] keys, in insertion order. *)
Definition dict := list (string * pyval).

Fixpoint dict_get (d : dict) (k : string) : option pyval :=
  match d with
  | [] => None
  | (k', v) :: d' => if String.eqb k k' then Some v else dict_get d' k
  end.

Fixpoint dict_set (d : dict) (k : string) (v : pyval) : dict :=
  match d with
  | [] => [(k, v)]
  | (k', v') :: d' =>
      if String.eqb k k' then (k', v) :: d' else (k', v') :: dict_set d' k v
  end.

Definition dict_keys (d : dict) : list string := map fst d.

(** Exceptions raised by the modelled code and libraries.  All of them are
    subclasses of [Exception]. *)
Inductive exn :=
| TypeError (msg : string)
| KeyError (key : string)
| AttributeError (msg : string)
| ValueError (msg : string)
| OverflowError (msg : string)
| FileNotFoundError
| PermissionError
| IsADirectoryError
| JSONDecodeError
| OperationalError (msg : string)
| IntegrityError (msg : string)
| ProgrammingError (msg : string)
| IndexError (msg : string).

Inductive outcome (A : Type) :=
| Return (a : A)
| Raise (e : exn).
Arguments Return {A} a.
Arguments Raise {A} e.

Definition obind {A B} (o : outcome A) (k : A -> outcome B) : outcome B :=
  match o with
  | Return a => k a
  | Raise e => Raise e
  end.

Declare Scope outcome_scope.
Delimit Scope outcome_scope with out.
Notation "x <~ o ;; k" := (obind o (fun x => k))
  (at level 61, o at next level, right associativity) : outcome_scope.
Local Open Scope outcome_scope.

(** [[f x for x in xs]] with a fallible [f]. *)
Fixpoint omap {A B} (f : A -> outcome B) (xs : list A) : outcome (list B) :=
  match xs with
  | [] => Return []
  | x :: xs' => y <~ f x ;; ys <~ omap f xs' ;; Return (y :: ys)
  end.

(** A loop that updates a local variable, with a fallible body. *)
Fixpoint ofold {A S} (f : S -> A -> outcome S) (xs : list A) (s : S) : outcome S :=
  match xs with
  | [] => Return s
  | x :: xs' => s' <~ f s x ;; ofold f xs' s'
  end.

(** [[x for x in xs if f x]] with a fallible [f]. *)
Fixpoint ofilter {A} (f : A -> outcome bool) (xs : list A) : outcome (list A) :=
  match xs with
  | [] => Return []
  | x :: xs' =>
      b <~ f x ;; ys <~ ofilter f xs' ;; Return (if b then x :: ys else ys)
  end.

(** [bool(x)] *)
Definition truthy (v : pyval) : bool :=
  match v with
  | PNone => false
  | PBool b => b
  | PInt z => negb (z =? 0)
  | PFloat f => negb ((float_bits f mod 2 ^ 63) =? 0)
  | PStr s => negb (String.eqb s "")
  | PBytes b => match b with [] => false | _ => true end
  | PList l => match l with [] => false | _ => true end
  | PDict d => match d with [] => false | _ => true end
  end.

(** [x == s] for a string literal [s]. *)
Definition eq_str (v : pyval) (s : string) : bool :=
  match v with
  | PStr s' => String.eqb s' s
  | _ => false
  end.

(** Decimal rendering of an integer, as [str(int)] and SQLite print it. *)
Definition decimal (z : Z) : string := NilZero.string_of_int (Z.to_int z).

(* ================================================================= *)
(** ** datetime *)

(** A [datetime]: microseconds since 0001-01-01T00:00:00 and, for an aware
    value, the UTC offset. *)
Record datetime := DateTime { dt_micros : Z; dt_offset : option Z }.

Definition naive (us : Z) : datetime := DateTime us None.

(** [datetime.max] is 9999-12-31T23:59:59.999999. *)
Definition datetime_max : Z := 3652059 * 86400000000 - 1.

(** A [timedelta], in microseconds. *)
Definition timedelta := Z.
Definition timedelta_max_days : Z := 999999999.

Definition us_per_minute : Z := 60000000.
Definition us_per_hour : Z := 3600000000.
Definition us_per_day : Z := 86400000000.
Definition us_per_week : Z := 7 * us_per_day.

(* ================================================================= *)
(** ** SQLite values, schema and connection *)

Inductive sqlval :=
| SNull
| SInteger (z : Z)
| SReal (f : pyfloat)
| SText (s : string)
| SBlob (b : list Byte.byte).

Inductive affinity := TEXT | INTEGER | REAL.

Record column := Column {
  col_name : string;
  col_affinity : affinity;
  col_not_null : bool;
  col_unique : bool   (* PRIMARY KEY or UNIQUE *)
}.

Inductive table_name :=
| tbl_tasks
| tbl_task_categories
| tbl_task_tags
| tbl_task_dependencies
| tbl_time_entries
| tbl_templates
| tbl_template_categories
| tbl_template_tags.

Definition table_name_eqb (a b : table_name) : bool :=
  match a, b with
  | tbl_tasks, tbl_tasks
  | tbl_task_categories, tbl_task_categories
  | tbl_task_tags, tbl_task_tags
  | tbl_task_dependencies, tbl_task_dependencies
  | tbl_time_entries, tbl_time_entries
  | tbl_templates, tbl_templates
  | tbl_template_categories, tbl_template_categories
  | tbl_template_tags, tbl_template_tags => true
  | _, _ => false
  end.

Definition row := list sqlval.

(** The contents of the database file: for each table of the schema its
    rows in rowid order, or [None] when the table does not exist. *)
Definition database := table_name -> option (list row).

(** One [sqlite3.Connection] in the default (legacy) transaction mode:
    [pending] is the working copy of an open transaction. *)
Record connection := Connection {
  committed : database;
  pending : option database
}.

(* ================================================================= *)
(** ** Files *)

(** What a text file holds, up to JSON parsing: text that [json.loads]
    parses to the value [v], or text that it rejects. *)
Inductive content :=
| JsonText (v : pyval)
| Malformed (text : string).

Inductive fnode :=
| Absent
| File (c : content)
| ReadOnlyFile (c : content)
| Directory.

(* ================================================================= *)
(** ** Platform and world *)

(** Library conversions that are taken as given. *)
Record platform := Platform {
  (* CPython *)
  float_repr : pyfloat -> string;              (* repr(x) of a float *)
  int_of_float : pyfloat -> outcome Z;         (* int(x) of a float *)
  int_of_text : string -> option Z;            (* int(s), None: ValueError *)
  int_of_bytes : list Byte.byte -> option Z;   (* int(b), None: ValueError *)
  float_times : Z -> pyfloat -> pyfloat;       (* n * x for a float x *)
  micros_of_float : pyfloat -> Z -> outcome Z; (* timedelta(unit=x) in us *)
  fromisoformat : string -> outcome datetime;  (* datetime.fromisoformat *)
  isoformat : datetime -> string;              (* datetime.isoformat *)
  (* SQLite column affinity *)
  sqlite_text_of_real : pyfloat -> string;
  sqlite_numeric_of_text : string -> option (Z + pyfloat);
  sqlite_real_of_int : Z -> pyfloat;
  sqlite_int_of_real : pyfloat -> option Z
}.

Record world := World {
  pf : platform;
  clock : nat -> Z;          (* successive readings of datetime.now() *)
  clock_reads : nat;
  uuid_source : nat -> string; (* successive results of uuid.uuid4() *)
  uuid_drawn : nat;
  fs : string -> fnode;      (* the file system, by path *)
  conn : connection          (* the SQLite connection of the process *)
}.

Definition set_fs (f : string -> fnode) (w : world) : world :=
  World (pf w) (clock w) (clock_reads w) (uuid_source w) (uuid_drawn w) f (conn w).

Definition set_conn (c : connection) (w : world) : world :=
  World (pf w) (clock w) (clock_reads w) (uuid_source w) (uuid_drawn w) (fs w) c.

(* ================================================================= *)
(** ** The monad of Python computations *)

Definition Py (A : Type) : Type := world -> outcome A * world.

Definition ret {A} (a : A) : Py A := fun w => (Return a, w).

Definition raise {A} (e : exn) : Py A := fun w => (Raise e, w).

Definition bind {A B} (m : Py A) (k : A -> Py B) : Py B :=
  fun w =>
    match m w with
    | (Return a, w') => k a w'
    | (Raise e, w') => (Raise e, w')
    end.

(** [try: m  except Exception as e: h e] *)
Definition try_except {A} (m : Py A) (h : exn -> Py A) : Py A :=
  fun w =>
    match m w with
    | (Return a, w') => (Return a, w')
    | (Raise e, w') => h e w'
    end.

Definition lift {A} (o : outcome A) : Py A := fun w => (o, w).

(** A library call that depends on the platform only. *)
Definition call_platform {A} (f : platform -> outcome A) : Py A :=
  fun w => (f (pf w), w).

Declare Scope py_scope.
Delimit Scope py_scope with py.
Notation "x <- m ;; k" := (bind m (fun x => k))
  (at level 61, m at next level, right associativity) : py_scope.
Notation "m ;;; k" := (bind m (fun _ => k))
  (at level 61, right associativity) : py_scope.
Local Open Scope py_scope.

(** [for x in xs: body x] *)
Fixpoint for_each {A} (xs : list A) (body : A -> Py unit) : Py unit :=
  match xs with
  | [] => ret tt
  | x :: xs' => body x ;;; for_each xs' body
  end.

(** [[f x for x in xs]] *)
Fixpoint map_py {A B} (f : A -> Py B) (xs : list A) : Py (list B) :=
  match xs with
  | [] => ret []
  | x :: xs' => y <- f x ;; ys <- map_py f xs' ;; ret (y :: ys)
  end.

(** [[x for x in xs if f x]] *)
Fixpoint filter_py {A} (f : A -> Py bool) (xs : list A) : Py (list A) :=
  match xs with
  | [] => ret []
  | x :: xs' =>
      b <- f x ;; ys <- filter_py f xs' ;; ret (if b then x :: ys else ys)
  end.

(** The world after one more reading of the clock. *)
Definition tick (w : world) : world :=
  World (pf w) (clock w) (S (clock_reads w)) (uuid_source w) (uuid_drawn w)
        (fs w) (conn w).

(** The world after one more uuid was drawn. *)
Definition drawn (w : world) : world :=
  World (pf w) (clock w) (clock_reads w) (uuid_source w) (S (uuid_drawn w))
        (fs w) (conn w).

(** [datetime.now()] *)
Definition now : Py datetime :=
  fun w => (Return (naive (clock w (clock_reads w))), tick w).

(** [str(uuid.uuid4())] *)
Definition uuid4_str : Py pyval :=
  fun w => (Return (PStr (uuid_source w (uuid_drawn w))), drawn w).

(** [datetime.now().isoformat()] *)
Definition now_isoformat : Py pyval :=
  d <- now ;;
  call_platform (fun p => Return (PStr (isoformat p d))).

(* ================================================================= *)
(** ** Library calls on Python values *)

(** [datetime.fromisoformat(v)] *)
Definition py_fromisoformat (p : platform) (v : pyval) : outcome datetime :=
  match v with
  | PStr s => fromisoformat p s
  | _ => Raise (TypeError "fromisoformat: argument must be str")
  end.

Definition check_timedelta (us : Z) : outcome timedelta :=
  if (- timedelta_max_days * us_per_day <=? us)
     && (us <? (timedelta_max_days + 1) * us_per_day)
  then Return us
  else Raise (OverflowError "days out of range for timedelta").

(** [timedelta(unit=v)] for a unit of [unit_us] microseconds. *)
Definition make_timedelta (p : platform) (unit_us : Z) (v : pyval) : outcome timedelta :=
  match v with
  | PInt z => check_timedelta (z * unit_us)
  | PBool b => check_timedelta (Z.b2z b * unit_us)
  | PFloat f => us <~ micros_of_float p f unit_us ;; check_timedelta us
  | _ => Raise (TypeError "unsupported type for timedelta component")
  end.

(** [d + delta] on a datetime. *)
Definition datetime_add (d : datetime) (delta : timedelta) : outcome datetime :=
  let us := dt_micros d + delta in
  if (0 <=? us) && (us <=? datetime_max)
  then Return (DateTime us (dt_offset d))
  else Raise (OverflowError "date value out of range").

(** [a - b] on datetimes. *)
Definition datetime_diff (a b : datetime) : outcome timedelta :=
  match dt_offset a, dt_offset b with
  | None, None => Return (dt_micros a - dt_micros b)
  | Some oa, Some ob => Return ((dt_micros a - oa) - (dt_micros b - ob))
  | _, _ => Raise (TypeError "can't subtract offset-naive and offset-aware datetimes")
  end.

(** [a >= b] on datetimes. *)
Definition datetime_ge (a b : datetime) : outcome bool :=
  match dt_offset a, dt_offset b with
  | None, None => Return (dt_micros b <=? dt_micros a)
  | Some oa, Some ob => Return (dt_micros b - ob <=? dt_micros a - oa)
  | _, _ => Raise (TypeError "can't compare offset-naive and offset-aware datetimes")
  end.

(** [n * v] for a positive integer literal [n]. *)
Definition int_times (p : platform) (n : Z) (v : pyval) : outcome pyval :=
  match v with
  | PInt z => Return (PInt (n * z))
  | PBool b => Return (PInt (n * Z.b2z b))
  | PFloat f => Return (PFloat (float_times p n f))
  | PStr s => Return (PStr (String.concat "" (repeat s (Z.to_nat n))))
  | PBytes b => Return (PBytes (List.concat (repeat b (Z.to_nat n))))
  | PList l => Return (PList (List.concat (repeat l (Z.to_nat n))))
  | PNone | PDict _ => Raise (TypeError "unsupported operand type(s) for *")
  end.

(** [int(v)] *)
Definition py_int (p : platform) (v : pyval) : outcome Z :=
  match v with
  | PBool b => Return (Z.b2z b)
  | PInt z => Return z
  | PFloat f => int_of_float p f
  | PStr s =>
      match int_of_text p s with
      | Some z => Return z
      | None => Raise (ValueError "invalid literal for int()")
      end
  | PBytes b =>
      match int_of_bytes p b with
      | Some z => Return z
      | None => Raise (ValueError "invalid literal for int()")
      end
  | PNone | PList _ | PDict _ =>
      Raise (TypeError "int() argument must be a string, a bytes-like object or a real number")
  end.

(** [v[k]] for a string literal [k]. *)
Definition py_getitem (v : pyval) (k : string) : outcome pyval :=
  match v with
  | PDict d =>
      match dict_get d k with
      | Some x => Return x
      | None => Raise (KeyError k)
      end
  | PStr _ | PBytes _ | PList _ =>
      Raise (TypeError "indices must be integers or slices, not str")
  | _ => Raise (TypeError "object is not subscriptable")
  end.

(** [v.get(k, default)] *)
Definition py_get (v : pyval) (k : string) (default : pyval) : outcome pyval :=
  match v with
  | PDict d =>
      match dict_get d k with
      | Some x => Return x
      | None => Return default
      end
  | _ => Raise (AttributeError "object has no attribute 'get'")
  end.

(** [v.items()] *)
Definition py_items (v : pyval) : outcome (list (string * pyval)) :=
  match v with
  | PDict d => Return d
  | _ => Raise (AttributeError "object has no attribute 'items'")
  end.

(** The elements visited by [for x in v]. *)
Definition py_iter (v : pyval) : outcome (list pyval) :=
  match v with
  | PList l => Return l
  | PStr s => Return (map (fun c => PStr (String c EmptyString)) (list_ascii_of_string s))
  | PBytes b => Return (map (fun x => PInt (Z.of_N (Byte.to_N x))) b)
  | PDict d => Return (map (fun kv => PStr (fst kv)) d)
  | _ => Raise (TypeError "object is not iterable")
  end.

(** [a < b] on datetimes. *)
Definition datetime_lt (a b : datetime) : outcome bool :=
  match dt_offset a, dt_offset b with
  | None, None => Return (dt_micros a <? dt_micros b)
  | Some oa, Some ob => Return (dt_micros a - oa <? dt_micros b - ob)
  | _, _ => Raise (TypeError "can't compare offset-naive and offset-aware datetimes")
  end.

(** [a <= b] on datetimes. *)
Definition datetime_le (a b : datetime) : outcome bool :=
  match dt_offset a, dt_offset b with
  | None, None => Return (dt_micros a <=? dt_micros b)
  | Some oa, Some ob => Return (dt_micros a - oa <=? dt_micros b - ob)
  | _, _ => Raise (TypeError "can't compare offset-naive and offset-aware datetimes")
  end.

(** [s in t] on strings: [s] occurs in [t]. *)
Definition is_substring (s t : string) : bool :=
  match String.index 0 s t with
  | Some _ => true
  | None => false
  end.

(** [s in v] for a string [s]: an equal element of a list, a substring of
    a string, a key of a dictionary. *)
Definition py_contains (v : pyval) (s : string) : outcome bool :=
  match v with
  | PList l => Return (existsb (fun x => eq_str x s) l)
  | PStr t => Return (is_substring s t)
  | PDict d => Return (existsb (String.eqb s) (dict_keys d))
  | PBytes _ => Raise (TypeError "a bytes-like object is required, not 'str'")
  | _ => Raise (TypeError "argument is not iterable")
  end.

(** [v.append(x)] *)
Definition py_append (v : pyval) (x : pyval) : outcome pyval :=
  match v with
  | PList l => Return (PList (l ++ [x])%list)
  | _ => Raise (AttributeError "object has no attribute 'append'")
  end.

(** The list without its first element equal to the string [s]. *)
Fixpoint remove_first (s : string) (l : list pyval) : list pyval :=
  match l with
  | [] => []
  | x :: l' => if eq_str x s then l' else x :: remove_first s l'
  end.

(** [v.remove(s)] for a string [s]. *)
Definition py_remove (v : pyval) (s : string) : outcome pyval :=
  match v with
  | PList l =>
      if existsb (fun x => eq_str x s) l then Return (PList (remove_first s l))
      else Raise (ValueError "list.remove(x): x not in list")
  | _ => Raise (AttributeError "object has no attribute 'remove'")
  end.

(** [v.copy()] *)
Definition py_copy (v : pyval) : outcome pyval :=
  match v with
  | PList l => Return (PList l)
  | PDict d => Return (PDict d)
  | _ => Raise (AttributeError "object has no attribute 'copy'")
  end.

(** Whether a value can be a dictionary key. *)
Definition hashable (v : pyval) : bool :=
  match v with
  | PList _ | PDict _ => false
  | _ => true
  end.

(* ================================================================= *)
(** ** models.py *)

Module TimeEntry.

(** Time tracking entry for a task. *)
Record t := mk {
  id : pyval;
  start_time : pyval;
  end_time : pyval;
  duration_minutes : pyval;
  notes : pyval
}.

(** The declared fields, in declaration order. *)
Definition field_names : list string :=
  ["id"; "start_time"; "end_time"; "duration_minutes"; "notes"].

(** The default of each field: a constant, or the call of its
    [default_factory]. *)
Definition declared_default (f : string) : Py pyval :=
  if String.eqb f "id" then uuid4_str else
  if String.eqb f "start_time" then now_isoformat else
  if String.eqb f "end_time" then ret PNone else
  if String.eqb f "duration_minutes" then ret (PFloat (Float64 0)) else
  if String.eqb f "notes" then ret (PStr "") else
  ret PNone.

(** A keyword argument when given, the declared default otherwise. *)
Definition arg (data : dict) (f : string) : Py pyval :=
  match dict_get data f with
  | Some v => ret v
  | None => declared_default f
  end.

(** The first keyword that is not a declared field. *)
Definition unexpected_keyword (data : dict) : option string :=
  find (fun k => negb (existsb (String.eqb k) field_names)) (dict_keys data).

(** The generated [__init__] called with the keywords of [data]: keyword binding fails on an unknown
    keyword before any field is assigned; fields are then assigned in
    declaration order. *)
Definition init (data : dict) : Py t :=
  match unexpected_keyword data with
  | Some k => raise (TypeError ("__init__() got an unexpected keyword argument " ++ k))
  | None =>
      v_id <- arg data "id" ;;
      v_start_time <- arg data "start_time" ;;
      v_end_time <- arg data "end_time" ;;
      v_duration_minutes <- arg data "duration_minutes" ;;
      v_notes <- arg data "notes" ;;
      ret (mk v_id v_start_time v_end_time v_duration_minutes v_notes)
  end.

(** [from_dict]: the class called with the items of [data] as keywords. *)
Definition from_dict (data : pyval) : Py t :=
  match data with
  | PDict d => init d
  | _ => raise (TypeError "argument after ** must be a mapping")
  end.

(** [asdict(self)] *)
Definition to_dict (self : t) : dict :=
  [("id", id self);
   ("start_time", start_time self);
   ("end_time", end_time self);
   ("duration_minutes", duration_minutes self);
   ("notes", notes self)].

Definition set_end_time (v : pyval) (self : t) : t :=
  mk (id self) (start_time self) v (duration_minutes self) (notes self).

Definition set_duration_minutes (v : pyval) (self : t) : t :=
  mk (id self) (start_time self) (end_time self) v (notes self).

End TimeEntry.

Module Task.

(** Main task model with all features. *)
Record t := mk {
  id : pyval;
  title : pyval;
  description : pyval;
  priority : pyval;
  status : pyval;
  created_at : pyval;
  updated_at : pyval;
  due_date : pyval;
  completed_at : pyval;
  categories : pyval;
  tags : pyval;
  is_recurring : pyval;
  recurrence_type : pyval;
  recurrence_interval : pyval;
  last_recurrence : pyval;
  depends_on : pyval;
  blocked_by : pyval;
  time_entries : pyval;
  estimated_minutes : pyval;
  is_template : pyval;
  template_name : pyval;
  reminder_before_minutes : pyval;
  last_reminded : pyval
}.

(** The declared fields, in declaration order. *)
Definition field_names : list string :=
  ["id"; "title"; "description"; "priority"; "status"; "created_at"; "updated_at"; "due_date"; "completed_at"; "categories"; "tags"; "is_recurring"; "recurrence_type"; "recurrence_interval"; "last_recurrence"; "depends_on"; "blocked_by"; "time_entries"; "estimated_minutes"; "is_template"; "template_name"; "reminder_before_minutes"; "last_reminded"].

(** The default of each field: a constant, or the call of its
    [default_factory]. *)
Definition declared_default (f : string) : Py pyval :=
  if String.eqb f "id" then uuid4_str else
  if String.eqb f "title" then ret (PStr "") else
  if String.eqb f "description" then ret (PStr "") else
  if String.eqb f "priority" then ret (PStr "medium") else
  if String.eqb f "status" then ret (PStr "pending") else
  if String.eqb f "created_at" then now_isoformat else
  if String.eqb f "updated_at" then now_isoformat else
  if String.eqb f "due_date" then ret PNone else
  if String.eqb f "completed_at" then ret PNone else
  if String.eqb f "categories" then ret (PList []) else
  if String.eqb f "tags" then ret (PList []) else
  if String.eqb f "is_recurring" then ret (PBool false) else
  if String.eqb f "recurrence_type" then ret PNone else
  if String.eqb f "recurrence_interval" then ret (PInt 1) else
  if String.eqb f "last_recurrence" then ret PNone else
  if String.eqb f "depends_on" then ret (PList []) else
  if String.eqb f "blocked_by" then ret (PList []) else
  if String.eqb f "time_entries" then ret (PList []) else
  if String.eqb f "estimated_minutes" then ret PNone else
  if String.eqb f "is_template" then ret (PBool false) else
  if String.eqb f "template_name" then ret PNone else
  if String.eqb f "reminder_before_minutes" then ret PNone else
  if String.eqb f "last_reminded" then ret PNone else
  ret PNone.

(** A keyword argument when given, the declared default otherwise. *)
Definition arg (data : dict) (f : string) : Py pyval :=
  match dict_get data f with
  | Some v => ret v
  | None => declared_default f
  end.

(** The first keyword that is not a declared field. *)
Definition unexpected_keyword (data : dict) : option string :=
  find (fun k => negb (existsb (String.eqb k) field_names)) (dict_keys data).

(** The generated [__init__] called with the keywords of [data]: keyword binding fails on an unknown
    keyword before any field is assigned; fields are then assigned in
    declaration order. *)
Definition init (data : dict) : Py t :=
  match unexpected_keyword data with
  | Some k => raise (TypeError ("__init__() got an unexpected keyword argument " ++ k))
  | None =>
      v_id <- arg data "id" ;;
      v_title <- arg data "title" ;;
      v_description <- arg data "description" ;;
      v_priority <- arg data "priority" ;;
      v_status <- arg data "status" ;;
      v_created_at <- arg data "created_at" ;;
      v_updated_at <- arg data "updated_at" ;;
      v_due_date <- arg data "due_date" ;;
      v_completed_at <- arg data "completed_at" ;;
      v_categories <- arg data "categories" ;;
      v_tags <- arg data "tags" ;;
      v_is_recurring <- arg data "is_recurring" ;;
      v_recurrence_type <- arg data "recurrence_type" ;;
      v_recurrence_interval <- arg data "recurrence_interval" ;;
      v_last_recurrence <- arg data "last_recurrence" ;;
      v_depends_on <- arg data "depends_on" ;;
      v_blocked_by <- arg data "blocked_by" ;;
      v_time_entries <- arg data "time_entries" ;;
      v_estimated_minutes <- arg data "estimated_minutes" ;;
      v_is_template <- arg data "is_template" ;;
      v_template_name <- arg data "template_name" ;;
      v_reminder_before_minutes <- arg data "reminder_before_minutes" ;;
      v_last_reminded <- arg data "last_reminded" ;;
      ret (mk v_id v_title v_description v_priority v_status v_created_at v_updated_at v_due_date v_completed_at v_categories v_tags v_is_recurring v_recurrence_type v_recurrence_interval v_last_recurrence v_depends_on v_blocked_by v_time_entries v_estimated_minutes v_is_template v_template_name v_reminder_before_minutes v_last_reminded)
  end.

(** [from_dict]: the class called with the items of [data] as keywords. *)
Definition from_dict (data : pyval) : Py t :=
  match data with
  | PDict d => init d
  | _ => raise (TypeError "argument after ** must be a mapping")
  end.

(** [asdict(self)] *)
Definition to_dict (self : t) : dict :=
  [("id", id self);
   ("title", title self);
   ("description", description self);
   ("priority", priority self);
   ("status", status self);
   ("created_at", created_at self);
   ("updated_at", updated_at self);
   ("due_date", due_date self);
   ("completed_at", completed_at self);
   ("categories", categories self);
   ("tags", tags self);
   ("is_recurring", is_recurring self);
   ("recurrence_type", recurrence_type self);
   ("recurrence_interval", recurrence_interval self);
   ("last_recurrence", last_recurrence self);
   ("depends_on", depends_on self);
   ("blocked_by", blocked_by self);
   ("time_entries", time_entries self);
   ("estimated_minutes", estimated_minutes self);
   ("is_template", is_template self);
   ("template_name", template_name self);
   ("reminder_before_minutes", reminder_before_minutes self);
   ("last_reminded", last_reminded self)].

Definition set_id (v : pyval) (self : t) : t :=
  mk v (title self) (description self) (priority self) (status self) (created_at self) (updated_at self) (due_date self) (completed_at self) (categories self) (tags self) (is_recurring self) (recurrence_type self) (recurrence_interval self) (last_recurrence self) (depends_on self) (blocked_by self) (time_entries self) (estimated_minutes self) (is_template self) (template_name self) (reminder_before_minutes self) (last_reminded self).

Definition set_status (v : pyval) (self : t) : t :=
  mk (id self) (title self) (description self) (priority self) v (created_at self) (updated_at self) (due_date self) (completed_at self) (categories self) (tags self) (is_recurring self) (recurrence_type self) (recurrence_interval self) (last_recurrence self) (depends_on self) (blocked_by self) (time_entries self) (estimated_minutes self) (is_template self) (template_name self) (reminder_before_minutes self) (last_reminded self).

Definition set_created_at (v : pyval) (self : t) : t :=
  mk (id self) (title self) (description self) (priority self) (status self) v (updated_at self) (due_date self) (completed_at self) (categories self) (tags self) (is_recurring self) (recurrence_type self) (recurrence_interval self) (last_recurrence self) (depends_on self) (blocked_by self) (time_entries self) (estimated_minutes self) (is_template self) (template_name self) (reminder_before_minutes self) (last_reminded self).

Definition set_updated_at (v : pyval) (self : t) : t :=
  mk (id self) (title self) (description self) (priority self) (status self) (created_at self) v (due_date self) (completed_at self) (categories self) (tags self) (is_recurring self) (recurrence_type self) (recurrence_interval self) (last_recurrence self) (depends_on self) (blocked_by self) (time_entries self) (estimated_minutes self) (is_template self) (template_name self) (reminder_before_minutes self) (last_reminded self).

Definition set_due_date (v : pyval) (self : t) : t :=
  mk (id self) (title self) (description self) (priority self) (status self) (created_at self) (updated_at self) v (completed_at self) (categories self) (tags self) (is_recurring self) (recurrence_type self) (recurrence_interval self) (last_recurrence self) (depends_on self) (blocked_by self) (time_entries self) (estimated_minutes self) (is_template self) (template_name self) (reminder_before_minutes self) (last_reminded self).

Definition set_completed_at (v : pyval) (self : t) : t :=
  mk (id self) (title self) (description self) (priority self) (status self) (created_at self) (updated_at self) (due_date self) v (categories self) (tags self) (is_recurring self) (recurrence_type self) (recurrence_interval self) (last_recurrence self) (depends_on self) (blocked_by self) (time_entries self) (estimated_minutes self) (is_template self) (template_name self) (reminder_before_minutes self) (last_reminded self).

Definition set_last_recurrence (v : pyval) (self : t) : t :=
  mk (id self) (title self) (description self) (priority self) (status self) (created_at self) (updated_at self) (due_date self) (completed_at self) (categories self) (tags self) (is_recurring self) (recurrence_type self) (recurrence_interval self) v (depends_on self) (blocked_by self) (time_entries self) (estimated_minutes self) (is_template self) (template_name self) (reminder_before_minutes self) (last_reminded self).

Definition set_time_entries (v : pyval) (self : t) : t :=
  mk (id self) (title self) (description self) (priority self) (status self) (created_at self) (updated_at self) (due_date self) (completed_at self) (categories self) (tags self) (is_recurring self) (recurrence_type self) (recurrence_interval self) (last_recurrence self) (depends_on self) (blocked_by self) v (estimated_minutes self) (is_template self) (template_name self) (reminder_before_minutes self) (last_reminded self).

Definition set_last_reminded (v : pyval) (self : t) : t :=
  mk (id self) (title self) (description self) (priority self) (status self) (created_at self) (updated_at self) (due_date self) (completed_at self) (categories self) (tags self) (is_recurring self) (recurrence_type self) (recurrence_interval self) (last_recurrence self) (depends_on self) (blocked_by self) (time_entries self) (estimated_minutes self) (is_template self) (template_name self) (reminder_before_minutes self) v.

(** [update_timestamp] *)
Definition update_timestamp (self : t) : Py t :=
  n <- now_isoformat ;;
  ret (set_updated_at n self).

(** [complete]: mark the task as completed. *)
Definition complete (self : t) : Py t :=
  let self := set_status (PStr "completed") self in
  n <- now_isoformat ;;
  let self := set_completed_at n self in
  update_timestamp self.

(** [needs_reminder] *)
Definition needs_reminder (self : t) : Py bool :=
  if negb (truthy (due_date self)) || negb (truthy (reminder_before_minutes self))
  then ret false
  else if eq_str (status self) "completed" then ret false
  else
    due <- call_platform (fun p => py_fromisoformat p (due_date self)) ;;
    delta <- call_platform
               (fun p => make_timedelta p us_per_minute (reminder_before_minutes self)) ;;
    remind_time <- lift (datetime_add due (- delta)) ;;
    n <- now ;;
    reached <- lift (datetime_ge n remind_time) ;;
    if reached then
      if truthy (last_reminded self) then
        last <- call_platform (fun p => py_fromisoformat p (last_reminded self)) ;;
        n' <- now ;;
        since <- lift (datetime_diff n' last) ;;
        (* Don't remind more than once per hour *)
        if since <? us_per_hour then ret false else ret true
      else ret true
    else ret false.

(** [generate_next_recurrence]: the next recurring task instance. *)
Definition generate_next_recurrence (self : t) : Py (option t) :=
  if negb (truthy (is_recurring self)) || negb (truthy (recurrence_type self))
  then ret None
  else
    next_task <- from_dict (PDict (to_dict self)) ;;
    u <- uuid4_str ;;
    let next_task := set_id u next_task in
    let next_task := set_status (PStr "pending") next_task in
    let next_task := set_completed_at PNone next_task in
    c <- now_isoformat ;;
    let next_task := set_created_at c next_task in
    m <- now_isoformat ;;
    let next_task := set_updated_at m next_task in
    let next_task := set_time_entries (PList []) next_task in
    (* Update due date based on recurrence *)
    next_task <-
      (if truthy (due_date self) then
         current_due <- call_platform (fun p => py_fromisoformat p (due_date self)) ;;
         let interval := recurrence_interval self in
         new_due <-
           call_platform (fun p =>
             if eq_str (recurrence_type self) "daily" then
               delta <~ make_timedelta p us_per_day interval ;;
               datetime_add current_due delta
             else if eq_str (recurrence_type self) "weekly" then
               delta <~ make_timedelta p us_per_week interval ;;
               datetime_add current_due delta
             else if eq_str (recurrence_type self) "monthly" then
               (* Approximate month as 30 days *)
               days <~ int_times p 30 interval ;;
               delta <~ make_timedelta p us_per_day days ;;
               datetime_add current_due delta
             else if eq_str (recurrence_type self) "yearly" then
               (* Approximate year as 365 days *)
               days <~ int_times p 365 interval ;;
               delta <~ make_timedelta p us_per_day days ;;
               datetime_add current_due delta
             else Return current_due) ;;
         new_due_text <- call_platform (fun p => Return (PStr (isoformat p new_due))) ;;
         ret (set_due_date new_due_text next_task)
       else ret next_task) ;;
    l <- now_isoformat ;;
    ret (Some (set_last_recurrence l next_task)).

(** The declared fields as keywords of an assignment. *)
Inductive field :=
| f_id
| f_title
| f_description
| f_priority
| f_status
| f_created_at
| f_updated_at
| f_due_date
| f_completed_at
| f_categories
| f_tags
| f_is_recurring
| f_recurrence_type
| f_recurrence_interval
| f_last_recurrence
| f_depends_on
| f_blocked_by
| f_time_entries
| f_estimated_minutes
| f_is_template
| f_template_name
| f_reminder_before_minutes
| f_last_reminded.

Definition field_name (f : field) : string :=
  match f with
  | f_id => "id"
  | f_title => "title"
  | f_description => "description"
  | f_priority => "priority"
  | f_status => "status"
  | f_created_at => "created_at"
  | f_updated_at => "updated_at"
  | f_due_date => "due_date"
  | f_completed_at => "completed_at"
  | f_categories => "categories"
  | f_tags => "tags"
  | f_is_recurring => "is_recurring"
  | f_recurrence_type => "recurrence_type"
  | f_recurrence_interval => "recurrence_interval"
  | f_last_recurrence => "last_recurrence"
  | f_depends_on => "depends_on"
  | f_blocked_by => "blocked_by"
  | f_time_entries => "time_entries"
  | f_estimated_minutes => "estimated_minutes"
  | f_is_template => "is_template"
  | f_template_name => "template_name"
  | f_reminder_before_minutes => "reminder_before_minutes"
  | f_last_reminded => "last_reminded"
  end.

(** [getattr(self, f)] *)
Definition getattr (f : field) (self : t) : pyval :=
  match f with
  | f_id => id self
  | f_title => title self
  | f_description => description self
  | f_priority => priority self
  | f_status => status self
  | f_created_at => created_at self
  | f_updated_at => updated_at self
  | f_due_date => due_date self
  | f_completed_at => completed_at self
  | f_categories => categories self
  | f_tags => tags self
  | f_is_recurring => is_recurring self
  | f_recurrence_type => recurrence_type self
  | f_recurrence_interval => recurrence_interval self
  | f_last_recurrence => last_recurrence self
  | f_depends_on => depends_on self
  | f_blocked_by => blocked_by self
  | f_time_entries => time_entries self
  | f_estimated_minutes => estimated_minutes self
  | f_is_template => is_template self
  | f_template_name => template_name self
  | f_reminder_before_minutes => reminder_before_minutes self
  | f_last_reminded => last_reminded self
  end.

(** [setattr(self, f, v)] *)
Definition setattr (f : field) (v : pyval) (self : t) : t :=
  match f with
  | f_id =>
      mk v (title self) (description self) (priority self) (status self) (created_at self) (updated_at self) (due_date self) (completed_at self) (categories self) (tags self) (is_recurring self) (recurrence_type self) (recurrence_interval self) (last_recurrence self) (depends_on self) (blocked_by self) (time_entries self) (estimated_minutes self) (is_template self) (template_name self) (reminder_before_minutes self) (last_reminded self)
  | f_title =>
      mk (id self) v (description self) (priority self) (status self) (created_at self) (updated_at self) (due_date self) (completed_at self) (categories self) (tags self) (is_recurring self) (recurrence_type self) (recurrence_interval self) (last_recurrence self) (depends_on self) (blocked_by self) (time_entries self) (estimated_minutes self) (is_template self) (template_name self) (reminder_before_minutes self) (last_reminded self)
  | f_description =>
      mk (id self) (title self) v (priority self) (status self) (created_at self) (updated_at self) (due_date self) (completed_at self) (categories self) (tags self) (is_recurring self) (recurrence_type self) (recurrence_interval self) (last_recurrence self) (depends_on self) (blocked_by self) (time_entries self) (estimated_minutes self) (is_template self) (template_name self) (reminder_before_minutes self) (last_reminded self)
  | f_priority =>
      mk (id self) (title self) (description self) v (status self) (created_at self) (updated_at self) (due_date self) (completed_at self) (categories self) (tags self) (is_recurring self) (recurrence_type self) (recurrence_interval self) (last_recurrence self) (depends_on self) (blocked_by self) (time_entries self) (estimated_minutes self) (is_template self) (template_name self) (reminder_before_minutes self) (last_reminded self)
  | f_status =>
      mk (id self) (title self) (description self) (priority self) v (created_at self) (updated_at self) (due_date self) (completed_at self) (categories self) (tags self) (is_recurring self) (recurrence_type self) (recurrence_interval self) (last_recurrence self) (depends_on self) (blocked_by self) (time_entries self) (estimated_minutes self) (is_template self) (template_name self) (reminder_before_minutes self) (last_reminded self)
  | f_created_at =>
      mk (id self) (title self) (description self) (priority self) (status self) v (updated_at self) (due_date self) (completed_at self) (categories self) (tags self) (is_recurring self) (recurrence_type self) (recurrence_interval self) (last_recurrence self) (depends_on self) (blocked_by self) (time_entries self) (estimated_minutes self) (is_template self) (template_name self) (reminder_before_minutes self) (last_reminded self)
  | f_updated_at =>
      mk (id self) (title self) (description self) (priority self) (status self) (created_at self) v (due_date self) (completed_at self) (categories self) (tags self) (is_recurring self) (recurrence_type self) (recurrence_interval self) (last_recurrence self) (depends_on self) (blocked_by self) (time_entries self) (estimated_minutes self) (is_template self) (template_name self) (reminder_before_minutes self) (last_reminded self)
  | f_due_date =>
      mk (id self) (title self) (description self) (priority self) (status self) (created_at self) (updated_at self) v (completed_at self) (categories self) (tags self) (is_recurring self) (recurrence_type self) (recurrence_interval self) (last_recurrence self) (depends_on self) (blocked_by self) (time_entries self) (estimated_minutes self) (is_template self) (template_name self) (reminder_before_minutes self) (last_reminded self)
  | f_completed_at =>
      mk (id self) (title self) (description self) (priority self) (status self) (created_at self) (updated_at self) (due_date self) v (categories self) (tags self) (is_recurring self) (recurrence_type self) (recurrence_interval self) (last_recurrence self) (depends_on self) (blocked_by self) (time_entries self) (estimated_minutes self) (is_template self) (template_name self) (reminder_before_minutes self) (last_reminded self)
  | f_categories =>
      mk (id self) (title self) (description self) (priority self) (status self) (created_at self) (updated_at self) (due_date self) (completed_at self) v (tags self) (is_recurring self) (recurrence_type self) (recurrence_interval self) (last_recurrence self) (depends_on self) (blocked_by self) (time_entries self) (estimated_minutes self) (is_template self) (template_name self) (reminder_before_minutes self) (last_reminded self)
  | f_tags =>
      mk (id self) (title self) (description self) (priority self) (status self) (created_at self) (updated_at self) (due_date self) (completed_at self) (categories self) v (is_recurring self) (recurrence_type self) (recurrence_interval self) (last_recurrence self) (depends_on self) (blocked_by self) (time_entries self) (estimated_minutes self) (is_template self) (template_name self) (reminder_before_minutes self) (last_reminded self)
  | f_is_recurring =>
      mk (id self) (title self) (description self) (priority self) (status self) (created_at self) (updated_at self) (due_date self) (completed_at self) (categories self) (tags self) v (recurrence_type self) (recurrence_interval self) (last_recurrence self) (depends_on self) (blocked_by self) (time_entries self) (estimated_minutes self) (is_template self) (template_name self) (reminder_before_minutes self) (last_reminded self)
  | f_recurrence_type =>
      mk (id self) (title self) (description self) (priority self) (status self) (created_at self) (updated_at self) (due_date self) (completed_at self) (categories self) (tags self) (is_recurring self) v (recurrence_interval self) (last_recurrence self) (depends_on self) (blocked_by self) (time_entries self) (estimated_minutes self) (is_template self) (template_name self) (reminder_before_minutes self) (last_reminded self)
  | f_recurrence_interval =>
      mk (id self) (title self) (description self) (priority self) (status self) (created_at self) (updated_at self) (due_date self) (completed_at self) (categories self) (tags self) (is_recurring self) (recurrence_type self) v (last_recurrence self) (depends_on self) (blocked_by self) (time_entries self) (estimated_minutes self) (is_template self) (template_name self) (reminder_before_minutes self) (last_reminded self)
  | f_last_recurrence =>
      mk (id self) (title self) (description self) (priority self) (status self) (created_at self) (updated_at self) (due_date self) (completed_at self) (categories self) (tags self) (is_recurring self) (recurrence_type self) (recurrence_interval self) v (depends_on self) (blocked_by self) (time_entries self) (estimated_minutes self) (is_template self) (template_name self) (reminder_before_minutes self) (last_reminded self)
  | f_depends_on =>
      mk (id self) (title self) (description self) (priority self) (status self) (created_at self) (updated_at self) (due_date self) (completed_at self) (categories self) (tags self) (is_recurring self) (recurrence_type self) (recurrence_interval self) (last_recurrence self) v (blocked_by self) (time_entries self) (estimated_minutes self) (is_template self) (template_name self) (reminder_before_minutes self) (last_reminded self)
  | f_blocked_by =>
      mk (id self) (title self) (description self) (priority self) (status self) (created_at self) (updated_at self) (due_date self) (completed_at self) (categories self) (tags self) (is_recurring self) (recurrence_type self) (recurrence_interval self) (last_recurrence self) (depends_on self) v (time_entries self) (estimated_minutes self) (is_template self) (template_name self) (reminder_before_minutes self) (last_reminded self)
  | f_time_entries =>
      mk (id self) (title self) (description self) (priority self) (status self) (created_at self) (updated_at self) (due_date self) (completed_at self) (categories self) (tags self) (is_recurring self) (recurrence_type self) (recurrence_interval self) (last_recurrence self) (depends_on self) (blocked_by self) v (estimated_minutes self) (is_template self) (template_name self) (reminder_before_minutes self) (last_reminded self)
  | f_estimated_minutes =>
      mk (id self) (title self) (description self) (priority self) (status self) (created_at self) (updated_at self) (due_date self) (completed_at self) (categories self) (tags self) (is_recurring self) (recurrence_type self) (recurrence_interval self) (last_recurrence self) (depends_on self) (blocked_by self) (time_entries self) v (is_template self) (template_name self) (reminder_before_minutes self) (last_reminded self)
  | f_is_template =>
      mk (id self) (title self) (description self) (priority self) (status self) (created_at self) (updated_at self) (due_date self) (completed_at self) (categories self) (tags self) (is_recurring self) (recurrence_type self) (recurrence_interval self) (last_recurrence self) (depends_on self) (blocked_by self) (time_entries self) (estimated_minutes self) v (template_name self) (reminder_before_minutes self) (last_reminded self)
  | f_template_name =>
      mk (id self) (title self) (description self) (priority self) (status self) (created_at self) (updated_at self) (due_date self) (completed_at self) (categories self) (tags self) (is_recurring self) (recurrence_type self) (recurrence_interval self) (last_recurrence self) (depends_on self) (blocked_by self) (time_entries self) (estimated_minutes self) (is_template self) v (reminder_before_minutes self) (last_reminded self)
  | f_reminder_before_minutes =>
      mk (id self) (title self) (description self) (priority self) (status self) (created_at self) (updated_at self) (due_date self) (completed_at self) (categories self) (tags self) (is_recurring self) (recurrence_type self) (recurrence_interval self) (last_recurrence self) (depends_on self) (blocked_by self) (time_entries self) (estimated_minutes self) (is_template self) (template_name self) v (last_reminded self)
  | f_last_reminded =>
      mk (id self) (title self) (description self) (priority self) (status self) (created_at self) (updated_at self) (due_date self) (completed_at self) (categories self) (tags self) (is_recurring self) (recurrence_type self) (recurrence_interval self) (last_recurrence self) (depends_on self) (blocked_by self) (time_entries self) (estimated_minutes self) (is_template self) (template_name self) (reminder_before_minutes self) v
  end.

(** [is_overdue]: whether the due date has passed. *)
Definition is_overdue (self : t) : Py bool :=
  if negb (truthy (due_date self)) || eq_str (status self) "completed"
  then ret false
  else
    due <- call_platform (fun p => py_fromisoformat p (due_date self)) ;;
    n <- now ;;
    lift (datetime_lt due n).

End Task.

Module TaskTemplate.

(** Template for creating tasks quickly. *)
Record t := mk {
  id : pyval;
  name : pyval;
  title : pyval;
  description : pyval;
  priority : pyval;
  categories : pyval;
  tags : pyval;
  estimated_minutes : pyval;
  reminder_before_minutes : pyval
}.

(** The declared fields, in declaration order. *)
Definition field_names : list string :=
  ["id"; "name"; "title"; "description"; "priority"; "categories"; "tags"; "estimated_minutes"; "reminder_before_minutes"].

(** The default of each field: a constant, or the call of its
    [default_factory]. *)
Definition declared_default (f : string) : Py pyval :=
  if String.eqb f "id" then uuid4_str else
  if String.eqb f "name" then ret (PStr "") else
  if String.eqb f "title" then ret (PStr "") else
  if String.eqb f "description" then ret (PStr "") else
  if String.eqb f "priority" then ret (PStr "medium") else
  if String.eqb f "categories" then ret (PList []) else
  if String.eqb f "tags" then ret (PList []) else
  if String.eqb f "estimated_minutes" then ret PNone else
  if String.eqb f "reminder_before_minutes" then ret PNone else
  ret PNone.

(** A keyword argument when given, the declared default otherwise. *)
Definition arg (data : dict) (f : string) : Py pyval :=
  match dict_get data f with
  | Some v => ret v
  | None => declared_default f
  end.

(** The first keyword that is not a declared field. *)
Definition unexpected_keyword (data : dict) : option string :=
  find (fun k => negb (existsb (String.eqb k) field_names)) (dict_keys data).

(** The generated [__init__] called with the keywords of [data]: keyword binding fails on an unknown
    keyword before any field is assigned; fields are then assigned in
    declaration order. *)
Definition init (data : dict) : Py t :=
  match unexpected_keyword data with
  | Some k => raise (TypeError ("__init__() got an unexpected keyword argument " ++ k))
  | None =>
      v_id <- arg data "id" ;;
      v_name <- arg data "name" ;;
      v_title <- arg data "title" ;;
      v_description <- arg data "description" ;;
      v_priority <- arg data "priority" ;;
      v_categories <- arg data "categories" ;;
      v_tags <- arg data "tags" ;;
      v_estimated_minutes <- arg data "estimated_minutes" ;;
      v_reminder_before_minutes <- arg data "reminder_before_minutes" ;;
      ret (mk v_id v_name v_title v_description v_priority v_categories v_tags v_estimated_minutes v_reminder_before_minutes)
  end.

(** [from_dict]: the class called with the items of [data] as keywords. *)
Definition from_dict (data : pyval) : Py t :=
  match data with
  | PDict d => init d
  | _ => raise (TypeError "argument after ** must be a mapping")
  end.

(** [asdict(self)] *)
Definition to_dict (self : t) : dict :=
  [("id", id self);
   ("name", name self);
   ("title", title self);
   ("description", description self);
   ("priority", priority self);
   ("categories", categories self);
   ("tags", tags self);
   ("estimated_minutes", estimated_minutes self);
   ("reminder_before_minutes", reminder_before_minutes self)].


(** [create_task]: a new task from this template. *)
Definition create_task (self : t) : Py Task.t :=
  task_categories <- lift (py_copy (categories self)) ;;
  task_tags <- lift (py_copy (tags self)) ;;
  Task.init [("title", title self);
             ("description", description self);
             ("priority", priority self);
             ("categories", task_categories);
             ("tags", task_tags);
             ("estimated_minutes", estimated_minutes self);
             ("reminder_before_minutes", reminder_before_minutes self)].

End TaskTemplate.

(* ================================================================= *)
(** ** Collections keyed by id *)

Fixpoint bytes_eqb (a b : list Byte.byte) : bool :=
  match a, b with
  | [], [] => true
  | x :: a', y :: b' => Byte.eqb x y && bytes_eqb a' b'
  | _, _ => false
  end.

(** Equality of dictionary keys.  The keys that occur are [str] (uuids, JSON
    member names, TEXT cells), [None] and [bytes] (NULL and BLOB cells). *)
Definition key_eqb (a b : pyval) : bool :=
  match a, b with
  | PNone, PNone => true
  | PBool x, PBool y => Bool.eqb x y
  | PInt x, PInt y => x =? y
  | PFloat x, PFloat y => float_bits x =? float_bits y
  | PStr x, PStr y => String.eqb x y
  | PBytes x, PBytes y => bytes_eqb x y
  | _, _ => false
  end.

(** A [Dict[str, Task]] or [Dict[str, TaskTemplate]], in insertion order. *)
Definition mapping (A : Type) := list (pyval * A).

Fixpoint mapping_get {A} (m : mapping A) (k : pyval) : option A :=
  match m with
  | [] => None
  | (k', v) :: m' => if key_eqb k k' then Some v else mapping_get m' k
  end.

(** [m[k] = v] *)
Fixpoint mapping_set {A} (m : mapping A) (k : pyval) (v : A) : mapping A :=
  match m with
  | [] => [(k, v)]
  | (k', v') :: m' =>
      if key_eqb k k' then (k', v) :: m' else (k', v') :: mapping_set m' k v
  end.

(** A loop that updates a local variable. *)
Fixpoint fold_py {A S} (f : S -> A -> Py S) (xs : list A) (s : S) : Py S :=
  match xs with
  | [] => ret s
  | x :: xs' => s' <- f s x ;; fold_py f xs' s'
  end.

(** [m.values()], in insertion order. *)
Definition mapping_values {A} (m : mapping A) : list A := map snd m.

(** [del m[k]] *)
Fixpoint mapping_remove {A} (m : mapping A) (k : pyval) : mapping A :=
  match m with
  | [] => []
  | (k', v) :: m' => if key_eqb k k' then m' else (k', v) :: mapping_remove m' k
  end.

(** [m.get(k)] for a key of any type: a list or a dictionary is not
    hashable. *)
Definition mapping_lookup {A} (m : mapping A) (k : pyval) : outcome (option A) :=
  if hashable k then Return (mapping_get m k)
  else Raise (TypeError "unhashable type").

(** models.py, [Task.can_start]: whether all dependencies are met. *)
Definition Task_can_start (self : Task.t) (all_tasks : mapping Task.t) : outcome bool :=
  if negb (truthy (Task.depends_on self)) then Return true
  else
    dep_ids <~ py_iter (Task.depends_on self) ;;
    (fix loop (dep_ids : list pyval) : outcome bool :=
       match dep_ids with
       | [] => Return true
       | dep_id :: dep_ids' =>
           dep_task <~ mapping_lookup all_tasks dep_id ;;
           match dep_task with
           | None => Return false
           | Some dep_task =>
               if negb (eq_str (Task.status dep_task) "completed") then Return false
               else loop dep_ids'
           end
       end) dep_ids.

(* ================================================================= *)
(** ** json and pathlib *)

(** Whether [json.dumps] accepts the value: of the universe, only [bytes]
    is rejected. *)
Fixpoint json_serializable (v : pyval) : bool :=
  match v with
  | PBytes _ => false
  | PList l => forallb json_serializable l
  | PDict d =>
      (fix members (d : list (string * pyval)) : bool :=
         match d with
         | [] => true
         | (_, x) :: d' => json_serializable x && members d'
         end) d
  | _ => true
  end.

(** The member name [json.dumps] writes for a dictionary key. *)
Definition json_key (p : platform) (k : pyval) : outcome string :=
  match k with
  | PStr s => Return s
  | PNone => Return "null"
  | PBool true => Return "true"
  | PBool false => Return "false"
  | PInt z => Return (decimal z)
  | PFloat f => Return (float_repr p f)
  | _ => Raise (TypeError "keys must be str, int, float, bool or None")
  end.

(** [json.dumps({name: {k: record, ...}}, indent=2)].  The result is given
    by the value [json.loads] reads back from it: [json] prints floats with
    [repr] and reads members in order, the last of equal names winning. *)
Definition json_dumps_collection (p : platform) (name : string)
           (records : list (pyval * dict)) : outcome content :=
  members <~
    ofold (fun acc (kr : pyval * dict) =>
             k <~ json_key p (fst kr) ;;
             if json_serializable (PDict (snd kr))
             then Return (dict_set acc k (PDict (snd kr)))
             else Raise (TypeError "Object of type bytes is not JSON serializable"))
          records [] ;;
  Return (JsonText (PDict [(name, PDict members)])).

(** [json.loads(text)] *)
Definition json_loads (c : content) : outcome pyval :=
  match c with
  | JsonText v => Return v
  | Malformed _ => Raise JSONDecodeError
  end.

(** [Path.exists()] *)
Definition path_exists (path : string) : Py bool :=
  fun w => (Return (match fs w path with Absent => false | _ => true end), w).

(** Whether [write_text] can open the file. *)
Definition writable (w : world) (path : string) : bool :=
  match fs w path with
  | Absent | File _ => true
  | ReadOnlyFile _ | Directory => false
  end.

(** The world after [path] was overwritten with [c]. *)
Definition overwritten (path : string) (c : content) (w : world) : world :=
  set_fs (fun p => if String.eqb p path then File c else fs w p) w.

(** [Path.read_text()] *)
Definition read_text (path : string) : Py content :=
  fun w =>
    match fs w path with
    | Absent => (Raise FileNotFoundError, w)
    | File c | ReadOnlyFile c => (Return c, w)
    | Directory => (Raise IsADirectoryError, w)
    end.

(** [Path.write_text(c)]: the file is opened for writing, which fails on a
    directory or a file without write permission, and then holds [c].
    Failures of this file system happen when the file is opened: a write
    that stops after the file was truncated (a full disk, say) is not
    represented. *)
Definition write_text (path : string) (c : content) : Py unit :=
  fun w =>
    match fs w path with
    | Absent | File _ => (Return tt, overwritten path c w)
    | ReadOnlyFile _ => (Raise PermissionError, w)
    | Directory => (Raise IsADirectoryError, w)
    end.

(* ================================================================= *)
(** ** storage.py: JSONStorage *)

Module JSONStorage.

Record t := mk {
  filepath : string;
  templates_filepath : string
}.

(** [_ensure_files]: ensure storage files exist. *)
Definition _ensure_files (self : t) : Py unit :=
  e <- path_exists (filepath self) ;;
  (if e then ret tt
   else write_text (filepath self) (JsonText (PDict [("tasks", PDict [])]))) ;;;
  e' <- path_exists (templates_filepath self) ;;
  (if e' then ret tt
   else write_text (templates_filepath self)
          (JsonText (PDict [("templates", PDict [])]))).

(** [__init__] *)
Definition new (filepath : string) : Py t :=
  let self := mk filepath "templates.json" in
  _ensure_files self ;;;
  ret self.

(** The guarded body of [load_tasks]. *)
Definition load_tasks_body (self : t) : Py (mapping Task.t) :=
  text <- read_text (filepath self) ;;
  data <- lift (json_loads text) ;;
  collection <- lift (py_get data "tasks" (PDict [])) ;;
  items <- lift (py_items collection) ;;
  fold_py (fun tasks (item : string * pyval) =>
             task <- Task.from_dict (snd item) ;;
             ret (mapping_set tasks (PStr (fst item)) task))
          items [].

(** [load_tasks]: load all tasks from storage. *)
Definition load_tasks (self : t) : Py (mapping Task.t) :=
  try_except (load_tasks_body self)
             (fun e => (* print(f"Error loading tasks: {e}") *) ret []).

(** The guarded body of [save_tasks]. *)
Definition save_tasks_body (self : t) (tasks : mapping Task.t) : Py bool :=
  let records := map (fun kt => (fst kt, Task.to_dict (snd kt))) tasks in
  text <- call_platform (fun p => json_dumps_collection p "tasks" records) ;;
  write_text (filepath self) text ;;;
  ret true.

(** [save_tasks]: save all tasks to storage. *)
Definition save_tasks (self : t) (tasks : mapping Task.t) : Py bool :=
  try_except (save_tasks_body self tasks)
             (fun e => (* print(f"Error saving tasks: {e}") *) ret false).

(** The guarded body of [load_templates]. *)
Definition load_templates_body (self : t) : Py (mapping TaskTemplate.t) :=
  text <- read_text (templates_filepath self) ;;
  data <- lift (json_loads text) ;;
  collection <- lift (py_get data "templates" (PDict [])) ;;
  items <- lift (py_items collection) ;;
  fold_py (fun templates (item : string * pyval) =>
             template <- TaskTemplate.from_dict (snd item) ;;
             ret (mapping_set templates (PStr (fst item)) template))
          items [].

(** [load_templates]: load all templates from storage. *)
Definition load_templates (self : t) : Py (mapping TaskTemplate.t) :=
  try_except (load_templates_body self)
             (fun e => (* print(f"Error loading templates: {e}") *) ret []).

(** The guarded body of [save_templates]. *)
Definition save_templates_body (self : t) (templates : mapping TaskTemplate.t)
  : Py bool :=
  let records := map (fun kt => (fst kt, TaskTemplate.to_dict (snd kt))) templates in
  text <- call_platform (fun p => json_dumps_collection p "templates" records) ;;
  write_text (templates_filepath self) text ;;;
  ret true.

(** [save_templates]: save all templates to storage. *)
Definition save_templates (self : t) (templates : mapping TaskTemplate.t) : Py bool :=
  try_except (save_templates_body self templates)
             (fun e => (* print(f"Error saving templates: {e}") *) ret false).

End JSONStorage.

(* ================================================================= *)
(** ** sqlite3 *)

(** The schema created by [SQLiteStorage._init_db]. *)
Definition columns (t : table_name) : list column :=
  match t with
  | tbl_tasks =>
      [Column "id" TEXT false true;
       Column "title" TEXT true false;
       Column "description" TEXT false false;
       Column "priority" TEXT false false;
       Column "status" TEXT false false;
       Column "created_at" TEXT false false;
       Column "updated_at" TEXT false false;
       Column "due_date" TEXT false false;
       Column "completed_at" TEXT false false;
       Column "is_recurring" INTEGER false false;
       Column "recurrence_type" TEXT false false;
       Column "recurrence_interval" INTEGER false false;
       Column "last_recurrence" TEXT false false;
       Column "estimated_minutes" INTEGER false false;
       Column "is_template" INTEGER false false;
       Column "template_name" TEXT false false;
       Column "reminder_before_minutes" INTEGER false false;
       Column "last_reminded" TEXT false false]
  | tbl_task_categories =>
      [Column "task_id" TEXT false false; Column "category" TEXT false false]
  | tbl_task_tags =>
      [Column "task_id" TEXT false false; Column "tag" TEXT false false]
  | tbl_task_dependencies =>
      [Column "task_id" TEXT false false; Column "depends_on_id" TEXT false false]
  | tbl_time_entries =>
      [Column "id" TEXT false true;
       Column "task_id" TEXT false false;
       Column "start_time" TEXT false false;
       Column "end_time" TEXT false false;
       Column "duration_minutes" REAL false false;
       Column "notes" TEXT false false]
  | tbl_templates =>
      [Column "id" TEXT false true;
       Column "name" TEXT true true;
       Column "title" TEXT false false;
       Column "description" TEXT false false;
       Column "priority" TEXT false false;
       Column "estimated_minutes" INTEGER false false;
       Column "reminder_before_minutes" INTEGER false false]
  | tbl_template_categories =>
      [Column "template_id" TEXT false false; Column "category" TEXT false false]
  | tbl_template_tags =>
      [Column "template_id" TEXT false false; Column "tag" TEXT false false]
  end.

Definition table_label (t : table_name) : string :=
  match t with
  | tbl_tasks => "tasks"
  | tbl_task_categories => "task_categories"
  | tbl_task_tags => "task_tags"
  | tbl_task_dependencies => "task_dependencies"
  | tbl_time_entries => "time_entries"
  | tbl_templates => "templates"
  | tbl_template_categories => "template_categories"
  | tbl_template_tags => "template_tags"
  end.

Definition db_set (d : database) (t : table_name) (rows : list row) : database :=
  fun t' => if table_name_eqb t' t then Some rows else d t'.

(** What statements of the connection read and write. *)
Definition view (c : connection) : database :=
  match pending c with
  | Some d => d
  | None => committed c
  end.

Definition get_conn : Py connection := fun w => (Return (conn w), w).

Definition put_conn (c : connection) : Py unit := fun w => (Return tt, set_conn c w).

(** The implicit BEGIN that precedes a DELETE or INSERT outside a
    transaction. *)
Definition begin (c : connection) : connection :=
  Connection (committed c) (Some (view c)).

(** [conn.commit()] *)
Definition commit : Py unit :=
  c <- get_conn ;;
  put_conn (Connection (view c) None).

(** [conn.rollback()] *)
Definition rollback : Py unit :=
  c <- get_conn ;;
  put_conn (Connection (committed c) None).

(** How a Python value is bound to a [?] placeholder. *)
Definition sqlite_bind (v : pyval) : outcome sqlval :=
  match v with
  | PNone => Return SNull
  | PBool b => Return (SInteger (Z.b2z b))
  | PInt z =>
      if (- 2 ^ 63 <=? z) && (z <? 2 ^ 63) then Return (SInteger z)
      else Raise (OverflowError "Python int too large to convert to SQLite INTEGER")
  | PFloat f => Return (SReal f)
  | PStr s => Return (SText s)
  | PBytes b => Return (SBlob b)
  | PList _ | PDict _ =>
      Raise (ProgrammingError "Error binding parameter: type is not supported")
  end.

(** The Python value of a fetched cell. *)
Definition sqlite_fetch (v : sqlval) : pyval :=
  match v with
  | SNull => PNone
  | SInteger z => PInt z
  | SReal f => PFloat f
  | SText s => PStr s
  | SBlob b => PBytes b
  end.

(** Column affinity, applied to a value before it is stored. *)
Definition apply_affinity (p : platform) (a : affinity) (v : sqlval) : sqlval :=
  match a, v with
  | TEXT, SInteger z => SText (decimal z)
  | TEXT, SReal f => SText (sqlite_text_of_real p f)
  | INTEGER, SText s =>
      match sqlite_numeric_of_text p s with
      | Some (inl z) => SInteger z
      | Some (inr f) =>
          match sqlite_int_of_real p f with
          | Some z => SInteger z
          | None => SReal f
          end
      | None => SText s
      end
  | INTEGER, SReal f =>
      match sqlite_int_of_real p f with
      | Some z => SInteger z
      | None => SReal f
      end
  | REAL, SText s =>
      match sqlite_numeric_of_text p s with
      | Some (inl z) => SReal (sqlite_real_of_int p z)
      | Some (inr f) => SReal f
      | None => SText s
      end
  | REAL, SInteger z => SReal (sqlite_real_of_int p z)
  | _, _ => v
  end.

(** The [=] of a WHERE clause and of a uniqueness check: NULL equals
    nothing.  Every compared column has TEXT affinity, so the stored
    operands are NULL, TEXT or BLOB. *)
Definition sql_eqb (a b : sqlval) : bool :=
  match a, b with
  | SInteger x, SInteger y => x =? y
  | SReal x, SReal y => float_bits x =? float_bits y
  | SText x, SText y => String.eqb x y
  | SBlob x, SBlob y => bytes_eqb x y
  | _, _ => false
  end.

(** NOT NULL constraints, column by column. *)
Fixpoint check_not_null (t : table_name) (cols : list column) (cells : row)
  : outcome unit :=
  match cols, cells with
  | c :: cols', v :: cells' =>
      match col_not_null c, v with
      | true, SNull =>
          Raise (IntegrityError
                   ("NOT NULL constraint failed: " ++ table_label t ++ "." ++ col_name c))
      | _, _ => check_not_null t cols' cells'
      end
  | _, _ => Return tt
  end.

(** PRIMARY KEY and UNIQUE constraints against the rows already stored;
    [i] is the position of the first column of [cols]. *)
Fixpoint check_unique (t : table_name) (i : nat) (cols : list column)
         (cells : row) (rows : list row) : outcome unit :=
  match cols, cells with
  | c :: cols', v :: cells' =>
      if col_unique c && existsb (fun r => sql_eqb (nth i r SNull) v) rows
      then Raise (IntegrityError
                    ("UNIQUE constraint failed: " ++ table_label t ++ "." ++ col_name c))
      else check_unique t (S i) cols' cells' rows
  | _, _ => Return tt
  end.

(** [cursor.execute("DELETE FROM t")] *)
Definition exec_delete (t : table_name) : Py unit :=
  c <- get_conn ;;
  match view c t with
  | None => raise (OperationalError ("no such table: " ++ table_label t))
  | Some _ =>
      let c := begin c in
      put_conn (Connection (committed c) (Some (db_set (view c) t [])))
  end.

(** The rows of table [t] after one more row is inserted: the parameters
    are bound, take the affinity of their columns, and are checked against
    the constraints of the table. *)
Definition insert_row (p : platform) (t : table_name) (rows : list row)
           (params : list pyval) : outcome (list row) :=
  bound <~ omap sqlite_bind params ;;
  let cells :=
    map (fun cv => apply_affinity p (col_affinity (fst cv)) (snd cv))
        (combine (columns t) bound) in
  _ <~ check_not_null t (columns t) cells ;;
  _ <~ check_unique t 0 (columns t) cells rows ;;
  Return (rows ++ [cells])%list.

(** [cursor.execute("INSERT INTO t VALUES (?, ..., ?)", params)] *)
Definition exec_insert (t : table_name) (params : list pyval) : Py unit :=
  c <- get_conn ;;
  match view c t with
  | None => raise (OperationalError ("no such table: " ++ table_label t))
  | Some rows =>
      let c := begin c in
      put_conn c ;;;
      rows' <- call_platform (fun p => insert_row p t rows params) ;;
      put_conn (Connection (committed c) (Some (db_set (view c) t rows')))
  end.

(** A fetched [sqlite3.Row]: the selected columns by name. *)
Definition named_row (t : table_name) (r : row) : list (string * sqlval) :=
  combine (map col_name (columns t)) r.

(** [dict(row)] *)
Definition dict_of_row (r : list (string * sqlval)) : dict :=
  map (fun kv => (fst kv, sqlite_fetch (snd kv))) r.

(** [row[name]] *)
Definition row_get (r : list (string * sqlval)) (name : string) : outcome pyval :=
  match dict_get (dict_of_row r) name with
  | Some v => Return v
  | None => Raise (IndexError "No item with that key")
  end.

(** [cursor.execute("SELECT * FROM t")] followed by [fetchall()]. *)
Definition select_all (t : table_name) : Py (list (list (string * sqlval))) :=
  c <- get_conn ;;
  match view c t with
  | None => raise (OperationalError ("no such table: " ++ table_label t))
  | Some rows => ret (map (named_row t) rows)
  end.

Definition column_index (t : table_name) (name : string) : nat :=
  (fix index (cols : list column) : nat :=
     match cols with
     | [] => 0%nat
     | c :: cols' => if String.eqb (col_name c) name then 0%nat else S (index cols')
     end) (columns t).

(** [cursor.execute("SELECT * FROM t WHERE key = ?", (v,))] followed by
    [fetchall()].  The key column has TEXT affinity, which the comparison
    applies to the bound value. *)
Definition select_where (t : table_name) (key : string) (v : pyval)
  : Py (list (list (string * sqlval))) :=
  c <- get_conn ;;
  match view c t with
  | None => raise (OperationalError ("no such table: " ++ table_label t))
  | Some rows =>
      call_platform (fun p =>
        b <~ sqlite_bind v ;;
        let b := apply_affinity p TEXT b in
        let i := column_index t key in
        Return (map (named_row t) (filter (fun r => sql_eqb (nth i r SNull) b) rows)))
  end.

(** [cursor.execute("CREATE TABLE IF NOT EXISTS t (...)")] with the columns
    of [columns t]. *)
Definition exec_create (t : table_name) : Py unit :=
  c <- get_conn ;;
  match view c t with
  | Some _ => ret tt
  | None =>
      match pending c with
      | Some d => put_conn (Connection (committed c) (Some (db_set d t [])))
      | None => put_conn (Connection (db_set (committed c) t []) None)
      end
  end.

(* ================================================================= *)
(** ** storage.py: SQLiteStorage *)

Module SQLiteStorage.

Record t := mk { db_path : string }.

(** [_init_db]: initialize database schema. *)
Definition _init_db (self : t) : Py unit :=
  exec_create tbl_tasks ;;;
  exec_create tbl_task_categories ;;;
  exec_create tbl_task_tags ;;;
  exec_create tbl_task_dependencies ;;;
  exec_create tbl_time_entries ;;;
  exec_create tbl_templates ;;;
  exec_create tbl_template_categories ;;;
  exec_create tbl_template_tags ;;;
  commit.

(** [__init__] *)
Definition new (db_path : string) : Py t :=
  let self := mk db_path in
  _init_db self ;;;
  ret self.

(** One iteration of the loop of [load_tasks]. *)
Definition load_task (tasks : mapping Task.t) (row : list (string * sqlval))
  : Py (mapping Task.t) :=
  let task_dict := dict_of_row row in
  task_id <- lift (py_getitem (PDict task_dict) "id") ;;
  (* Load categories *)
  rows <- select_where tbl_task_categories "task_id" task_id ;;
  categories <- lift (omap (fun r => row_get r "category") rows) ;;
  let task_dict := dict_set task_dict "categories" (PList categories) in
  (* Load tags *)
  rows <- select_where tbl_task_tags "task_id" task_id ;;
  tags <- lift (omap (fun r => row_get r "tag") rows) ;;
  let task_dict := dict_set task_dict "tags" (PList tags) in
  (* Load dependencies *)
  rows <- select_where tbl_task_dependencies "task_id" task_id ;;
  depends_on <- lift (omap (fun r => row_get r "depends_on_id") rows) ;;
  let task_dict := dict_set task_dict "depends_on" (PList depends_on) in
  let task_dict := dict_set task_dict "blocked_by" (PList []) in
  (* Load time entries *)
  rows <- select_where tbl_time_entries "task_id" task_id ;;
  let task_dict :=
    dict_set task_dict "time_entries"
             (PList (map (fun r => PDict (dict_of_row r)) rows)) in
  (* Convert integers to booleans *)
  is_recurring <- lift (py_getitem (PDict task_dict) "is_recurring") ;;
  let task_dict := dict_set task_dict "is_recurring" (PBool (truthy is_recurring)) in
  is_template <- lift (py_getitem (PDict task_dict) "is_template") ;;
  let task_dict := dict_set task_dict "is_template" (PBool (truthy is_template)) in
  task <- Task.from_dict (PDict task_dict) ;;
  ret (mapping_set tasks task_id task).

(** [load_tasks]: load all tasks from SQLite database. *)
Definition load_tasks (self : t) : Py (mapping Task.t) :=
  rows <- select_all tbl_tasks ;;
  fold_py load_task rows [].

(** The insertion of one time entry of [save_tasks]. *)
Definition save_entry (task : Task.t) (entry : pyval) : Py unit :=
  entry_id <- lift (py_getitem entry "id") ;;
  start_time <- lift (py_getitem entry "start_time") ;;
  end_time <- lift (py_get entry "end_time" PNone) ;;
  duration_minutes <- lift (py_getitem entry "duration_minutes") ;;
  notes <- lift (py_get entry "notes" (PStr "")) ;;
  exec_insert tbl_time_entries
    [entry_id; Task.id task; start_time; end_time; duration_minutes; notes].

(** One iteration of the loop of [save_tasks]. *)
Definition save_task (item : pyval * Task.t) : Py unit :=
  let task := snd item in
  (* Insert task *)
  is_recurring <- call_platform (fun p => py_int p (Task.is_recurring task)) ;;
  is_template <- call_platform (fun p => py_int p (Task.is_template task)) ;;
  exec_insert tbl_tasks
    [Task.id task; Task.title task; Task.description task; Task.priority task;
     Task.status task; Task.created_at task; Task.updated_at task;
     Task.due_date task; Task.completed_at task; PInt is_recurring;
     Task.recurrence_type task; Task.recurrence_interval task;
     Task.last_recurrence task; Task.estimated_minutes task; PInt is_template;
     Task.template_name task; Task.reminder_before_minutes task;
     Task.last_reminded task] ;;;
  (* Insert categories *)
  categories <- lift (py_iter (Task.categories task)) ;;
  for_each categories
    (fun category => exec_insert tbl_task_categories [Task.id task; category]) ;;;
  (* Insert tags *)
  tags <- lift (py_iter (Task.tags task)) ;;
  for_each tags (fun tag => exec_insert tbl_task_tags [Task.id task; tag]) ;;;
  (* Insert dependencies *)
  depends_on <- lift (py_iter (Task.depends_on task)) ;;
  for_each depends_on
    (fun dep_id => exec_insert tbl_task_dependencies [Task.id task; dep_id]) ;;;
  (* Insert time entries *)
  time_entries <- lift (py_iter (Task.time_entries task)) ;;
  for_each time_entries (save_entry task).

(** The statements of [save_tasks] up to the commit. *)
Definition replace_tasks (tasks : mapping Task.t) : Py unit :=
  (* Clear existing data *)
  exec_delete tbl_tasks ;;;
  exec_delete tbl_task_categories ;;;
  exec_delete tbl_task_tags ;;;
  exec_delete tbl_task_dependencies ;;;
  exec_delete tbl_time_entries ;;;
  for_each tasks save_task.

(** The guarded body of [save_tasks]. *)
Definition save_tasks_body (self : t) (tasks : mapping Task.t) : Py bool :=
  replace_tasks tasks ;;;
  commit ;;;
  ret true.

(** [save_tasks]: save all tasks to SQLite database. *)
Definition save_tasks (self : t) (tasks : mapping Task.t) : Py bool :=
  try_except (save_tasks_body self tasks)
             (fun e => (* print(f"Error saving tasks: {e}") *)
                rollback ;;; ret false).

(** One iteration of the loop of [load_templates]. *)
Definition load_template (templates : mapping TaskTemplate.t)
           (row : list (string * sqlval)) : Py (mapping TaskTemplate.t) :=
  let template_dict := dict_of_row row in
  template_id <- lift (py_getitem (PDict template_dict) "id") ;;
  (* Load categories *)
  rows <- select_where tbl_template_categories "template_id" template_id ;;
  categories <- lift (omap (fun r => row_get r "category") rows) ;;
  let template_dict := dict_set template_dict "categories" (PList categories) in
  (* Load tags *)
  rows <- select_where tbl_template_tags "template_id" template_id ;;
  tags <- lift (omap (fun r => row_get r "tag") rows) ;;
  let template_dict := dict_set template_dict "tags" (PList tags) in
  template <- TaskTemplate.from_dict (PDict template_dict) ;;
  ret (mapping_set templates template_id template).

(** [load_templates]: load all templates from database. *)
Definition load_templates (self : t) : Py (mapping TaskTemplate.t) :=
  rows <- select_all tbl_templates ;;
  fold_py load_template rows [].

(** One iteration of the loop of [save_templates]. *)
Definition save_template (item : pyval * TaskTemplate.t) : Py unit :=
  let template := snd item in
  exec_insert tbl_templates
    [TaskTemplate.id template; TaskTemplate.name template;
     TaskTemplate.title template; TaskTemplate.description template;
     TaskTemplate.priority template; TaskTemplate.estimated_minutes template;
     TaskTemplate.reminder_before_minutes template] ;;;
  (* Insert categories *)
  categories <- lift (py_iter (TaskTemplate.categories template)) ;;
  for_each categories
    (fun category =>
       exec_insert tbl_template_categories [TaskTemplate.id template; category]) ;;;
  (* Insert tags *)
  tags <- lift (py_iter (TaskTemplate.tags template)) ;;
  for_each tags
    (fun tag => exec_insert tbl_template_tags [TaskTemplate.id template; tag]).

(** The statements of [save_templates] up to the commit. *)
Definition replace_templates (templates : mapping TaskTemplate.t) : Py unit :=
  (* Clear existing data *)
  exec_delete tbl_templates ;;;
  exec_delete tbl_template_categories ;;;
  exec_delete tbl_template_tags ;;;
  for_each templates save_template.

(** The guarded body of [save_templates]. *)
Definition save_templates_body (self : t) (templates : mapping TaskTemplate.t)
  : Py bool :=
  replace_templates templates ;;;
  commit ;;;
  ret true.

(** [save_templates]: save all templates to database. *)
Definition save_templates (self : t) (templates : mapping TaskTemplate.t) : Py bool :=
  try_except (save_templates_body self templates)
             (fun e => (* print(f"Error saving templates: {e}") *)
                rollback ;;; ret false).

End SQLiteStorage.

(* ================================================================= *)
(** ** The storage interface *)

(** What the business layer uses of a backend. *)
Class Storage (S : Type) := {
  storage_load_tasks : S -> Py (mapping Task.t);
  storage_save_tasks : S -> mapping Task.t -> Py bool;
  storage_load_templates : S -> Py (mapping TaskTemplate.t);
  storage_save_templates : S -> mapping TaskTemplate.t -> Py bool
}.

#[export] Instance JSONStorage_Storage : Storage JSONStorage.t := {
  storage_load_tasks := JSONStorage.load_tasks;
  storage_save_tasks := JSONStorage.save_tasks;
  storage_load_templates := JSONStorage.load_templates;
  storage_save_templates := JSONStorage.save_templates
}.

#[export] Instance SQLiteStorage_Storage : Storage SQLiteStorage.t := {
  storage_load_tasks := SQLiteStorage.load_tasks;
  storage_save_tasks := SQLiteStorage.save_tasks;
  storage_load_templates := SQLiteStorage.load_templates;
  storage_save_templates := SQLiteStorage.save_templates
}.

(* ================================================================= *)
(** ** business_logic.py: TaskManager *)

Module TaskManager.
Section WithStorage.

Context {S : Type} `{Storage S}.

Record t := mk {
  storage : S;
  tasks : mapping Task.t;
  templates : mapping TaskTemplate.t
}.

Definition set_tasks (m : mapping Task.t) (self : t) : t :=
  mk (storage self) m (templates self).

(** A method of the manager: it may update the manager in place, also when
    it ends by raising. *)
Definition Method (A : Type) : Type := t -> world -> outcome A * t * world.

Definition mret {A} (a : A) : Method A := fun self w => (Return a, self, w).

Definition mbind {A B} (m : Method A) (k : A -> Method B) : Method B :=
  fun self w =>
    match m self w with
    | (Return a, self', w') => k a self' w'
    | (Raise e, self', w') => (Raise e, self', w')
    end.

(** A computation that does not touch the manager. *)
Definition call {A} (m : Py A) : Method A :=
  fun self w => let (o, w') := m w in (o, self, w').

Definition this : Method t := fun self w => (Return self, self, w).

Definition update (f : t -> t) : Method unit := fun self w => (Return tt, f self, w).

(** [load]: load tasks and templates from storage. *)
Definition load : Method unit :=
  mbind this (fun self =>
  mbind (call (storage_load_tasks (storage self))) (fun loaded_tasks =>
  mbind (update (set_tasks loaded_tasks)) (fun _ =>
  mbind (call (storage_load_templates (storage self))) (fun loaded_templates =>
  update (fun self => mk (storage self) (tasks self) loaded_templates))))).

(** [save]: save tasks and templates to storage. *)
Definition save : Method unit :=
  mbind this (fun self =>
  mbind (call (storage_save_tasks (storage self) (tasks self))) (fun _ =>
  mbind (call (storage_save_templates (storage self) (templates self))) (fun _ =>
  mret tt))).

(** [complete_task]: mark a task as completed and handle recurrence.  The
    task object is the one held by [self.tasks], so its completion shows
    there at once. *)
Definition complete_task (task_id : pyval) : Method (option Task.t) :=
  mbind this (fun self =>
  match mapping_get (tasks self) task_id with
  | None => mret None
  | Some task =>
      mbind (call (Task.complete task)) (fun task =>
      mbind (update (fun self => set_tasks (mapping_set (tasks self) task_id task) self))
            (fun _ =>
      (* Generate next recurring instance if applicable *)
      mbind (if truthy (Task.is_recurring task) then
               mbind (call (Task.generate_next_recurrence task)) (fun next_task =>
               match next_task with
               | Some next_task =>
                   update (fun self =>
                             set_tasks (mapping_set (tasks self) (Task.id next_task)
                                                    next_task) self)
               | None => mret tt
               end)
             else mret tt) (fun _ =>
      mbind save (fun _ =>
      mret (Some task)))))
  end).


Declare Scope method_scope.
Delimit Scope method_scope with method.
Notation "x <- m ;; k" := (mbind m (fun x => k))
  (at level 61, m at next level, right associativity) : method_scope.
Notation "m ;;; k" := (mbind m (fun _ => k))
  (at level 61, right associativity) : method_scope.
Local Open Scope method_scope.

(** A loop of a method that updates a local variable. *)
Fixpoint mfold {A B} (f : B -> A -> Method B) (xs : list A) (b : B) : Method B :=
  match xs with
  | [] => mret b
  | x :: xs' => b' <- f b x ;; mfold f xs' b'
  end.

Definition set_templates (m : mapping TaskTemplate.t) (self : t) : t :=
  mk (storage self) (tasks self) m.

(** [__init__] *)
Definition new (storage : S) : Py t :=
  fun w =>
    match load (mk storage [] []) w with
    | (Return _, self, w') => (Return self, w')
    | (Raise e, _, w') => (Raise e, w')
    end.

(** [self.tasks[key] = task]; also how a change made in place to the task
    that [self.tasks] holds under [key] shows in the manager. *)
Definition put_task (key : pyval) (task : Task.t) : Method unit :=
  update (fun self => set_tasks (mapping_set (tasks self) key task) self).

(** The end of the methods that changed the task under [key] in place:
    [task.update_timestamp()] and [self.save()]. *)
Definition changed (key : pyval) (task : Task.t) : Method Task.t :=
  put_task key task ;;;
  task <- call (Task.update_timestamp task) ;;
  put_task key task ;;;
  save ;;;
  mret task.

(** [x or []] *)
Definition or_empty (x : pyval) : pyval := if truthy x then x else PList [].

(** [for key, value in kwargs.items(): setattr(task, key, value)], for
    keywords that are declared fields (for which [hasattr] holds). *)
Definition assign (kwargs : list (Task.field * pyval)) (task : Task.t) : Task.t :=
  fold_left (fun task kv => Task.setattr (fst kv) (snd kv) task) kwargs task.

(** [create_task]: create a new task. *)
Definition create_task (title description priority due_date categories tags : pyval)
  : Method Task.t :=
  task <- call (Task.init [("title", title);
                           ("description", description);
                           ("priority", priority);
                           ("due_date", due_date);
                           ("categories", or_empty categories);
                           ("tags", or_empty tags)]) ;;
  put_task (Task.id task) task ;;;
  save ;;;
  mret task.

(** [get_task]: get a task by id. *)
Definition get_task (task_id : string) : Method (option Task.t) :=
  self <- this ;;
  mret (mapping_get (tasks self) (PStr task_id)).

(** [update_task]: update task properties. *)
Definition update_task (task_id : string) (kwargs : list (Task.field * pyval))
  : Method (option Task.t) :=
  self <- this ;;
  match mapping_get (tasks self) (PStr task_id) with
  | None => mret None
  | Some task =>
      task <- changed (PStr task_id) (assign kwargs task) ;;
      mret (Some task)
  end.

(** [delete_task]: delete a task. *)
Definition delete_task (task_id : string) : Method bool :=
  self <- this ;;
  match mapping_get (tasks self) (PStr task_id) with
  | Some _ =>
      update (fun self => set_tasks (mapping_remove (tasks self) (PStr task_id)) self) ;;;
      save ;;;
      mret true
  | None => mret false
  end.

(** [set_priority] *)
Definition set_priority (task_id : string) (priority : pyval) : Method (option Task.t) :=
  update_task task_id [(Task.f_priority, priority)].

(** [get_tasks_by_priority]: all tasks with a specific priority. *)
Definition get_tasks_by_priority (priority : string) : Method (list Task.t) :=
  self <- this ;;
  mret (filter (fun task => eq_str (Task.priority task) priority)
               (mapping_values (tasks self))).

(** [set_due_date]: set task due date and optional reminder. *)
Definition set_due_date (task_id : string) (due_date reminder_minutes : pyval)
  : Method (option Task.t) :=
  update_task task_id [(Task.f_due_date, due_date);
                       (Task.f_reminder_before_minutes, reminder_minutes)].

(** [get_overdue_tasks] *)
Definition get_overdue_tasks : Method (list Task.t) :=
  self <- this ;;
  call (filter_py Task.is_overdue (mapping_values (tasks self))).

(** [get_tasks_due_soon]: tasks due within the given number of hours. *)
Definition get_tasks_due_soon (hours : pyval) : Method (list Task.t) :=
  self <- this ;;
  call (n <- now ;;
        delta <- call_platform (fun p => make_timedelta p us_per_hour hours) ;;
        threshold <- lift (datetime_add n delta) ;;
        fold_py (fun due_soon task =>
                   if truthy (Task.due_date task)
                      && negb (eq_str (Task.status task) "completed")
                   then
                     due <- call_platform
                              (fun p => py_fromisoformat p (Task.due_date task)) ;;
                     after_now <- lift (datetime_le n due) ;;
                     if after_now then
                       before_threshold <- lift (datetime_le due threshold) ;;
                       ret (if before_threshold then due_soon ++ [task] else due_soon)%list
                     else ret due_soon
                   else ret due_soon)
                (mapping_values (tasks self)) [])%py.

(** One iteration of the loop of [check_reminders]. *)
Definition remind (tasks_to_remind : list Task.t) (item : pyval * Task.t)
  : Method (list Task.t) :=
  needed <- call (Task.needs_reminder (snd item)) ;;
  if needed then
    n <- call now_isoformat ;;
    let task := Task.set_last_reminded n (snd item) in
    put_task (fst item) task ;;;
    mret (tasks_to_remind ++ [task])%list
  else mret tasks_to_remind.

(** [check_reminders]: the tasks that need a reminder, marked as reminded. *)
Definition check_reminders : Method (list Task.t) :=
  self <- this ;;
  tasks_to_remind <- mfold remind (tasks self) [] ;;
  match tasks_to_remind with
  | [] => mret tt
  | _ => save
  end ;;;
  mret tasks_to_remind.

(** [add_category] for [f_categories], [add_tag] for [f_tags]: add a label
    to a task. *)
Definition add_label (f : Task.field) (task_id label : string) : Method (option Task.t) :=
  self <- this ;;
  match mapping_get (tasks self) (PStr task_id) with
  | None => mret None
  | Some task =>
      present <- call (lift (py_contains (Task.getattr f task) label)) ;;
      if present then mret (Some task)
      else
        labels <- call (lift (py_append (Task.getattr f task) (PStr label))) ;;
        task <- changed (PStr task_id) (Task.setattr f labels task) ;;
        mret (Some task)
  end.

(** [remove_category] for [f_categories], [remove_tag] for [f_tags]. *)
Definition remove_label (f : Task.field) (task_id label : string)
  : Method (option Task.t) :=
  self <- this ;;
  match mapping_get (tasks self) (PStr task_id) with
  | None => mret None
  | Some task =>
      present <- call (lift (py_contains (Task.getattr f task) label)) ;;
      if present then
        labels <- call (lift (py_remove (Task.getattr f task) label)) ;;
        task <- changed (PStr task_id) (Task.setattr f labels task) ;;
        mret (Some task)
      else mret (Some task)
  end.

Definition add_category := add_label Task.f_categories.
Definition remove_category := remove_label Task.f_categories.
Definition add_tag := add_label Task.f_tags.
Definition remove_tag := remove_label Task.f_tags.

(** [make_recurring] *)
Definition make_recurring (task_id : string) (recurrence_type interval : pyval)
  : Method (option Task.t) :=
  update_task task_id [(Task.f_is_recurring, PBool true);
                       (Task.f_recurrence_type, recurrence_type);
                       (Task.f_recurrence_interval, interval)].

(** [get_recurring_tasks] *)
Definition get_recurring_tasks : Method (list Task.t) :=
  self <- this ;;
  mret (filter (fun task => truthy (Task.is_recurring task))
               (mapping_values (tasks self))).

(** [add_dependency]: add a dependency between tasks. *)
Definition add_dependency (task_id depends_on_id : string) : Method bool :=
  self <- this ;;
  match mapping_get (tasks self) (PStr task_id),
        mapping_get (tasks self) (PStr depends_on_id) with
  | Some task, Some _ =>
      present <- call (lift (py_contains (Task.depends_on task) depends_on_id)) ;;
      (if present then mret tt
       else
         depends_on <- call (lift (py_append (Task.depends_on task)
                                             (PStr depends_on_id))) ;;
         changed (PStr task_id) (Task.setattr Task.f_depends_on depends_on task) ;;;
         mret tt) ;;;
      mret true
  | _, _ => mret false
  end.

(** [remove_dependency] *)
Definition remove_dependency (task_id depends_on_id : string) : Method bool :=
  self <- this ;;
  match mapping_get (tasks self) (PStr task_id) with
  | None => mret false
  | Some task =>
      present <- call (lift (py_contains (Task.depends_on task) depends_on_id)) ;;
      if present then
        depends_on <- call (lift (py_remove (Task.depends_on task) depends_on_id)) ;;
        changed (PStr task_id) (Task.setattr Task.f_depends_on depends_on task) ;;;
        mret true
      else mret false
  end.

(** [get_blocked_tasks]: tasks that are blocked by dependencies. *)
Definition get_blocked_tasks : Method (list Task.t) :=
  self <- this ;;
  call (lift (ofilter (fun task =>
                         if truthy (Task.depends_on task)
                         then (can <~ Task_can_start task (tasks self) ;;
                               Return (negb can))%out
                         else Return false)
                      (mapping_values (tasks self)))).

(** [get_task_dependencies]: the tasks that this task depends on. *)
Definition get_task_dependencies (task_id : string) : Method (list Task.t) :=
  self <- this ;;
  match mapping_get (tasks self) (PStr task_id) with
  | None => mret []
  | Some task =>
      call (lift (dep_ids <~ py_iter (Task.depends_on task) ;;
                  ofold (fun found dep_id =>
                           dep_task <~ mapping_lookup (tasks self) dep_id ;;
                           match dep_task with
                           | Some dep_task => Return (found ++ [dep_task])%list
                           | None => Return found
                           end)
                        dep_ids [])%out)
  end.

(** [start_time_tracking] *)
Definition start_time_tracking (task_id : string) (notes : pyval)
  : Method (option TimeEntry.t) :=
  self <- this ;;
  match mapping_get (tasks self) (PStr task_id) with
  | None => mret None
  | Some task =>
      entry <- call (TimeEntry.init [("notes", notes)]) ;;
      entries <- call (lift (py_append (Task.time_entries task)
                                       (PDict (TimeEntry.to_dict entry)))) ;;
      changed (PStr task_id) (Task.set_time_entries entries task) ;;;
      mret (Some entry)
  end.

(** The entries with the first one whose [id] is [entry_id] replaced. *)
Fixpoint replace_entry (entry_id : string) (replacement : pyval) (entries : list pyval)
  : outcome (list pyval) :=
  match entries with
  | [] => Return []
  | e :: entries' =>
      e_id <~ py_getitem e "id" ;;
      if eq_str e_id entry_id then Return (replacement :: entries')
      else (rest <~ replace_entry entry_id replacement entries' ;; Return (e :: rest))%out
  end%out.

(** The first of the entries whose [id] is [entry_id]: where the loop of
    [stop_time_tracking] stops. *)
Fixpoint find_entry (entry_id : string) (entries : list pyval) : outcome (option pyval) :=
  match entries with
  | [] => Return None
  | entry_dict :: entries' =>
      e_id <~ py_getitem entry_dict "id" ;;
      if eq_str e_id entry_id then Return (Some entry_dict)
      else find_entry entry_id entries'
  end%out.

(** [stop_time_tracking]; [minutes us] is the float
    [timedelta(microseconds=us).total_seconds() / 60]. *)
Definition stop_time_tracking (minutes : Z -> pyfloat) (task_id entry_id : string)
  : Method (option TimeEntry.t) :=
  self <- this ;;
  match mapping_get (tasks self) (PStr task_id) with
  | None => mret None
  | Some task =>
      entries <- call (lift (py_iter (Task.time_entries task))) ;;
      found <- call (lift (find_entry entry_id entries)) ;;
      match found with
      | None => mret None
      | Some entry_dict =>
          entry <- call (TimeEntry.from_dict entry_dict) ;;
          n <- call now_isoformat ;;
          let entry := TimeEntry.set_end_time n entry in
          (* Calculate duration *)
          start <- call (call_platform
                           (fun p => py_fromisoformat p (TimeEntry.start_time entry))) ;;
          finish <- call (call_platform
                            (fun p => py_fromisoformat p (TimeEntry.end_time entry))) ;;
          delta <- call (lift (datetime_diff finish start)) ;;
          let entry := TimeEntry.set_duration_minutes (PFloat (minutes delta)) entry in
          (* Update in task *)
          updated <- call (lift (replace_entry entry_id
                                   (PDict (TimeEntry.to_dict entry)) entries)) ;;
          changed (PStr task_id) (Task.set_time_entries (PList updated) task) ;;;
          mret (Some entry)
      end
  end.

(** [get_active_time_entries]: the entries that were not stopped. *)
Definition get_active_time_entries (task_id : string) : Method (list TimeEntry.t) :=
  self <- this ;;
  match mapping_get (tasks self) (PStr task_id) with
  | None => mret []
  | Some task =>
      call (entries <- lift (py_iter (Task.time_entries task)) ;;
            fold_py (fun active entry_dict =>
                       end_time <- lift (py_get entry_dict "end_time" PNone) ;;
                       if negb (truthy end_time) then
                         entry <- TimeEntry.from_dict entry_dict ;;
                         ret (active ++ [entry])%list
                       else ret active)
                    entries [])%py
  end.

(** [create_template]: create a task template. *)
Definition create_template (name title description priority categories tags : pyval)
  : Method TaskTemplate.t :=
  template <- call (TaskTemplate.init [("name", name);
                                       ("title", title);
                                       ("description", description);
                                       ("priority", priority);
                                       ("categories", or_empty categories);
                                       ("tags", or_empty tags)]) ;;
  update (fun self =>
            set_templates (mapping_set (templates self) (TaskTemplate.id template)
                                       template) self) ;;;
  save ;;;
  mret template.

(** [get_template]: the first template with that name. *)
Definition get_template (template_name : string) : Method (option TaskTemplate.t) :=
  self <- this ;;
  mret (find (fun template => eq_str (TaskTemplate.name template) template_name)
             (mapping_values (templates self))).

(** [list_templates] *)
Definition list_templates : Method (list TaskTemplate.t) :=
  self <- this ;;
  mret (mapping_values (templates self)).

(** [create_task_from_template]: create a task from a template, with
    overrides of declared fields. *)
Definition create_task_from_template (template_name : string)
           (overrides : list (Task.field * pyval)) : Method (option Task.t) :=
  self <- this ;;
  match find (fun template => eq_str (TaskTemplate.name template) template_name)
             (mapping_values (templates self)) with
  | None => mret None
  | Some template =>
      task <- call (TaskTemplate.create_task template) ;;
      (* Apply overrides *)
      let task := assign overrides task in
      (if hashable (Task.id task) then put_task (Task.id task) task
       else call (raise (TypeError "unhashable type"))) ;;;
      save ;;;
      mret (Some task)
  end.

(** [bulk_update]: update multiple tasks at once. *)
Definition bulk_update (task_ids : list string) (kwargs : list (Task.field * pyval))
  : Method (list Task.t) :=
  mfold (fun updated task_id =>
           task <- update_task task_id kwargs ;;
           match task with
           | Some task => mret (updated ++ [task])%list
           | None => mret updated
           end)
        task_ids [].

(** [bulk_complete]: complete multiple tasks at once. *)
Definition bulk_complete (task_ids : list string) : Method (list Task.t) :=
  mfold (fun completed task_id =>
           task <- complete_task (PStr task_id) ;;
           match task with
           | Some task => mret (completed ++ [task])%list
           | None => mret completed
           end)
        task_ids [].

(** [bulk_delete]: delete multiple tasks at once. *)
Definition bulk_delete (task_ids : list string) : Method Z :=
  mfold (fun count task_id =>
           deleted <- delete_task task_id ;;
           mret (if deleted then count + 1 else count))
        task_ids 0.

(** [bulk_set_category] for [f_categories], [bulk_set_tag] for [f_tags]. *)
Definition bulk_set_label (f : Task.field) (task_ids : list string) (label : string)
  : Method (list Task.t) :=
  mfold (fun updated task_id =>
           task <- add_label f task_id label ;;
           match task with
           | Some task => mret (updated ++ [task])%list
           | None => mret updated
           end)
        task_ids [].

Definition bulk_set_category := bulk_set_label Task.f_categories.
Definition bulk_set_tag := bulk_set_label Task.f_tags.

(** Whether an optional criterion of [filter_tasks] was given: [None] and
    the empty string are not. *)
Definition given (criterion : option string) : option string :=
  match criterion with
  | Some s => if String.eqb s "" then None else Some s
  | None => None
  end.

(** [filter_tasks]: filter tasks by various criteria. *)
Definition filter_tasks (status priority category tag : option string)
           (has_due_date : option bool) : Method (list Task.t) :=
  self <- this ;;
  call (lift (
    let results := mapping_values (tasks self) in
    let results :=
      match given status with
      | Some s => filter (fun t => eq_str (Task.status t) s) results
      | None => results
      end in
    let results :=
      match given priority with
      | Some p => filter (fun t => eq_str (Task.priority t) p) results
      | None => results
      end in
    results <~
      match given category with
      | Some c => ofilter (fun t => py_contains (Task.categories t) c) results
      | None => Return results
      end ;;
    results <~
      match given tag with
      | Some g => ofilter (fun t => py_contains (Task.tags t) g) results
      | None => Return results
      end ;;
    Return match has_due_date with
           | Some true => filter (fun t => truthy (Task.due_date t)) results
           | Some false => filter (fun t => negb (truthy (Task.due_date t))) results
           | None => results
           end)%out).

End WithStorage.
Arguments t S : clear implicits.
End TaskManager.

(* ================================================================= *)
(** ** A reference platform *)

(** Concrete worlds on which the model is run.  The ISO-8601 codec handles
    the forms [isoformat] prints, seconds-precision or with microseconds,
    with an optional [+HH:MM] offset (proleptic Gregorian calendar).  The
    numeric text conversions are not called on values of the annotated
    types; here they answer as for text that is not a number. *)
Module Reference.

Definition digit_of (c : ascii) : option Z :=
  let n := Z.of_nat (nat_of_ascii c) in
  if (48 <=? n) && (n <=? 57) then Some (n - 48) else None.

Fixpoint number_of (cs : list ascii) (acc : Z) : option Z :=
  match cs with
  | [] => Some acc
  | c :: cs' =>
      match digit_of c with
      | Some d => number_of cs' (10 * acc + d)
      | None => None
      end
  end.

(** The number written by the [n] characters of [s] from position [i]. *)
Definition field (s : string) (i n : nat) : option Z :=
  let part := substring i n s in
  if Nat.eqb (String.length part) n
  then number_of (list_ascii_of_string part) 0
  else None.

Definition is_leap (y : Z) : bool :=
  ((y mod 4 =? 0) && negb (y mod 100 =? 0)) || (y mod 400 =? 0).

Definition days_in_month (y m : Z) : Z :=
  if m =? 2 then (if is_leap y then 29 else 28)
  else if (m =? 4) || (m =? 6) || (m =? 9) || (m =? 11) then 30
  else 31.

(** Days from 0001-01-01 to the given date. *)
Definition days_from_civil (y m d : Z) : Z :=
  let y' := if m <=? 2 then y - 1 else y in
  let era := y' / 400 in
  let yoe := y' - era * 400 in
  let mp := if 2 <? m then m - 3 else m + 9 in
  let doy := (153 * mp + 2) / 5 + d - 1 in
  let doe := yoe * 365 + yoe / 4 - yoe / 100 + doy in
  era * 146097 + doe - 306.

(** The date that many days after 0001-01-01. *)
Definition civil_from_days (z : Z) : Z * Z * Z :=
  let z := z + 306 in
  let era := z / 146097 in
  let doe := z - era * 146097 in
  let yoe := (doe - doe / 1460 + doe / 36524 - doe / 146096) / 365 in
  let doy := doe - (365 * yoe + yoe / 4 - yoe / 100) in
  let mp := (5 * doy + 2) / 153 in
  let d := doy - (153 * mp + 2) / 5 + 1 in
  let m := if mp <? 10 then mp + 3 else mp - 9 in
  let y := yoe + era * 400 + (if m <=? 2 then 1 else 0) in
  (y, m, d).

Definition char_at (s : string) (i : nat) : string := substring i 1 s.

Definition parse_offset (s : string) : option (option Z) :=
  if String.eqb s "" then Some None
  else
    match field s 1 2, field s 4 2 with
    | Some h, Some m =>
        if Nat.eqb (String.length s) 6 && String.eqb (char_at s 3) ":"
           && (h <? 24) && (m <? 60)
        then
          if String.eqb (char_at s 0) "+"
          then Some (Some ((h * 60 + m) * us_per_minute))
          else if String.eqb (char_at s 0) "-"
          then Some (Some (- ((h * 60 + m) * us_per_minute)))
          else None
        else None
    | _, _ => None
    end.

Definition parse_datetime (s : string) : option datetime :=
  match field s 0 4, field s 5 2, field s 8 2,
        field s 11 2, field s 14 2, field s 17 2 with
  | Some y, Some mo, Some d, Some h, Some mi, Some sec =>
      let shape :=
        String.eqb (char_at s 4) "-" && String.eqb (char_at s 7) "-"
        && String.eqb (char_at s 10) "T" && String.eqb (char_at s 13) ":"
        && String.eqb (char_at s 16) ":" in
      let in_range :=
        (1 <=? y) && (1 <=? mo) && (mo <=? 12) && (1 <=? d)
        && (d <=? days_in_month y mo) && (h <? 24) && (mi <? 60) && (sec <? 60) in
      let fraction :=
        if String.eqb (char_at s 19) "."
        then match field s 20 6 with
             | Some us => Some (us, 26%nat)
             | None => None
             end
        else Some (0, 19%nat) in
      match fraction with
      | Some (us, rest) =>
          match parse_offset (substring rest (String.length s - rest) s) with
          | Some offset =>
              if shape && in_range
              then Some (DateTime
                           (days_from_civil y mo d * us_per_day
                            + ((h * 60 + mi) * 60 + sec) * 1000000 + us)
                           offset)
              else None
          | None => None
          end
      | None => None
      end
  | _, _, _, _, _, _ => None
  end.

Definition pad (width : nat) (n : Z) : string :=
  let s := decimal n in
  String.concat "" (repeat "0" (width - String.length s)) ++ s.

Definition format_datetime (d : datetime) : string :=
  let days := dt_micros d / us_per_day in
  let rest := dt_micros d mod us_per_day in
  let '(y, mo, dd) := civil_from_days days in
  let secs := rest / 1000000 in
  let us := rest mod 1000000 in
  pad 4 y ++ "-" ++ pad 2 mo ++ "-" ++ pad 2 dd ++ "T"
  ++ pad 2 (secs / 3600) ++ ":" ++ pad 2 (secs / 60 mod 60) ++ ":" ++ pad 2 (secs mod 60)
  ++ (if us =? 0 then "" else "." ++ pad 6 us)
  ++ match dt_offset d with
     | None => ""
     | Some off =>
         let minutes := Z.abs off / us_per_minute in
         (if off <? 0 then "-" else "+") ++ pad 2 (minutes / 60) ++ ":"
         ++ pad 2 (minutes mod 60)
     end.

Definition the_platform : platform := {|
  float_repr := fun _ => "nan";
  int_of_float := fun _ => Raise (ValueError "cannot convert float NaN to integer");
  int_of_text := fun s => number_of (list_ascii_of_string s) 0;
  int_of_bytes := fun _ => None;
  float_times := fun _ f => f;
  micros_of_float := fun _ _ => Raise (ValueError "cannot convert float NaN to integer");
  fromisoformat := fun s =>
    match parse_datetime s with
    | Some d => Return d
    | None => Raise (ValueError ("Invalid isoformat string: " ++ s))
    end;
  isoformat := format_datetime;
  sqlite_text_of_real := fun _ => "NaN";
  sqlite_numeric_of_text := fun _ => None;
  sqlite_real_of_int := fun _ => Float64 0;
  sqlite_int_of_real := fun _ => None
|}.

Definition no_tables : database := fun _ => None.

(** 2026-11-03T10:00:00 and one more second at each reading. *)
Definition the_clock (n : nat) : Z :=
  (days_from_civil 2026 11 3 * 86400 + 36000 + Z.of_nat n) * 1000000.

Definition the_uuids (n : nat) : string :=
  "00000000-0000-4000-8000-" ++ pad 12 (Z.of_nat n).

(** A process that starts in an empty directory with no database. *)
Definition empty_world : world := {|
  pf := the_platform;
  clock := the_clock;
  clock_reads := 0;
  uuid_source := the_uuids;
  uuid_drawn := 0;
  fs := fun _ => Absent;
  conn := Connection no_tables None
|}.

End Reference.

(* ================================================================= *)
(** ** Sample data *)

Module Sample.

(** A stopped time entry of 30 minutes and a running one, as
    [TimeEntry.to_dict] gives them. *)
Definition completed_entry : pyval :=
  PDict [("id", PStr "e-1");
         ("start_time", PStr "2026-11-03T08:00:00");
         ("end_time", PStr "2026-11-03T08:30:00");
         ("duration_minutes", PFloat (Float64 4629137466983448576));
         ("notes", PStr "draft")].

Definition active_entry : pyval :=
  PDict [("id", PStr "e-2");
         ("start_time", PStr "2026-11-03T09:00:00");
         ("end_time", PNone);
         ("duration_minutes", PFloat (Float64 0));
         ("notes", PStr "")].

(** The same entries as the rows of the [time_entries] table read back. *)
Definition completed_entry_row : pyval :=
  PDict [("id", PStr "e-1");
         ("task_id", PStr "t-1");
         ("start_time", PStr "2026-11-03T08:00:00");
         ("end_time", PStr "2026-11-03T08:30:00");
         ("duration_minutes", PFloat (Float64 4629137466983448576));
         ("notes", PStr "draft")].

Definition active_entry_row : pyval :=
  PDict [("id", PStr "e-2");
         ("task_id", PStr "t-1");
         ("start_time", PStr "2026-11-03T09:00:00");
         ("end_time", PNone);
         ("duration_minutes", PFloat (Float64 0));
         ("notes", PStr "")].

(** A task with a category, a tag, a dependency (on itself, the only task
    of the collection) and both kinds of time entry. *)
Definition task : Task.t := {|
  Task.id := PStr "t-1";
  Task.title := PStr "Write report";
  Task.description := PStr "";
  Task.priority := PStr "medium";
  Task.status := PStr "pending";
  Task.created_at := PStr "2026-11-03T07:00:00";
  Task.updated_at := PStr "2026-11-03T09:00:00";
  Task.due_date := PNone;
  Task.completed_at := PNone;
  Task.categories := PList [PStr "work"];
  Task.tags := PList [PStr "q4"];
  Task.is_recurring := PBool false;
  Task.recurrence_type := PNone;
  Task.recurrence_interval := PInt 1;
  Task.last_recurrence := PNone;
  Task.depends_on := PList [PStr "t-1"];
  Task.blocked_by := PList [];
  Task.time_entries := PList [completed_entry; active_entry];
  Task.estimated_minutes := PNone;
  Task.is_template := PBool false;
  Task.template_name := PNone;
  Task.reminder_before_minutes := PNone;
  Task.last_reminded := PNone
|}.

Definition tasks : mapping Task.t := [(Task.id task, task)].

(** A second task that reuses the id of a time entry of the first. *)
Definition clashing_task : Task.t :=
  Task.set_time_entries (PList [completed_entry])
    (Task.set_id (PStr "t-2") task).

Definition clashing_tasks : mapping Task.t :=
  [(PStr "t-1", task); (PStr "t-2", clashing_task)].

(** Due at 11:00 on the day the reference clock starts at 10:00. *)
Definition reminder_task : Task.t :=
  Task.mk (PStr "t-3") (PStr "Call the bank") (PStr "") (PStr "high") (PStr "pending")
          (PStr "2026-11-03T09:30:00") (PStr "2026-11-03T09:30:00")
          (PStr "2026-11-03T11:00:00") PNone (PList []) (PList [])
          (PBool false) PNone (PInt 1) PNone (PList []) (PList []) (PList [])
          PNone (PBool false) PNone (PInt 120) PNone.

Definition recurring_task : Task.t :=
  Task.mk (PStr "t-4") (PStr "Water the plants") (PStr "") (PStr "low") (PStr "pending")
          (PStr "2026-11-01T08:00:00") (PStr "2026-11-01T08:00:00")
          (PStr "2026-11-03T11:00:00") PNone (PList [PStr "home"]) (PList [])
          (PBool true) (PStr "daily") (PInt 2) PNone (PList []) (PList [])
          (PList [completed_entry]) PNone (PBool false) PNone PNone PNone.

(** Two templates with different ids and the same name. *)
Definition template_a : TaskTemplate.t :=
  TaskTemplate.mk (PStr "tpl-1") (PStr "standup") (PStr "Daily standup") (PStr "")
                  (PStr "medium") (PList [PStr "work"]) (PList []) (PInt 15) PNone.

Definition template_b : TaskTemplate.t :=
  TaskTemplate.mk (PStr "tpl-2") (PStr "standup") (PStr "Standup notes") (PStr "")
                  (PStr "low") (PList []) (PList [PStr "notes"]) PNone PNone.

Definition templates : list (string * TaskTemplate.t) :=
  [("tpl-1", template_a); ("tpl-2", template_b)].

(** A template with a name of its own. *)
Definition template_c : TaskTemplate.t :=
  TaskTemplate.mk (PStr "tpl-3") (PStr "review") (PStr "Code review") (PNone)
                  (PStr "high") (PList [PStr "work"; PStr "team"]) (PList [PStr "pr"])
                  (PInt 45) (PInt 10).

(** A task record written before the reminder fields existed. *)
Definition old_record : dict :=
  [("id", PStr "t-0"); ("title", PStr "Write report"); ("status", PStr "pending")].

(** A tasks document in which the second record has a field that Task
    does not declare. *)
Definition document_with_unknown_field : dict :=
  [("tasks",
    PDict [("t-0", PDict old_record);
           ("t-9", PDict [("id", PStr "t-9"); ("title", PStr "Paint"); ("color", PStr "red")])])].

Definition json : JSONStorage.t := JSONStorage.mk "tasks.json" "templates.json".

Definition sqlite : SQLiteStorage.t := SQLiteStorage.mk "tasks.db".

(** The process after both backends were constructed. *)
Definition world0 : world :=
  snd (SQLiteStorage.new "tasks.db" (snd (JSONStorage.new "tasks.json" Reference.empty_world))).

(** The tasks file replaced by [document_with_unknown_field]. *)
Definition world_with_unknown_field : world :=
  overwritten "tasks.json" (JsonText (PDict document_with_unknown_field)) world0.

(** The tasks file replaced by text that is no JSON. *)
Definition world_with_malformed_file : world :=
  overwritten "tasks.json" (Malformed "{tasks:") world0.

(** The [tasks] table dropped from the database. *)
Definition world_without_tasks_table : world :=
  set_conn (Connection (fun t => if table_name_eqb t tbl_tasks then None
                                 else committed (conn world0) t) None) world0.

(** The sample task saved in the database. *)
Definition world_with_task : world :=
  snd (SQLiteStorage.save_tasks sqlite tasks world0).

Definition manager : TaskManager.t JSONStorage.t :=
  TaskManager.mk json [(PStr "t-4", recurring_task)] [].

(** The time entries of [task] as records. *)
Definition completed_time_entry : TimeEntry.t :=
  TimeEntry.mk (PStr "e-1") (PStr "2026-11-03T08:00:00") (PStr "2026-11-03T08:30:00")
               (PFloat (Float64 4629137466983448576)) (PStr "draft").

Definition active_time_entry : TimeEntry.t :=
  TimeEntry.mk (PStr "e-2") (PStr "2026-11-03T09:00:00") PNone (PFloat (Float64 0))
               (PStr "").

(** A task that waits for [recurring_task]. *)
Definition dependent_task : Task.t :=
  Task.setattr Task.f_depends_on (PList [PStr "t-4"]) (Task.set_id (PStr "t-5") task).

Definition manager_with_dependency : TaskManager.t JSONStorage.t :=
  TaskManager.mk json [(PStr "t-4", recurring_task); (PStr "t-5", dependent_task)] [].

(** A manager of the task with the running time entry. *)
Definition tracking_manager : TaskManager.t JSONStorage.t :=
  TaskManager.mk json tasks [].

(** A recurring task whose due date is no ISO-8601 text. *)
Definition broken_task : Task.t := Task.set_due_date (PStr "tomorrow") recurring_task.

Definition broken_manager : TaskManager.t JSONStorage.t :=
  TaskManager.mk json [(PStr "t-4", broken_task)] [].

(** A manager over the database that holds one template. *)
Definition template_manager : TaskManager.t SQLiteStorage.t :=
  TaskManager.mk sqlite [] [(PStr "tpl-1", template_a)].

(** A manager over the document backend that holds one template. *)
Definition json_template_manager : TaskManager.t JSONStorage.t :=
  TaskManager.mk json [] [(PStr "tpl-1", template_a)].

Definition untitled_task : Task.t := Task.setattr Task.f_title PNone task.

(** The manager constructed over the database that holds the sample task,
    and the task as it was loaded. *)
Definition loaded_manager : TaskManager.t SQLiteStorage.t :=
  match fst (TaskManager.new sqlite world_with_task) with
  | Return manager => manager
  | Raise _ => TaskManager.mk sqlite [] []
  end.

Definition loaded_task : Task.t :=
  match mapping_get (TaskManager.tasks loaded_manager) (PStr "t-1") with
  | Some loaded => loaded
  | None => task
  end.

(** A manager of the task with a reminder two hours before it is due. *)
Definition reminder_manager : TaskManager.t JSONStorage.t :=
  TaskManager.mk json [(PStr "t-4", recurring_task); (PStr "t-3", reminder_task)] [].

End Sample.

(* ================================================================= *)
(** * Vocabulary of the properties *)

(** A collection keyed by strings. *)
Definition keyed (entity : Type) (items : list (string * entity)) : mapping entity :=
  map (fun kt => (PStr (fst kt), snd kt)) items.

(** The records [save_tasks] and [save_templates] hand to json. *)
Definition records_of (entity : Type) (to_dict : entity -> dict) (m : mapping entity)
  : list (pyval * dict) :=
  map (fun kt => (fst kt, to_dict (snd kt))) m.

(** The members of the JSON object a keyed collection is stored as. *)
Definition members_of (entity : Type) (to_dict : entity -> dict)
           (items : list (string * entity)) : dict :=
  map (fun kt => (fst kt, PDict (to_dict (snd kt)))) items.

(** json can encode every record of the collection. *)
Definition all_serializable (entity : Type) (to_dict : entity -> dict)
           (items : list (string * entity)) : bool :=
  forallb (fun kt => json_serializable (PDict (to_dict (snd kt)))) items.

(** [advances w w']: [w'] is [w] after some clock readings and uuid draws. *)
Definition advances (w w' : world) : Prop :=
  pf w' = pf w /\ clock w' = clock w /\ uuid_source w' = uuid_source w /\
  fs w' = fs w /\ conn w' = conn w /\
  (clock_reads w <= clock_reads w')%nat /\ (uuid_drawn w <= uuid_drawn w')%nat.

(** The tables written by [save_tasks] and by [save_templates]. *)
Definition is_task_table (t : table_name) : bool :=
  match t with
  | tbl_tasks | tbl_task_categories | tbl_task_tags | tbl_task_dependencies
  | tbl_time_entries => true
  | _ => false
  end.

Definition is_template_table (t : table_name) : bool := negb (is_task_table t).

(** [confined P m]: [m] changes nothing of the world but the working copy
    of the open transaction, and there only tables of [P]. *)
Definition confined (P : table_name -> bool) {A} (m : Py A) : Prop :=
  forall w o w', m w = (o, w') ->
    exists c', w' = set_conn c' w /\ committed c' = committed (conn w) /\
               forall t, P t = false -> view c' t = view (conn w) t.

(** [agree P w1 w2]: the two worlds run on the same platform and their
    connections see the same rows in the tables of [P]. *)
Definition agree (P : table_name -> bool) (w1 w2 : world) : Prop :=
  pf w1 = pf w2 /\ forall t, P t = true -> view (conn w1) t = view (conn w2) t.

(** [determined P m]: what [m] returns or raises, and the rows it leaves in
    the tables of [P], depend on the platform and on those tables only. *)
Definition determined (P : table_name -> bool) {A} (m : Py A) : Prop :=
  forall w1 w2, agree P w1 w2 ->
    fst (m w1) = fst (m w2) /\ agree P (snd (m w1)) (snd (m w2)).

(** A run of DELETE statements followed by [k]. *)
Definition delete_all {A} (ts : list table_name) (k : Py A) : Py A :=
  fold_right (fun t k => exec_delete t ;;; k) k ts.

Definition task_tables : list table_name :=
  [tbl_tasks; tbl_task_categories; tbl_task_tags; tbl_task_dependencies;
   tbl_time_entries].

Definition template_tables : list table_name :=
  [tbl_templates; tbl_template_categories; tbl_template_tags].

(** [invariant I m]: [m] keeps [I], also when it raises. *)
Definition invariant (I : world -> Prop) {A} (m : Py A) : Prop :=
  forall w o w', I w -> m w = (o, w') -> I w'.

(** A cell of a TEXT column is NULL, TEXT or BLOB. *)
Definition text_class (v : sqlval) : Prop :=
  match v with
  | SInteger _ | SReal _ => False
  | _ => True
  end.

(** A stored row has one cell per column, and its cells have taken the
    affinity of their columns. *)
Definition row_ok (t : table_name) (r : row) : Prop :=
  List.length r = List.length (columns t) /\
  Forall (fun cv => col_affinity (fst cv) = TEXT -> text_class (snd cv))
         (combine (columns t) r).

(** The tables of [P] exist and hold stored rows. *)
Definition tables_ok (P : table_name -> bool) (w : world) : Prop :=
  forall t, P t = true ->
    exists rows, view (conn w) t = Some rows /\ Forall (row_ok t) rows.

(** The keys of a time entry as [load_tasks] builds it: the columns of the
    [time_entries] table. *)
Definition time_entry_columns : list string :=
  ["id"; "task_id"; "start_time"; "end_time"; "duration_minutes"; "notes"].

Definition entries_carry_task_id (task : Task.t) : Prop :=
  exists entries,
    Task.time_entries task = PList entries /\
    Forall (fun e => exists d, e = PDict d /\ dict_keys d = time_entry_columns) entries.

(** The cell stored in the [name] column for a template. *)
Definition name_cell (p : platform) (template : TaskTemplate.t) : sqlval :=
  match sqlite_bind (TaskTemplate.name template) with
  | Return b => apply_affinity p TEXT b
  | Raise _ => SNull
  end.

(** The [templates] table holds a row with the name [n], on platform [p]. *)
Definition holds_name (p : platform) (n : sqlval) (w : world) : Prop :=
  pf w = p /\
  exists rows r, view (conn w) tbl_templates = Some rows /\ In r rows /\
                 nth 1 r SNull = n.

(** [returns_only Q m]: what [m] returns satisfies [Q]. *)
Definition returns_only {A} (Q : A -> Prop) (m : Py A) : Prop :=
  forall w r w', m w = (Return r, w') -> Q r.

(** Neither save of the backend raises. *)
Definition saves_return {S : Type} `{Storage S} (s : S) : Prop :=
  (forall M w, exists b w', storage_save_tasks s M w = (Return b, w')) /\
  (forall M w, exists b w', storage_save_templates s M w = (Return b, w')).

(** The number of days [generate_next_recurrence] takes for one unit of a
    recurrence type. *)
Definition recurrence_days (recurrence_type : string) : option Z :=
  if String.eqb recurrence_type "daily" then Some 1
  else if String.eqb recurrence_type "weekly" then Some 7
  else if String.eqb recurrence_type "monthly" then Some 30
  else if String.eqb recurrence_type "yearly" then Some 365
  else None.

(** The fields that [generate_next_recurrence] sets anew. *)
Definition regenerated_fields : list Task.field :=
  [Task.f_id; Task.f_status; Task.f_completed_at; Task.f_created_at; Task.f_updated_at;
   Task.f_time_entries; Task.f_due_date; Task.f_last_recurrence].

(** The collection holds a completed task under the id. *)
Definition completed_in (all_tasks : mapping Task.t) (dep_id : string) : bool :=
  match mapping_get all_tasks (PStr dep_id) with
  | Some dep_task => eq_str (Task.status dep_task) "completed"
  | None => false
  end.

(** The world after [if not path.exists(): path.write_text(c)]. *)
Definition ensured (path : string) (c : content) (w : world) : world :=
  match fs w path with
  | Absent => overwritten path c w
  | _ => w
  end.

(** The task after [update_timestamp] in the world [w]. *)
Definition touched (w : world) (task : Task.t) : Task.t :=
  Task.set_updated_at (PStr (isoformat (pf w) (naive (clock w (clock_reads w))))) task.

(** The world after [TaskManager.save]. *)
Definition after_save {S : Type} `{Storage S} (self : TaskManager.t S) (w : world) : world :=
  snd (storage_save_templates (TaskManager.storage self) (TaskManager.templates self)
         (snd (storage_save_tasks (TaskManager.storage self) (TaskManager.tasks self) w))).

(** The elements of a list value. *)
Definition elements (v : pyval) : list pyval :=
  match v with
  | PList l => l
  | _ => []
  end.

(** A criterion of [filter_tasks] holds when it was not given or its test
    succeeds. *)
Definition criterion_holds (criterion : option string) (test : string -> bool) : bool :=
  match TaskManager.given criterion with
  | Some s => test s
  | None => true
  end.

(** The task meets all the criteria given to [filter_tasks]. *)
Definition meets (status priority category tag : option string)
           (has_due_date : option bool) (task : Task.t) : bool :=
  criterion_holds status (eq_str (Task.status task))
  && criterion_holds priority (eq_str (Task.priority task))
  && criterion_holds category
       (fun c => existsb (fun x => eq_str x c) (elements (Task.categories task)))
  && criterion_holds tag
       (fun g => existsb (fun x => eq_str x g) (elements (Task.tags task)))
  && match has_due_date with
     | Some true => truthy (Task.due_date task)
     | Some false => negb (truthy (Task.due_date task))
     | None => true
     end.

(** A time entry as [TimeEntry.to_dict] gives it. *)
Definition entry_dict (entry : TimeEntry.t) : pyval := PDict (TimeEntry.to_dict entry).

(** The entry was not stopped. *)
Definition is_active (entry : TimeEntry.t) : bool := negb (truthy (TimeEntry.end_time entry)).

(** A time entry as [SQLiteStorage.load_tasks] builds it. *)
Definition row_entry (entry : pyval) : Prop :=
  exists d, entry = PDict d /\ dict_keys d = time_entry_columns.

(** [same_stores w0 w]: the world [w] has the platform, the files and the
    database of [w0]; clock readings and uuids may have been consumed. *)
Definition same_stores (w0 w : world) : Prop :=
  pf w = pf w0 /\ fs w = fs w0 /\ conn w = conn w0.

(** The database after CREATE TABLE IF NOT EXISTS for every table of the
    schema. *)
Definition initialised (d : database) : database :=
  fun t => match d t with
           | Some rows => Some rows
           | None => Some []
           end.

(** A run of CREATE TABLE IF NOT EXISTS statements followed by [k]. *)
Definition create_all {A} (ts : list table_name) (k : Py A) : Py A :=
  fold_right (fun t k => exec_create t ;;; k) k ts.

Definition all_tables : list table_name :=
  [tbl_tasks; tbl_task_categories; tbl_task_tags; tbl_task_dependencies;
   tbl_time_entries; tbl_templates; tbl_template_categories; tbl_template_tags].

(** A task for which [needs_reminder] answers before it reads the clock:
    no due date, no reminder, or completed. *)
Definition without_reminder (task : Task.t) : bool :=
  negb (truthy (Task.due_date task))
  || negb (truthy (Task.reminder_before_minutes task))
  || eq_str (Task.status task) "completed".

(** The cell an INSERT stores for a value in a column of the affinity. *)
Definition stored (p : platform) (a : affinity) (v : pyval) : sqlval :=
  match sqlite_bind v with
  | Return b => apply_affinity p a b
  | Raise _ => SNull
  end.

Definition is_str (v : pyval) : bool :=
  match v with
  | PStr _ => true
  | _ => false
  end.

(** Values that a TEXT column gives back as they were stored. *)
Definition text_value (v : pyval) : bool :=
  match v with
  | PNone | PStr _ | PBytes _ => true
  | _ => false
  end.

(** Values that an INTEGER column gives back as they were stored. *)
Definition integer_value (v : pyval) : bool :=
  match v with
  | PNone => true
  | PInt z => (- 2 ^ 63 <=? z) && (z <? 2 ^ 63)
  | _ => false
  end.

(** A list of values that a TEXT column gives back as they were. *)
Definition text_list (v : pyval) : bool :=
  match v with
  | PList l => forallb text_value l
  | _ => false
  end.

(** The rows of a two-column table for the labels of an owner. *)
Definition label_rows (p : platform) (owner labels : pyval) : list row :=
  map (fun label => [stored p TEXT owner; stored p TEXT label]) (elements labels).

(** The tables with an owner column and a value column. *)
Definition label_column (t : table_name) : option string :=
  match t with
  | tbl_task_categories | tbl_template_categories => Some "category"
  | tbl_task_tags | tbl_template_tags => Some "tag"
  | tbl_task_dependencies => Some "depends_on_id"
  | _ => None
  end.

(** [writes t rows' w w']: from [w] to [w'] the table [t] got the rows
    [rows'] and nothing else changed in what statements see. *)
Definition writes (t : table_name) (rows' : list row) (w w' : world) : Prop :=
  view (conn w') t = Some rows' /\
  (forall t', t' <> t -> view (conn w') t' = view (conn w) t') /\
  pf w' = pf w.

Definition storable_template (template : TaskTemplate.t) : bool :=
  is_str (TaskTemplate.id template)
  && is_str (TaskTemplate.name template)
  && text_value (TaskTemplate.title template)
  && text_value (TaskTemplate.description template)
  && text_value (TaskTemplate.priority template)
  && integer_value (TaskTemplate.estimated_minutes template)
  && integer_value (TaskTemplate.reminder_before_minutes template)
  && text_list (TaskTemplate.categories template)
  && text_list (TaskTemplate.tags template).

Definition template_row (p : platform) (template : TaskTemplate.t) : row :=
  [stored p TEXT (TaskTemplate.id template);
   stored p TEXT (TaskTemplate.name template);
   stored p TEXT (TaskTemplate.title template);
   stored p TEXT (TaskTemplate.description template);
   stored p TEXT (TaskTemplate.priority template);
   stored p INTEGER (TaskTemplate.estimated_minutes template);
   stored p INTEGER (TaskTemplate.reminder_before_minutes template)].

Definition template_tables_hold (p : platform) (templates : list TaskTemplate.t)
           (w : world) : Prop :=
  pf w = p /\
  view (conn w) tbl_templates = Some (map (template_row p) templates) /\
  view (conn w) tbl_template_categories
  = Some (flat_map (fun t => label_rows p (TaskTemplate.id t) (TaskTemplate.categories t))
                   templates) /\
  view (conn w) tbl_template_tags
  = Some (flat_map (fun t => label_rows p (TaskTemplate.id t) (TaskTemplate.tags t))
                   templates).

(* ================================================================= *)
(** * Properties *)

(** ** Reasoning about computations *)

Lemma bind_return {A B} (m : Py A) (k : A -> Py B) w a w' :
  m w = (Return a, w') -> bind m k w = k a w'.
Proof. intros E. unfold bind. now rewrite E. Qed.

Lemma bind_raise {A B} (m : Py A) (k : A -> Py B) w e w' :
  m w = (Raise e, w') -> bind m k w = (Raise e, w').
Proof. intros E. unfold bind. now rewrite E. Qed.

Lemma bind_lift_return {A B} (a : A) (k : A -> Py B) w :
  bind (lift (Return a)) k w = k a w.
Proof. reflexivity. Qed.

Lemma bind_inv {A B} (m : Py A) (k : A -> Py B) w b w'' :
  bind m k w = (Return b, w'') ->
  exists a w', m w = (Return a, w') /\ k a w' = (Return b, w'').
Proof.
  unfold bind. destruct (m w) as [[a | e] w'] eqn:E; intros H.
  - now exists a, w'.
  - discriminate.
Qed.

Lemma advances_refl w : advances w w.
Proof. unfold advances. repeat split; auto. Qed.

Lemma advances_trans w1 w2 w3 : advances w1 w2 -> advances w2 w3 -> advances w1 w3.
Proof.
  unfold advances. intros (a1 & a2 & a3 & a4 & a5 & a6 & a7) (b1 & b2 & b3 & b4 & b5 & b6 & b7).
  repeat split; try congruence; lia.
Qed.

Lemma now_isoformat_advances w :
  exists s w', now_isoformat w = (Return (PStr s), w') /\ advances w w'.
Proof.
  eexists. eexists. split; [reflexivity|].
  unfold advances; cbn. repeat split; auto.
Qed.

Lemma uuid4_str_advances w :
  exists s w', uuid4_str w = (Return (PStr s), w') /\ advances w w'.
Proof.
  eexists. eexists. split; [reflexivity|].
  unfold advances; cbn. repeat split; auto.
Qed.

(** ** The entity codec *)

Lemma Task_declared_default_returns f w :
  exists v w', Task.declared_default f w = (Return v, w') /\ advances w w'.
Proof.
  unfold Task.declared_default.
  repeat match goal with
  | |- context [if String.eqb f ?s then _ else _] => destruct (String.eqb f s)
  end;
  try (destruct (uuid4_str_advances w) as (s & w' & E & Hadv); eauto; fail);
  try (destruct (now_isoformat_advances w) as (s & w' & E & Hadv); eauto; fail);
  (eexists; eexists; split; [reflexivity | apply advances_refl]).
Qed.

Lemma Task_arg_spec data f w :
  exists v w', Task.arg data f w = (Return v, w') /\ advances w w' /\
               (dict_get data f = None -> Task.declared_default f w = (Return v, w')) /\
               (forall x, dict_get data f = Some x -> v = x /\ w' = w).
Proof.
  unfold Task.arg. destruct (dict_get data f) as [x|].
  - exists x, w.
    split; [reflexivity | split; [apply advances_refl | split]].
    + discriminate.
    + intros y Hy. injection Hy as ->. now split.
  - destruct (Task_declared_default_returns f w) as (v & w' & E & Hadv).
    exists v, w'.
    split; [exact E | split; [exact Hadv | split]].
    + intros _. exact E.
    + discriminate.
Qed.

Lemma unexpected_keyword_none (names : list string) (data : dict) :
  (forall k, In k (dict_keys data) -> In k names) ->
  find (fun k => negb (existsb (String.eqb k) names)) (dict_keys data) = None.
Proof.
  intros Hk. destruct (find _ _) as [k|] eqn:E; [|reflexivity].
  apply find_some in E. destruct E as [Hin Hneg].
  apply Hk in Hin. apply negb_true_iff in Hneg.
  assert (existsb (String.eqb k) names = true).
  { apply existsb_exists. exists k. split; auto. apply String.eqb_refl. }
  congruence.
Qed.

Lemma unexpected_keyword_some (names : list string) (data : dict) k :
  In k (dict_keys data) -> ~ In k names ->
  exists k', find (fun k => negb (existsb (String.eqb k) names)) (dict_keys data) = Some k'.
Proof.
  intros Hin Hnot.
  destruct (find _ _) as [k'|] eqn:E; [eauto|].
  exfalso. eapply find_none in E; eauto. cbn in E.
  apply negb_false_iff, existsb_exists in E. destruct E as (x & Hx & Heq).
  apply String.eqb_eq in Heq. subst. contradiction.
Qed.

Ltac step_arg spec w0 :=
  match goal with
  | |- context [bind (?arg ?data ?f) ?k ?w] =>
      let v := fresh "v" in
      let w' := fresh "w" in
      let E := fresh "E" in
      let Hadv := fresh "Hadv" in
      let Hd := fresh "Hdefault" in
      let Hg := fresh "Hgiven" in
      destruct (spec data f w) as (v & w' & E & Hadv & Hd & Hg);
      rewrite (bind_return _ _ _ _ _ E);
      match goal with
      | Hprev : advances w0 w |- _ =>
          pose proof (advances_trans _ _ _ Hprev Hadv)
      end
  end.

(** C6. A document-store task record whose keys are declared Task fields
    and from which the field [f] is absent decodes without error, and the
    resulting Task holds for [f] the value of the field's declared default:
    the declared constant, or what the field's default factory returned
    when the constructor called it. *)
Theorem Task_from_dict_missing_field_takes_default :
  forall (data : dict) (f : string) (w : world),
    (forall k, In k (dict_keys data) -> In k Task.field_names) ->
    In f Task.field_names ->
    dict_get data f = None ->
    exists task w' v w0 w1,
      Task.from_dict (PDict data) w = (Return task, w') /\
      dict_get (Task.to_dict task) f = Some v /\
      advances w w0 /\
      Task.declared_default f w0 = (Return v, w1).
Proof.
  intros data f w Hkeys Hf Hmissing.
  pose proof (advances_refl w) as Hrefl.
  unfold Task.from_dict, Task.init, Task.unexpected_keyword.
  rewrite (unexpected_keyword_none _ _ Hkeys).
  repeat step_arg Task_arg_spec w.
  unfold ret.
  cbn in Hf.
  repeat (destruct Hf as [Hf | Hf]; [subst f|]); try contradiction;
  (eexists; eexists; eexists; eexists; eexists;
   split; [reflexivity|];
   split; [reflexivity|];
   split; [|match goal with Hd : dict_get data _ = None -> _ |- _ => apply (Hd Hmissing) end];
   assumption).
Qed.

Lemma Task_from_dict_unknown_key data k w :
  In k (dict_keys data) -> ~ In k Task.field_names ->
  exists msg, Task.from_dict (PDict data) w = (Raise (TypeError msg), w).
Proof.
  intros Hin Hnot. unfold Task.from_dict, Task.init, Task.unexpected_keyword.
  destruct (unexpected_keyword_some _ _ _ Hin Hnot) as (k' & ->).
  eexists. reflexivity.
Qed.

Lemma TimeEntry_from_dict_unknown_key data k w :
  In k (dict_keys data) -> ~ In k TimeEntry.field_names ->
  exists msg, TimeEntry.from_dict (PDict data) w = (Raise (TypeError msg), w).
Proof.
  intros Hin Hnot. unfold TimeEntry.from_dict, TimeEntry.init, TimeEntry.unexpected_keyword.
  destruct (unexpected_keyword_some _ _ _ Hin Hnot) as (k' & ->).
  eexists. reflexivity.
Qed.

(** Encoding then decoding a Task gives the Task back, and calls no
    default factory. *)
Lemma Task_from_dict_to_dict (task : Task.t) (w : world) :
  Task.from_dict (PDict (Task.to_dict task)) w = (Return task, w).
Proof. destruct task. reflexivity. Qed.

Lemma TaskTemplate_from_dict_to_dict (template : TaskTemplate.t) (w : world) :
  TaskTemplate.from_dict (PDict (TaskTemplate.to_dict template)) w = (Return template, w).
Proof. destruct template. reflexivity. Qed.

(** ** Loops *)

(** A loop raises as soon as one of its iterations is bound to raise. *)
Lemma fold_py_raises {A S} (f : S -> A -> Py S) (xs : list A) (x : A) :
  In x xs ->
  (forall s w, exists e w', f s x w = (Raise e, w')) ->
  forall s w, exists e w', fold_py f xs s w = (Raise e, w').
Proof.
  intros Hin Hx. induction xs as [|a xs IH]; [contradiction|].
  intros s w. cbn [fold_py]. unfold bind.
  destruct Hin as [-> | Hin].
  - destruct (Hx s w) as (e & w' & ->). eauto.
  - destruct (f s a w) as [[s' | e] w1]; [apply IH; assumption | eauto].
Qed.

Lemma for_each_raises {A} (body : A -> Py unit) (xs : list A) (x : A) :
  In x xs ->
  (forall w, exists e w', body x w = (Raise e, w')) ->
  forall w, exists e w', for_each xs body w = (Raise e, w').
Proof.
  intros Hin Hx. induction xs as [|a xs IH]; [contradiction|].
  intros w. cbn [for_each]. unfold bind.
  destruct Hin as [-> | Hin].
  - destruct (Hx w) as (e & w' & ->). eauto.
  - destruct (body a w) as [[[] | e] w1]; [apply IH; assumption | eauto].
Qed.

(** ** The document backend *)



(** ** The relational backend: transactions *)

Lemma set_conn_same w : set_conn (conn w) w = w.
Proof. now destruct w. Qed.

Lemma confined_pure P {A} (m : Py A) :
  (forall w, snd (m w) = w) -> confined P m.
Proof.
  intros Hm w o w' E. exists (conn w).
  rewrite set_conn_same. specialize (Hm w). rewrite E in Hm. cbn in Hm.
  repeat split; auto.
Qed.

Lemma confined_ret P {A} (a : A) : confined P (ret a).
Proof. now apply confined_pure. Qed.

Lemma confined_raise P {A} e : confined P (@raise A e).
Proof. now apply confined_pure. Qed.

Lemma confined_lift P {A} (o : outcome A) : confined P (lift o).
Proof. now apply confined_pure. Qed.

Lemma confined_call_platform P {A} (f : platform -> outcome A) :
  confined P (call_platform f).
Proof. now apply confined_pure. Qed.

Lemma confined_bind P {A B} (m : Py A) (k : A -> Py B) :
  confined P m -> (forall a, confined P (k a)) -> confined P (bind m k).
Proof.
  intros Hm Hk w o w' E. unfold bind in E.
  destruct (m w) as [[a | e] w1] eqn:Em.
  - destruct (Hm _ _ _ Em) as (c1 & -> & Hc1 & Hv1).
    destruct (Hk a _ _ _ E) as (c2 & -> & Hc2 & Hv2).
    exists c2. cbn in Hc2, Hv2. repeat split; [congruence|].
    intros t Ht. rewrite Hv2, Hv1; auto.
  - inversion E; subst. eapply Hm; eauto.
Qed.

Lemma confined_for_each P {A} (body : A -> Py unit) (xs : list A) :
  (forall x, confined P (body x)) -> confined P (for_each xs body).
Proof.
  intros Hb. induction xs as [|x xs IH]; cbn [for_each].
  - apply confined_ret.
  - apply confined_bind; auto.
Qed.

Lemma table_name_eqb_eq a b : table_name_eqb a b = true -> a = b.
Proof. destruct a, b; cbn; congruence. Qed.

Lemma table_name_eqb_refl a : table_name_eqb a a = true.
Proof. now destruct a. Qed.

Lemma db_set_other P d t rows t' :
  P t = true -> P t' = false -> db_set d t rows t' = d t'.
Proof.
  intros Ht Ht'. unfold db_set.
  destruct (table_name_eqb t' t) eqn:E; [|reflexivity].
  apply table_name_eqb_eq in E. congruence.
Qed.

Lemma view_begin c : view (begin c) = view c.
Proof. reflexivity. Qed.

(** What a DELETE does. *)
Lemma exec_delete_spec t w :
  (view (conn w) t = None /\
   exec_delete t w
   = (Raise (OperationalError ("no such table: " ++ table_label t)), w)) \/
  (view (conn w) t <> None /\
   exec_delete t w
   = (Return tt,
      set_conn (Connection (committed (conn w))
                           (Some (db_set (view (conn w)) t []))) w)).
Proof.
  unfold exec_delete, bind, get_conn, put_conn, raise.
  destruct (view (conn w) t) eqn:E.
  - right. split; [discriminate | reflexivity].
  - left. split; reflexivity.
Qed.

(** What an INSERT does. *)
Lemma exec_insert_spec t params w :
  match view (conn w) t with
  | None =>
      exec_insert t params w
      = (Raise (OperationalError ("no such table: " ++ table_label t)), w)
  | Some rows =>
      match insert_row (pf w) t rows params with
      | Return rows' =>
          exec_insert t params w
          = (Return tt,
             set_conn (Connection (committed (conn w))
                                  (Some (db_set (view (conn w)) t rows'))) w)
      | Raise e =>
          exec_insert t params w = (Raise e, set_conn (begin (conn w)) w)
      end
  end.
Proof.
  unfold exec_insert, bind, get_conn, put_conn, raise, call_platform.
  destruct (view (conn w) t) eqn:E; [|reflexivity].
  cbn. destruct (insert_row _ _ _ _); reflexivity.
Qed.

Lemma confined_exec_delete P t : P t = true -> confined P (exec_delete t).
Proof.
  intros Ht w o w' E.
  destruct (exec_delete_spec t w) as [(_ & E') | (_ & E')];
    rewrite E' in E; inversion E; subst.
  - eexists. split; [symmetry; apply set_conn_same|]. split; reflexivity.
  - eexists. split; [reflexivity|]. split; [reflexivity|].
    intros t' Ht'. cbn. now apply (db_set_other P).
Qed.

Lemma confined_exec_insert P t params : P t = true -> confined P (exec_insert t params).
Proof.
  intros Ht w o w' E.
  pose proof (exec_insert_spec t params w) as S.
  destruct (view (conn w) t) as [rows|].
  - destruct (insert_row _ _ _ _); rewrite S in E; inversion E; subst.
    + eexists. split; [reflexivity|]. split; [reflexivity|].
      intros t' Ht'. cbn. now apply (db_set_other P).
    + eexists. split; [reflexivity|]. split; reflexivity.
  - rewrite S in E. inversion E; subst.
    eexists. split; [symmetry; apply set_conn_same|]. split; reflexivity.
Qed.

Create HintDb confined.
#[local] Hint Resolve confined_ret confined_raise confined_lift
  confined_call_platform confined_for_each : confined.
#[local] Hint Extern 1 (confined _ (exec_delete _)) =>
  apply confined_exec_delete; reflexivity : confined.
#[local] Hint Extern 1 (confined _ (exec_insert _ _)) =>
  apply confined_exec_insert; reflexivity : confined.

Ltac confined :=
  repeat first
    [ solve [auto with confined]
    | apply confined_bind; [|intros ?]
    | match goal with
      | |- confined _ (match ?x with _ => _ end) => destruct x
      | |- confined _ (let _ := _ in _) => cbv zeta
      end ].

Lemma confined_save_entry task entry :
  confined is_task_table (SQLiteStorage.save_entry task entry).
Proof. unfold SQLiteStorage.save_entry. confined. Qed.

Lemma confined_save_task item : confined is_task_table (SQLiteStorage.save_task item).
Proof.
  unfold SQLiteStorage.save_task. cbv zeta. confined.
  apply confined_for_each. intros. apply confined_save_entry.
Qed.

Lemma confined_replace_tasks tasks :
  confined is_task_table (SQLiteStorage.replace_tasks tasks).
Proof.
  unfold SQLiteStorage.replace_tasks. confined.
  apply confined_for_each. intros. apply confined_save_task.
Qed.

Lemma confined_save_template item :
  confined is_template_table (SQLiteStorage.save_template item).
Proof. unfold SQLiteStorage.save_template. cbv zeta. confined. Qed.

Lemma confined_replace_templates templates :
  confined is_template_table (SQLiteStorage.replace_templates templates).
Proof.
  unfold SQLiteStorage.replace_templates. confined.
  apply confined_for_each. intros. apply confined_save_template.
Qed.

(** A guarded transaction: when its statements raise, the rollback leaves
    the committed database as it was and no transaction open; when they
    return, the commit publishes the working copy. *)
Lemma guarded_transaction P (m : Py unit) (w : world) :
  confined P m ->
  (exists e w1,
      m w = (Raise e, w1) /\
      try_except (m ;;; commit ;;; ret true) (fun _ => rollback ;;; ret false) w
      = (Return false, set_conn (Connection (committed (conn w)) None) w)) \/
  (exists w1,
      m w = (Return tt, w1) /\
      (forall t, P t = false -> view (conn w1) t = view (conn w) t) /\
      try_except (m ;;; commit ;;; ret true) (fun _ => rollback ;;; ret false) w
      = (Return true, set_conn (Connection (view (conn w1)) None) w)).
Proof.
  intros Hm. unfold try_except, bind.
  destruct (m w) as [[[] | e] w1] eqn:E; destruct (Hm _ _ _ E) as (c' & -> & Hc & Hv).
  - right. eexists. split; [reflexivity|]. split; [exact Hv | reflexivity].
  - left. eexists. eexists. split; [reflexivity|].
    cbn. unfold set_conn; cbn. now rewrite Hc.
Qed.

Lemma determined_ret P {A} (a : A) : determined P (ret a).
Proof. intros w1 w2 H. now split. Qed.

Lemma determined_lift P {A} (o : outcome A) : determined P (lift o).
Proof. intros w1 w2 H. now split. Qed.

Lemma determined_call_platform P {A} (f : platform -> outcome A) :
  determined P (call_platform f).
Proof.
  intros w1 w2 H. unfold call_platform; cbn. split; [|assumption].
  destruct H as [-> _]. reflexivity.
Qed.

Lemma determined_bind P {A B} (m : Py A) (k : A -> Py B) :
  determined P m -> (forall a, determined P (k a)) -> determined P (bind m k).
Proof.
  intros Hm Hk w1 w2 H. unfold bind.
  destruct (Hm w1 w2 H) as [Ho Hw].
  destruct (m w1) as [[a1 | e1] w1'], (m w2) as [[a2 | e2] w2'];
    cbn in Ho, Hw; inversion Ho; subst.
  - now apply Hk.
  - now split.
Qed.

Lemma determined_for_each P {A} (body : A -> Py unit) (xs : list A) :
  (forall x, determined P (body x)) -> determined P (for_each xs body).
Proof.
  intros Hb. induction xs as [|x xs IH]; cbn [for_each].
  - apply determined_ret.
  - apply determined_bind; auto.
Qed.

Lemma agree_db_set P w1 w2 c1 c2 t rows :
  agree P w1 w2 ->
  view c1 = db_set (view (conn w1)) t rows ->
  view c2 = db_set (view (conn w2)) t rows ->
  agree P (set_conn c1 w1) (set_conn c2 w2).
Proof.
  intros [Hp Hv] E1 E2. split; [exact Hp|].
  intros t' Ht'. cbn. rewrite E1, E2. unfold db_set.
  destruct (table_name_eqb t' t); auto.
Qed.

Lemma determined_exec_insert P t params :
  P t = true -> determined P (exec_insert t params).
Proof.
  intros Ht w1 w2 H.
  pose proof (exec_insert_spec t params w1) as S1.
  pose proof (exec_insert_spec t params w2) as S2.
  destruct H as [Hp Hv]. rewrite <- (Hv t Ht), <- Hp in S2.
  destruct (view (conn w1) t) as [rows|].
  - destruct (insert_row _ _ _ _) as [rows' | e]; rewrite S1, S2; cbn.
    + split; [reflexivity|]. eapply agree_db_set; [split; eauto | reflexivity..].
    + split; [reflexivity|]. split; [exact Hp | exact Hv].
  - rewrite S1, S2. cbn. split; [reflexivity|]. split; assumption.
Qed.

Create HintDb determined.
#[local] Hint Resolve determined_ret determined_lift determined_call_platform
  determined_for_each : determined.
#[local] Hint Extern 1 (determined _ (exec_insert _ _)) =>
  apply determined_exec_insert; reflexivity : determined.

Ltac determined :=
  repeat first
    [ solve [auto with determined]
    | apply determined_bind; [|intros ?]
    | match goal with
      | |- determined _ (let _ := _ in _) => cbv zeta
      end ].

Lemma determined_save_entry task entry :
  determined is_task_table (SQLiteStorage.save_entry task entry).
Proof. unfold SQLiteStorage.save_entry. determined. Qed.

Lemma determined_save_task item :
  determined is_task_table (SQLiteStorage.save_task item).
Proof.
  unfold SQLiteStorage.save_task. cbv zeta. determined.
  apply determined_for_each. intros. apply determined_save_entry.
Qed.

Lemma determined_save_template item :
  determined is_template_table (SQLiteStorage.save_template item).
Proof. unfold SQLiteStorage.save_template. cbv zeta. determined. Qed.

Lemma delete_then {A} t (k : Py A) w :
  (view (conn w) t = None /\
   (exec_delete t ;;; k) w
   = (Raise (OperationalError ("no such table: " ++ table_label t)), w)) \/
  (view (conn w) t <> None /\
   (exec_delete t ;;; k) w
   = k (set_conn (Connection (committed (conn w))
                             (Some (db_set (view (conn w)) t []))) w)).
Proof.
  unfold bind.
  destruct (exec_delete_spec t w) as [(E & ->) | (E & ->)]; [left | right]; now split.
Qed.

(** Either one of the tables is missing and the run raises, or every table
    exists and [k] starts with all of them empty and the others as they
    were. *)
Lemma delete_all_cases {A} (ts : list table_name) (k : Py A) (w : world) :
  (exists t, In t ts /\ view (conn w) t = None /\
             exists e w1, delete_all ts k w = (Raise e, w1)) \/
  ((forall t, In t ts -> view (conn w) t <> None) /\
   exists w0, pf w0 = pf w /\
              (forall t, view (conn w0) t
                         = if existsb (table_name_eqb t) ts then Some []
                           else view (conn w) t) /\
              delete_all ts k w = k w0).
Proof.
  revert w. induction ts as [|t ts IH]; intros w; cbn [delete_all fold_right].
  - right. split; [intros t []|]. exists w. repeat split.
  - fold (delete_all ts k).
    destruct (delete_then t (delete_all ts k) w) as [[E ->] | [E ->]].
    + left. exists t. split; [now left|]. split; [exact E|]. eauto.
    + match goal with |- context [delete_all ts k ?w1] =>
        destruct (IH w1) as [(t' & Hin & Hnone & e & w2 & Hr) | (Hall & w0 & Hp & Hv & Hr)]
      end.
      * left. cbn in Hnone. unfold db_set in Hnone.
        destruct (table_name_eqb t' t); [discriminate|].
        exists t'. split; [now right|]. split; [exact Hnone|]. eauto.
      * right. split.
        -- intros t' [<- | Hin]; [exact E|].
           specialize (Hall t' Hin). cbn in Hall. unfold db_set in Hall.
           destruct (table_name_eqb t' t) eqn:Et; [|exact Hall].
           apply table_name_eqb_eq in Et. now subst.
        -- exists w0. split; [exact Hp|]. split; [|exact Hr].
           intros t'. rewrite Hv. cbn [existsb]. cbn. unfold db_set.
           destruct (table_name_eqb t' t), (existsb (table_name_eqb t') ts); reflexivity.
Qed.

Lemma replace_tasks_delete_all M :
  SQLiteStorage.replace_tasks M
  = delete_all task_tables (for_each M SQLiteStorage.save_task).
Proof. reflexivity. Qed.

Lemma replace_templates_delete_all M :
  SQLiteStorage.replace_templates M
  = delete_all template_tables (for_each M SQLiteStorage.save_template).
Proof. reflexivity. Qed.

Lemma in_task_tables t : In t task_tables <-> is_task_table t = true.
Proof. destruct t; cbn; intuition (try discriminate; auto). Qed.

Lemma in_template_tables t : In t template_tables <-> is_template_table t = true.
Proof. destruct t; cbn; intuition (try discriminate; auto). Qed.

Lemma existsb_task_tables t : existsb (table_name_eqb t) task_tables = is_task_table t.
Proof. now destruct t. Qed.

Lemma existsb_template_tables t :
  existsb (table_name_eqb t) template_tables = is_template_table t.
Proof. now destruct t. Qed.

(** A successful transaction of deletes and inserts leaves in the deleted
    tables rows that depend on the inserted data alone: any other run on
    the same platform, with the tables present, succeeds with the same
    rows. *)
Lemma replacement_determined {A} (P : table_name -> bool) (ts : list table_name)
      (body : A -> Py unit) (items : list A) (w w1 w2 : world) :
  (forall t, In t ts <-> P t = true) ->
  (forall t, existsb (table_name_eqb t) ts = P t) ->
  (forall x, determined P (body x)) ->
  delete_all ts (for_each items body) w = (Return tt, w1) ->
  pf w2 = pf w ->
  (forall t, P t = true -> view (conn w2) t <> None) ->
  exists w2', delete_all ts (for_each items body) w2 = (Return tt, w2') /\
              forall t, P t = true -> view (conn w2') t = view (conn w1) t.
Proof.
  intros Hin Hex Hbody Hrun Hp Hpresent.
  destruct (delete_all_cases ts (for_each items body) w)
    as [(t & _ & _ & e & w' & Hr) | (_ & w0 & Hp0 & Hv0 & Hr)];
    [congruence|].
  destruct (delete_all_cases ts (for_each items body) w2)
    as [(t & Ht & Hnone & _) | (_ & w0' & Hp0' & Hv0' & Hr')].
  { exfalso. apply (Hpresent t); [now apply Hin | exact Hnone]. }
  assert (Hagree : agree P w0 w0').
  { split; [congruence|]. intros t Ht. rewrite Hv0, Hv0', Hex, Ht. reflexivity. }
  destruct (determined_for_each P body items Hbody w0 w0' Hagree) as [Ho [_ Hv]].
  rewrite Hr in Hrun. rewrite Hrun in Ho, Hv. cbn in Ho, Hv.
  rewrite Hr'. destruct (for_each items body w0') as [o w2'] eqn:E.
  cbn in Ho, Hv. subst o. exists w2'. split; [reflexivity|].
  intros t Ht. symmetry. now apply Hv.
Qed.

(** ** The document backend: what a save stores and a load reads back *)

Lemma write_text_cases path c w :
  (writable w path = true /\ write_text path c w = (Return tt, overwritten path c w)) \/
  (writable w path = false /\ exists e, write_text path c w = (Raise e, w)).
Proof.
  unfold writable, write_text, overwritten.
  destruct (fs w path); [left | left | right | right]; split; eauto.
Qed.

Lemma read_text_overwritten path c w :
  read_text path (overwritten path c w) = (Return c, overwritten path c w).
Proof. unfold read_text, overwritten. cbn. now rewrite String.eqb_refl. Qed.

Lemma dict_set_fresh (d : dict) k v :
  dict_get d k = None -> dict_set d k v = (d ++ [(k, v)])%list.
Proof.
  induction d as [|[k' v'] d IH]; cbn; [reflexivity|].
  destruct (String.eqb k k'); [discriminate|]. intros H. now rewrite IH.
Qed.

Lemma dict_get_app_fresh (d : dict) k k' v :
  k <> k' -> dict_get d k = None -> dict_get (d ++ [(k', v)])%list k = None.
Proof.
  intros Hne. induction d as [|[k0 v0] d IH]; cbn.
  - intros _. destruct (String.eqb k k') eqn:E; [|reflexivity].
    apply String.eqb_eq in E. contradiction.
  - destruct (String.eqb k k0); [discriminate | exact IH].
Qed.

Lemma mapping_set_fresh {A} (m : mapping A) k (v : A) :
  mapping_get m k = None -> mapping_set m k v = (m ++ [(k, v)])%list.
Proof.
  induction m as [|[k' v'] m IH]; cbn; [reflexivity|].
  destruct (key_eqb k k'); [discriminate|]. intros H. now rewrite IH.
Qed.

Lemma mapping_get_app_fresh {A} (m : mapping A) k k' (v : A) :
  k <> k' -> mapping_get m (PStr k) = None ->
  mapping_get (m ++ [(PStr k', v)])%list (PStr k) = None.
Proof.
  intros Hne. induction m as [|[k0 v0] m IH]; cbn [mapping_get app].
  - intros _. cbn. destruct (String.eqb k k') eqn:E; [|reflexivity].
    apply String.eqb_eq in E. contradiction.
  - destruct (key_eqb (PStr k) k0); [discriminate | exact IH].
Qed.

Section Collection.

(** An entity class with its codec. *)
Variable entity : Type.
Variable to_dict : entity -> dict.
Variable from_dict : pyval -> Py entity.
Hypothesis from_dict_to_dict :
  forall (e : entity) (w : world), from_dict (PDict (to_dict e)) w = (Return e, w).

Lemma dump_members p (items : list (string * entity)) (acc : dict) :
  NoDup (map fst items) ->
  (forall k, In k (map fst items) -> dict_get acc k = None) ->
  all_serializable entity to_dict items = true ->
  ofold (fun acc (kr : pyval * dict) =>
           k <~ json_key p (fst kr) ;;
           if json_serializable (PDict (snd kr))
           then Return (dict_set acc k (PDict (snd kr)))
           else Raise (TypeError "Object of type bytes is not JSON serializable"))
        (records_of entity to_dict (keyed entity items)) acc
  = Return (acc ++ members_of entity to_dict items)%list.
Proof.
  revert acc. induction items as [|[k e] items IH]; intros acc Hnd Hfresh Hser.
  - cbn. now rewrite app_nil_r.
  - cbn [records_of keyed map fst snd ofold obind json_key].
    cbn [all_serializable forallb snd] in Hser.
    apply andb_true_iff in Hser. destruct Hser as [Hs Hser].
    rewrite Hs. cbn [obind].
    rewrite dict_set_fresh by (apply Hfresh; now left).
    inversion Hnd as [|? ? Hnotin Hnd']; subst.
    change (ofold _ (map _ (map _ items)) ?a) with
      (ofold (fun acc (kr : pyval * dict) =>
           k <~ json_key p (fst kr) ;;
           if json_serializable (PDict (snd kr))
           then Return (dict_set acc k (PDict (snd kr)))
           else Raise (TypeError "Object of type bytes is not JSON serializable"))
         (records_of entity to_dict (keyed entity items)) a).
    rewrite IH; auto.
    + now rewrite <- app_assoc.
    + intros k' Hin. apply dict_get_app_fresh.
      * intros ->. contradiction.
      * apply Hfresh. now right.
Qed.

Lemma json_dumps_keyed p name (items : list (string * entity)) :
  NoDup (map fst items) ->
  all_serializable entity to_dict items = true ->
  json_dumps_collection p name (records_of entity to_dict (keyed entity items))
  = Return (JsonText (PDict [(name, PDict (members_of entity to_dict items))])).
Proof.
  intros Hnd Hser. unfold json_dumps_collection.
  rewrite (dump_members p items []); auto.
Qed.

Lemma load_members (items : list (string * entity)) (acc : mapping entity) w :
  NoDup (map fst items) ->
  (forall k, In k (map fst items) -> mapping_get acc (PStr k) = None) ->
  fold_py (fun (m : mapping entity) (item : string * pyval) =>
             e <- from_dict (snd item) ;;
             ret (mapping_set m (PStr (fst item)) e))
          (members_of entity to_dict items) acc w
  = (Return (acc ++ keyed entity items)%list, w).
Proof.
  revert acc. induction items as [|[k e] items IH]; intros acc Hnd Hfresh.
  - cbn. now rewrite app_nil_r.
  - cbn [members_of keyed map fst snd fold_py].
    unfold bind at 1. unfold bind at 1. rewrite from_dict_to_dict. unfold ret at 1.
    rewrite mapping_set_fresh by (apply Hfresh; now left).
    inversion Hnd as [|? ? Hnotin Hnd']; subst.
    change (map (fun kt : string * entity => (fst kt, PDict (to_dict (snd kt)))) items)
      with (members_of entity to_dict items).
    rewrite IH; auto.
    + now rewrite <- app_assoc.
    + intros k' Hin. apply mapping_get_app_fresh.
      * intros ->. contradiction.
      * apply Hfresh. now right.
Qed.

End Collection.

(** What [JSONStorage.save_tasks] does: either it returns [False] and the
    world is as before, or the collection was encoded and the tasks file
    holds nothing but its encoding. *)
Lemma JSONStorage_save_tasks_cases (self : JSONStorage.t) (M : mapping Task.t) w :
  JSONStorage.save_tasks self M w = (Return false, w) \/
  exists text,
    json_dumps_collection (pf w) "tasks" (records_of Task.t Task.to_dict M)
    = Return text /\
    JSONStorage.save_tasks self M w
    = (Return true, overwritten (JSONStorage.filepath self) text w).
Proof.
  unfold JSONStorage.save_tasks, try_except, JSONStorage.save_tasks_body, bind,
    call_platform, records_of.
  destruct (json_dumps_collection _ _ _) as [text | e]; [|now left].
  destruct (write_text_cases (JSONStorage.filepath self) text w)
    as [[_ ->] | [_ [e ->]]]; [right | left]; eauto.
Qed.

Lemma JSONStorage_save_templates_cases (self : JSONStorage.t)
      (M : mapping TaskTemplate.t) w :
  JSONStorage.save_templates self M w = (Return false, w) \/
  exists text,
    json_dumps_collection (pf w) "templates"
      (records_of TaskTemplate.t TaskTemplate.to_dict M) = Return text /\
    JSONStorage.save_templates self M w
    = (Return true, overwritten (JSONStorage.templates_filepath self) text w).
Proof.
  unfold JSONStorage.save_templates, try_except, JSONStorage.save_templates_body,
    bind, call_platform, records_of.
  destruct (json_dumps_collection _ _ _) as [text | e]; [|now left].
  destruct (write_text_cases (JSONStorage.templates_filepath self) text w)
    as [[_ ->] | [_ [e ->]]]; [right | left]; eauto.
Qed.

(** Saving a collection keyed by distinct strings, all of whose records
    json can encode, into a file that can be written, and loading it
    again, gives the collection back. *)
Lemma JSONStorage_tasks_round_trip (self : JSONStorage.t)
      (items : list (string * Task.t)) (w : world) :
  NoDup (map fst items) ->
  all_serializable Task.t Task.to_dict items = true ->
  writable w (JSONStorage.filepath self) = true ->
  exists w1,
    JSONStorage.save_tasks self (keyed Task.t items) w = (Return true, w1) /\
    JSONStorage.load_tasks self w1 = (Return (keyed Task.t items), w1).
Proof.
  intros Hnd Hser Hw.
  unfold JSONStorage.save_tasks, try_except, JSONStorage.save_tasks_body, bind,
    call_platform.
  change (map (fun kt : pyval * Task.t => (fst kt, Task.to_dict (snd kt)))
              (keyed Task.t items))
    with (records_of Task.t Task.to_dict (keyed Task.t items)).
  rewrite (json_dumps_keyed Task.t Task.to_dict (pf w) "tasks" items Hnd Hser).
  destruct (write_text_cases (JSONStorage.filepath self)
              (JsonText (PDict [("tasks", PDict (members_of Task.t Task.to_dict items))])) w)
    as [[_ ->] | [Hw' _]]; [|congruence].
  eexists. split; [reflexivity|].
  unfold JSONStorage.load_tasks, try_except, JSONStorage.load_tasks_body.
  rewrite (bind_return _ _ _ _ _ (read_text_overwritten _ _ _)).
  cbn [json_loads]. rewrite bind_lift_return.
  cbn [py_get dict_get String.eqb Ascii.eqb Bool.eqb]. rewrite bind_lift_return.
  cbn [py_items]. rewrite bind_lift_return.
  rewrite (load_members Task.t Task.to_dict Task.from_dict Task_from_dict_to_dict
             items [] _ Hnd); auto.
Qed.

Lemma JSONStorage_templates_round_trip (self : JSONStorage.t)
      (items : list (string * TaskTemplate.t)) (w : world) :
  NoDup (map fst items) ->
  all_serializable TaskTemplate.t TaskTemplate.to_dict items = true ->
  writable w (JSONStorage.templates_filepath self) = true ->
  exists w1,
    JSONStorage.save_templates self (keyed TaskTemplate.t items) w = (Return true, w1) /\
    JSONStorage.load_templates self w1 = (Return (keyed TaskTemplate.t items), w1).
Proof.
  intros Hnd Hser Hw.
  unfold JSONStorage.save_templates, try_except, JSONStorage.save_templates_body,
    bind, call_platform.
  change (map (fun kt : pyval * TaskTemplate.t => (fst kt, TaskTemplate.to_dict (snd kt)))
              (keyed TaskTemplate.t items))
    with (records_of TaskTemplate.t TaskTemplate.to_dict (keyed TaskTemplate.t items)).
  rewrite (json_dumps_keyed TaskTemplate.t TaskTemplate.to_dict (pf w) "templates"
             items Hnd Hser).
  destruct (write_text_cases (JSONStorage.templates_filepath self)
              (JsonText (PDict [("templates",
                                 PDict (members_of TaskTemplate.t TaskTemplate.to_dict items))])) w)
    as [[_ ->] | [Hw' _]]; [|congruence].
  eexists. split; [reflexivity|].
  unfold JSONStorage.load_templates, try_except, JSONStorage.load_templates_body.
  rewrite (bind_return _ _ _ _ _ (read_text_overwritten _ _ _)).
  cbn [json_loads]. rewrite bind_lift_return.
  cbn [py_get dict_get String.eqb Ascii.eqb Bool.eqb]. rewrite bind_lift_return.
  cbn [py_items]. rewrite bind_lift_return.
  rewrite (load_members TaskTemplate.t TaskTemplate.to_dict TaskTemplate.from_dict
             TaskTemplate_from_dict_to_dict items [] _ Hnd); auto.
Qed.

(** What [SQLiteStorage.save_tasks] does. *)
Lemma SQLiteStorage_save_tasks_cases (self : SQLiteStorage.t) (M : mapping Task.t) w :
  (exists e w1,
      SQLiteStorage.replace_tasks M w = (Raise e, w1) /\
      SQLiteStorage.save_tasks self M w
      = (Return false, set_conn (Connection (committed (conn w)) None) w)) \/
  (exists w1,
      SQLiteStorage.replace_tasks M w = (Return tt, w1) /\
      (forall t, is_task_table t = false -> view (conn w1) t = view (conn w) t) /\
      SQLiteStorage.save_tasks self M w
      = (Return true, set_conn (Connection (view (conn w1)) None) w)).
Proof.
  apply (guarded_transaction is_task_table), confined_replace_tasks.
Qed.

Lemma SQLiteStorage_save_templates_cases (self : SQLiteStorage.t)
      (M : mapping TaskTemplate.t) w :
  (exists e w1,
      SQLiteStorage.replace_templates M w = (Raise e, w1) /\
      SQLiteStorage.save_templates self M w
      = (Return false, set_conn (Connection (committed (conn w)) None) w)) \/
  (exists w1,
      SQLiteStorage.replace_templates M w = (Return tt, w1) /\
      (forall t, is_template_table t = false -> view (conn w1) t = view (conn w) t) /\
      SQLiteStorage.save_templates self M w
      = (Return true, set_conn (Connection (view (conn w1)) None) w)).
Proof.
  apply (guarded_transaction is_template_table), confined_replace_templates.
Qed.

Lemma no_transaction_rollback w :
  pending (conn w) = None ->
  set_conn (Connection (committed (conn w)) None) w = w.
Proof. destruct w as [? ? ? ? ? ? [c p]]. cbn. now intros ->. Qed.


(** ** The relational backend: what the tables hold *)

Lemma invariant_pure I {A} (m : Py A) :
  (forall w, snd (m w) = w) -> invariant I m.
Proof.
  intros Hm w o w' HI E. specialize (Hm w). rewrite E in Hm. cbn in Hm. now subst.
Qed.

Lemma invariant_bind I {A B} (m : Py A) (k : A -> Py B) :
  invariant I m -> (forall a, invariant I (k a)) -> invariant I (bind m k).
Proof.
  intros Hm Hk w o w' HI E. unfold bind in E.
  destruct (m w) as [[a | e] w1] eqn:Em.
  - eapply Hk; [|exact E]. eapply Hm; eauto.
  - inversion E; subst. eapply Hm; eauto.
Qed.

Lemma invariant_for_each I {A} (body : A -> Py unit) (xs : list A) :
  (forall x, invariant I (body x)) -> invariant I (for_each xs body).
Proof.
  intros Hb. induction xs as [|x xs IH]; cbn [for_each].
  - now apply invariant_pure.
  - apply invariant_bind; auto.
Qed.

Lemma omap_length {A B} (f : A -> outcome B) xs ys :
  omap f xs = Return ys -> List.length ys = List.length xs.
Proof.
  revert ys. induction xs as [|x xs IH]; intros ys; cbn.
  - intros E. now inversion E.
  - destruct (f x) as [y|]; cbn; [|discriminate].
    destruct (omap f xs) as [ys'|]; cbn; [|discriminate].
    intros E. inversion E; subst. cbn. f_equal. now apply IH.
Qed.

Lemma apply_affinity_text p v : text_class (apply_affinity p TEXT v).
Proof. now destruct v. Qed.

Lemma affinity_cells_ok p (cols : list column) (bound : list sqlval) :
  Forall (fun cv => col_affinity (fst cv) = TEXT -> text_class (snd cv))
         (combine cols
            (map (fun cv => apply_affinity p (col_affinity (fst cv)) (snd cv))
                 (combine cols bound))).
Proof.
  revert bound. induction cols as [|c cols IH]; intros [|b bound]; cbn; constructor.
  - cbn. intros ->. apply apply_affinity_text.
  - apply IH.
Qed.

Lemma insert_row_ok p t rows params rows' :
  List.length params = List.length (columns t) ->
  Forall (row_ok t) rows ->
  insert_row p t rows params = Return rows' ->
  Forall (row_ok t) rows'.
Proof.
  intros Hlen Hrows. unfold insert_row.
  destruct (omap sqlite_bind params) as [bound|] eqn:Eb; cbn; [|discriminate].
  destruct (check_not_null _ _ _); cbn; [|discriminate].
  destruct (check_unique _ _ _ _ _); cbn; [|discriminate].
  intros E. inversion E; subst. apply Forall_app. split; [assumption|].
  constructor; [|constructor]. split.
  - rewrite length_map, length_combine, (omap_length _ _ _ Eb), Hlen.
    apply Nat.min_id.
  - apply affinity_cells_ok.
Qed.

Lemma invariant_exec_insert P t params :
  List.length params = List.length (columns t) ->
  invariant (tables_ok P) (exec_insert t params).
Proof.
  intros Hlen w o w' HI E.
  pose proof (exec_insert_spec t params w) as S.
  destruct (view (conn w) t) as [rows|] eqn:Ev.
  - destruct (insert_row _ _ _ _) as [rows'|] eqn:Ei; rewrite S in E;
      inversion E; subst; [|exact HI].
    intros t' Ht'. cbn. unfold db_set.
    destruct (table_name_eqb t' t) eqn:Et.
    + apply table_name_eqb_eq in Et. subst t'.
      exists rows'. split; [reflexivity|].
      destruct (HI t Ht') as (rows0 & Hv0 & Hok). rewrite Ev in Hv0.
      inversion Hv0; subst. eapply insert_row_ok; eauto.
    + apply HI, Ht'.
  - rewrite S in E. inversion E; subst. exact HI.
Qed.

Create HintDb invariant.
#[local] Hint Extern 1 (invariant _ (ret _)) => apply invariant_pure; reflexivity : invariant.
#[local] Hint Extern 1 (invariant _ (lift _)) => apply invariant_pure; reflexivity : invariant.
#[local] Hint Extern 1 (invariant _ (call_platform _)) =>
  apply invariant_pure; reflexivity : invariant.
#[local] Hint Extern 1 (invariant _ (exec_insert _ _)) =>
  apply invariant_exec_insert; reflexivity : invariant.
#[local] Hint Resolve invariant_for_each : invariant.

Ltac invariant :=
  repeat first
    [ solve [auto with invariant]
    | apply invariant_bind; [|intros ?]
    | match goal with
      | |- invariant _ (let _ := _ in _) => cbv zeta
      end ].

Lemma invariant_save_entry P task entry :
  invariant (tables_ok P) (SQLiteStorage.save_entry task entry).
Proof. unfold SQLiteStorage.save_entry. invariant. Qed.

Lemma invariant_save_task P item :
  invariant (tables_ok P) (SQLiteStorage.save_task item).
Proof.
  unfold SQLiteStorage.save_task. cbv zeta. invariant.
  apply invariant_for_each. intros. apply invariant_save_entry.
Qed.

Lemma invariant_save_template P item :
  invariant (tables_ok P) (SQLiteStorage.save_template item).
Proof. unfold SQLiteStorage.save_template. cbv zeta. invariant. Qed.

(** After the statements of a successful [save_tasks] the task tables
    exist and hold stored rows. *)
Lemma replace_tasks_tables_ok M w w1 :
  SQLiteStorage.replace_tasks M w = (Return tt, w1) ->
  tables_ok is_task_table w1.
Proof.
  rewrite replace_tasks_delete_all. intros Hr.
  destruct (delete_all_cases task_tables (for_each M SQLiteStorage.save_task) w)
    as [(t & _ & _ & e & w' & Hr') | (_ & w0 & _ & Hv0 & Hr')]; [congruence|].
  rewrite Hr' in Hr.
  eapply (invariant_for_each (tables_ok is_task_table)); [| |exact Hr].
  - intros. apply invariant_save_task.
  - intros t Ht. exists []. split; [|constructor].
    now rewrite Hv0, existsb_task_tables, Ht.
Qed.

Lemma replace_templates_tables_ok M w w1 :
  SQLiteStorage.replace_templates M w = (Return tt, w1) ->
  tables_ok is_template_table w1.
Proof.
  rewrite replace_templates_delete_all. intros Hr.
  destruct (delete_all_cases template_tables (for_each M SQLiteStorage.save_template) w)
    as [(t & _ & _ & e & w' & Hr') | (_ & w0 & _ & Hv0 & Hr')]; [congruence|].
  rewrite Hr' in Hr.
  eapply (invariant_for_each (tables_ok is_template_table)); [| |exact Hr].
  - intros. apply invariant_save_template.
  - intros t Ht. exists []. split; [|constructor].
    now rewrite Hv0, existsb_template_tables, Ht.
Qed.

Lemma omap_returns {A B} (f : A -> outcome B) xs :
  Forall (fun x => exists y, f x = Return y) xs -> exists ys, omap f xs = Return ys.
Proof.
  induction 1 as [|x xs [y Hy] _ [ys IH]]; cbn.
  - eauto.
  - rewrite Hy, IH. cbn. eauto.
Qed.

Lemma sqlite_bind_fetch c : text_class c -> sqlite_bind (sqlite_fetch c) = Return c.
Proof. destruct c; cbn; tauto. Qed.

Lemma apply_affinity_text_class p c : text_class c -> apply_affinity p TEXT c = c.
Proof. destruct c; cbn; tauto. Qed.

Lemma select_where_returns t key c rows w :
  view (conn w) t = Some rows -> text_class c ->
  select_where t key (sqlite_fetch c) w
  = (Return (map (named_row t)
               (filter (fun r : row => sql_eqb (nth (column_index t key) r SNull) c) rows)), w).
Proof.
  intros Hv Hc. unfold select_where, bind, get_conn, call_platform.
  rewrite Hv. cbn beta. rewrite (sqlite_bind_fetch c Hc). cbn [obind]. cbv zeta.
  now rewrite apply_affinity_text_class.
Qed.

Lemma child_row_get t name r :
  In (t, name) [(tbl_task_categories, "category"); (tbl_task_tags, "tag");
                (tbl_task_dependencies, "depends_on_id")] ->
  row_ok t r -> exists v, row_get (named_row t r) name = Return v.
Proof.
  intros Hin [Hlen _].
  cbn in Hin. destruct Hin as [E | [E | [E | []]]]; inversion E; subst;
    destruct r as [|a [|b [|c r]]]; try discriminate; cbn; eauto.
Qed.

Lemma child_values t name rows (f : row -> bool) :
  In (t, name) [(tbl_task_categories, "category"); (tbl_task_tags, "tag");
                (tbl_task_dependencies, "depends_on_id")] ->
  Forall (row_ok t) rows ->
  exists vs, omap (fun r => row_get r name) (map (named_row t) (filter f rows)) = Return vs.
Proof.
  intros Hin Hok. apply omap_returns. apply Forall_map.
  apply Forall_forall. intros r Hr. apply filter_In in Hr. destruct Hr as [Hr _].
  eapply child_row_get; eauto. eapply Forall_forall in Hok; eauto.
Qed.

Lemma entry_keys r :
  row_ok tbl_time_entries r ->
  dict_keys (dict_of_row (named_row tbl_time_entries r)) = time_entry_columns.
Proof.
  intros [Hlen _].
  destruct r as [|a [|b [|c [|d [|e [|f [|g r]]]]]]]; try discriminate. reflexivity.
Qed.

Lemma load_task_returns acc r w :
  tables_ok is_task_table w -> row_ok tbl_tasks r ->
  exists task,
    SQLiteStorage.load_task acc (named_row tbl_tasks r) w
    = (Return (mapping_set acc (sqlite_fetch (hd SNull r)) task), w) /\
    entries_carry_task_id task.
Proof.
  intros Hok [Hlen Hcells].
  do 19 (destruct r as [|? r]; try discriminate). clear Hlen.
  cbn in Hcells. inversion Hcells as [|? ? Hid _]; subst. cbn in Hid.
  specialize (Hid eq_refl).
  destruct (Hok tbl_task_categories eq_refl) as (cats & Hvc & Hokc).
  destruct (Hok tbl_task_tags eq_refl) as (tags & Hvt & Hokt).
  destruct (Hok tbl_task_dependencies eq_refl) as (deps & Hvd & Hokd).
  destruct (Hok tbl_time_entries eq_refl) as (ents & Hve & Hoke).
  unfold SQLiteStorage.load_task.
  cbn [named_row columns map col_name combine dict_of_row fst snd py_getitem dict_get
       String.eqb Ascii.eqb Bool.eqb hd].
  rewrite bind_lift_return.
  rewrite (bind_return _ _ _ _ _ (select_where_returns _ _ _ _ _ Hvc Hid)).
  cbn beta.
  match goal with |- context [lift (omap _ (map _ (filter ?h cats)))] =>
    destruct (child_values tbl_task_categories "category" cats h) as (vc & ->);
      [cbn; auto | assumption |] end.
  rewrite bind_lift_return.
  rewrite (bind_return _ _ _ _ _ (select_where_returns _ _ _ _ _ Hvt Hid)).
  cbn beta.
  match goal with |- context [lift (omap _ (map _ (filter ?h tags)))] =>
    destruct (child_values tbl_task_tags "tag" tags h) as (vt & ->);
      [cbn; auto | assumption |] end.
  rewrite bind_lift_return.
  rewrite (bind_return _ _ _ _ _ (select_where_returns _ _ _ _ _ Hvd Hid)).
  cbn beta.
  match goal with |- context [lift (omap _ (map _ (filter ?h deps)))] =>
    destruct (child_values tbl_task_dependencies "depends_on_id" deps h) as (vd & ->);
      [cbn; auto 6 | assumption |] end.
  rewrite bind_lift_return.
  rewrite (bind_return _ _ _ _ _ (select_where_returns _ _ _ _ _ Hve Hid)).
  cbn beta.
  cbn [dict_set String.eqb Ascii.eqb Bool.eqb py_getitem dict_get].
  rewrite bind_lift_return.
  cbn [dict_set String.eqb Ascii.eqb Bool.eqb py_getitem dict_get].
  rewrite bind_lift_return.
  cbn [dict_set String.eqb Ascii.eqb Bool.eqb py_getitem dict_get].
  eexists. split; [reflexivity|].
  eexists. split; [reflexivity|].
  apply Forall_map. apply Forall_map.
  apply Forall_forall. intros r Hr. apply filter_In in Hr. destruct Hr as [Hr _].
  eexists. split; [reflexivity|].
  apply entry_keys. eapply Forall_forall in Hoke; eauto.
Qed.

Lemma mapping_set_Forall {A} (Q : A -> Prop) (m : mapping A) k v :
  Forall (fun kt => Q (snd kt)) m -> Q v ->
  Forall (fun kt => Q (snd kt)) (mapping_set m k v).
Proof.
  intros Hm Hv. induction Hm as [|[k' v'] m Hq Hm IH]; cbn [mapping_set].
  - constructor; [exact Hv | constructor].
  - destruct (key_eqb k k'); constructor; auto.
Qed.

(** On tables that hold stored rows [load_tasks] returns, and every time
    entry of every task it returns has the columns of the [time_entries]
    table as keys. *)
Lemma load_tasks_returns (self : SQLiteStorage.t) (w : world) :
  tables_ok is_task_table w ->
  exists loaded,
    SQLiteStorage.load_tasks self w = (Return loaded, w) /\
    Forall (fun kt => entries_carry_task_id (snd kt)) loaded.
Proof.
  intros Hok. destruct (Hok tbl_tasks eq_refl) as (rows & Hv & Hrows).
  unfold SQLiteStorage.load_tasks, select_all.
  unfold bind at 1. unfold bind at 1. unfold get_conn. rewrite Hv. unfold ret at 1.
  clear Hv.
  assert (Hacc : Forall (fun kt : pyval * Task.t => entries_carry_task_id (snd kt)) [])
    by constructor.
  revert Hacc. generalize (@nil (pyval * Task.t)) as acc.
  induction Hrows as [|r rows Hr Hrows IH]; intros acc Hacc; cbn [map fold_py].
  - exists acc. now split.
  - destruct (load_task_returns acc r w Hok Hr) as (task & E & Htask).
    rewrite (bind_return _ _ _ _ _ E).
    apply IH. now apply mapping_set_Forall.
Qed.

Lemma tables_ok_committed P w1 w :
  tables_ok P w1 -> tables_ok P (set_conn (Connection (view (conn w1)) None) w).
Proof. intros H t Ht. exact (H t Ht). Qed.


(** ** Duplicate template names *)

Lemma for_each_app {A} (body : A -> Py unit) (xs ys : list A) w :
  for_each (xs ++ ys) body w
  = match for_each xs body w with
    | (Return _, w') => for_each ys body w'
    | (Raise e, w') => (Raise e, w')
    end.
Proof.
  revert w. induction xs as [|x xs IH]; intros w; cbn [for_each app].
  - reflexivity.
  - unfold bind. destruct (body x w) as [[[] | e] w']; [apply IH | reflexivity].
Qed.

Lemma bytes_eqb_refl b : bytes_eqb b b = true.
Proof.
  induction b as [|x b IH]; cbn; [reflexivity|].
  rewrite IH, andb_true_r. now destruct x.
Qed.

Lemma sql_eqb_refl v : v <> SNull -> sql_eqb v v = true.
Proof.
  destruct v; cbn; intros H; try congruence.
  - apply Z.eqb_refl.
  - apply Z.eqb_refl.
  - apply String.eqb_refl.
  - apply bytes_eqb_refl.
Qed.

Lemma insert_row_appends p t rows params rows' :
  insert_row p t rows params = Return rows' ->
  exists cells, rows' = (rows ++ [cells])%list.
Proof.
  unfold insert_row.
  destruct (omap sqlite_bind params); cbn [obind]; [|discriminate].
  destruct (check_not_null _ _ _); cbn [obind]; [|discriminate].
  destruct (check_unique _ _ _ _ _); cbn [obind]; [|discriminate].
  intros E. inversion E. eauto.
Qed.

Lemma invariant_holds_name_insert p n t params :
  invariant (holds_name p n) (exec_insert t params).
Proof.
  intros w o w' [Hp (rows & r & Hv & Hin & Hn)] E.
  pose proof (exec_insert_spec t params w) as S.
  destruct (view (conn w) t) as [rows0|] eqn:Ev.
  - destruct (insert_row _ _ _ _) as [rows'|] eqn:Ei; rewrite S in E;
      injection E as _ <-; (split; [exact Hp|]).
    + cbn. unfold db_set. destruct (table_name_eqb tbl_templates t) eqn:Et.
      * apply table_name_eqb_eq in Et. subst t. rewrite Hv in Ev.
        injection Ev as <-.
        apply insert_row_appends in Ei. destruct Ei as (cells & ->).
        eexists. exists r. split; [reflexivity|]. split; [|exact Hn].
        apply in_or_app. now left.
      * eauto.
    + exists rows, r. auto.
  - rewrite S in E. injection E as _ <-. split; eauto.
Qed.

Lemma invariant_holds_name_save_template p n item :
  invariant (holds_name p n) (SQLiteStorage.save_template item).
Proof.
  unfold SQLiteStorage.save_template. cbv zeta.
  repeat first
    [ apply invariant_holds_name_insert
    | apply invariant_for_each; intros ?
    | apply invariant_pure; reflexivity
    | apply invariant_bind; [|intros ?] ].
Qed.

(** What the INSERT of a template row needs and gives. *)
Lemma insert_template_row p rows (template : TaskTemplate.t) rows' :
  insert_row p tbl_templates rows
    [TaskTemplate.id template; TaskTemplate.name template;
     TaskTemplate.title template; TaskTemplate.description template;
     TaskTemplate.priority template; TaskTemplate.estimated_minutes template;
     TaskTemplate.reminder_before_minutes template] = Return rows' ->
  name_cell p template <> SNull /\
  existsb (fun r => sql_eqb (nth 1 r SNull) (name_cell p template)) rows = false /\
  exists cells, rows' = (rows ++ [cells])%list /\ nth 1 cells SNull = name_cell p template.
Proof.
  unfold insert_row, name_cell. cbn [omap].
  destruct (sqlite_bind (TaskTemplate.id template)) as [b0|]; cbn [obind]; [|discriminate].
  destruct (sqlite_bind (TaskTemplate.name template)) as [b1|]; cbn [obind]; [|discriminate].
  destruct (sqlite_bind (TaskTemplate.title template)) as [b2|]; cbn [obind]; [|discriminate].
  destruct (sqlite_bind (TaskTemplate.description template)) as [b3|]; cbn [obind]; [|discriminate].
  destruct (sqlite_bind (TaskTemplate.priority template)) as [b4|]; cbn [obind]; [|discriminate].
  destruct (sqlite_bind (TaskTemplate.estimated_minutes template)) as [b5|]; cbn [obind]; [|discriminate].
  destruct (sqlite_bind (TaskTemplate.reminder_before_minutes template)) as [b6|]; cbn [obind]; [|discriminate].
  cbn [columns combine map fst snd col_affinity check_not_null col_not_null].
  destruct (apply_affinity p TEXT b1) eqn:En; cbn [obind]; try discriminate;
    cbn [check_unique col_unique andb];
    (match goal with
     | |- context [existsb ?f rows] => destruct (existsb f rows); [discriminate|]
     end);
    (match goal with
     | |- context [existsb ?f rows] =>
         destruct (existsb f rows) eqn:Eu; [discriminate|]
     end);
    cbn [obind]; intros E; injection E as <-;
    (split; [discriminate|]); (split; [reflexivity|]);
    eexists; (split; [reflexivity|]); reflexivity.
Qed.

Lemma save_template_records_name item wa wb :
  SQLiteStorage.save_template item wa = (Return tt, wb) ->
  name_cell (pf wa) (snd item) <> SNull /\
  holds_name (pf wa) (name_cell (pf wa) (snd item)) wb.
Proof.
  unfold SQLiteStorage.save_template. cbv zeta. intros E.
  apply bind_inv in E. destruct E as ([] & w1 & Ei & Erest).
  pose proof (exec_insert_spec tbl_templates
                [TaskTemplate.id (snd item); TaskTemplate.name (snd item);
                 TaskTemplate.title (snd item); TaskTemplate.description (snd item);
                 TaskTemplate.priority (snd item);
                 TaskTemplate.estimated_minutes (snd item);
                 TaskTemplate.reminder_before_minutes (snd item)] wa) as S.
  destruct (view (conn wa) tbl_templates) as [rows|] eqn:Ev; [|congruence].
  destruct (insert_row _ _ _ _) as [rows'|] eqn:Er; [|congruence].
  apply insert_template_row in Er. destruct Er as (Hnn & _ & cells & -> & Hcell).
  split; [exact Hnn|].
  rewrite S in Ei. injection Ei as <-.
  revert Erest.
  match goal with
  | |- ?m ?w = _ -> _ =>
      assert (Hinv : invariant (holds_name (pf wa) (name_cell (pf wa) (snd item))) m)
  end.
  { repeat first
      [ apply invariant_holds_name_insert
      | apply invariant_for_each; intros ?
      | apply invariant_pure; reflexivity
      | apply invariant_bind; [|intros ?] ]. }
  intros Erest. eapply Hinv; [|exact Erest].
  split; [reflexivity|]. cbn.
  eexists. exists cells. split; [reflexivity|]. split; [|exact Hcell].
  apply in_or_app. right. now left.
Qed.

Lemma save_template_rejects_name item w :
  name_cell (pf w) (snd item) <> SNull ->
  holds_name (pf w) (name_cell (pf w) (snd item)) w ->
  exists e w', SQLiteStorage.save_template item w = (Raise e, w').
Proof.
  intros Hnn [_ (rows & r & Hv & Hin & Hn)].
  unfold SQLiteStorage.save_template. cbv zeta.
  pose proof (exec_insert_spec tbl_templates
                [TaskTemplate.id (snd item); TaskTemplate.name (snd item);
                 TaskTemplate.title (snd item); TaskTemplate.description (snd item);
                 TaskTemplate.priority (snd item);
                 TaskTemplate.estimated_minutes (snd item);
                 TaskTemplate.reminder_before_minutes (snd item)] w) as S.
  rewrite Hv in S.
  destruct (insert_row _ _ _ _) as [rows'|] eqn:Er.
  - exfalso. apply insert_template_row in Er. destruct Er as (_ & Hu & _).
    assert (Ht : existsb (fun r => sql_eqb (nth 1 r SNull) (name_cell (pf w) (snd item)))
                         rows = true).
    { apply existsb_exists. exists r. split; [exact Hin|].
      rewrite Hn. now apply sql_eqb_refl. }
    congruence.
  - rewrite (bind_raise _ _ _ _ _ S). eauto.
Qed.

Lemma confined_pf P {A} (m : Py A) w o w' :
  confined P m -> m w = (o, w') -> pf w' = pf w.
Proof. intros Hm E. destruct (Hm _ _ _ E) as (c & -> & _). reflexivity. Qed.

(** With two templates of one name in the collection the insertions cannot
    all succeed. *)
Lemma save_templates_duplicate_raises
      (M1 M2 M3 : mapping TaskTemplate.t) (x1 x2 : pyval * TaskTemplate.t) w :
  TaskTemplate.name (snd x1) = TaskTemplate.name (snd x2) ->
  exists e w',
    for_each (M1 ++ x1 :: M2 ++ x2 :: M3) SQLiteStorage.save_template w = (Raise e, w').
Proof.
  intros Hname.
  rewrite for_each_app.
  destruct (for_each M1 SQLiteStorage.save_template w) as [[[] | e] wa]; [|eauto].
  cbn [for_each]. unfold bind at 1.
  destruct (SQLiteStorage.save_template x1 wa) as [[[] | e] wb] eqn:E1; [|eauto].
  apply save_template_records_name in E1. destruct E1 as [Hnn Hholds].
  rewrite for_each_app.
  destruct (for_each M2 SQLiteStorage.save_template wb) as [[[] | e] wc] eqn:E2; [|eauto].
  assert (Hc : holds_name (pf wa) (name_cell (pf wa) (snd x1)) wc).
  { eapply (invariant_for_each (holds_name (pf wa) (name_cell (pf wa) (snd x1))));
      [|exact Hholds|exact E2].
    intros. apply invariant_holds_name_save_template. }
  assert (Hp : pf wc = pf wa) by apply Hc.
  assert (Hcell : name_cell (pf wc) (snd x2) = name_cell (pf wa) (snd x1)).
  { unfold name_cell. now rewrite Hp, Hname. }
  cbn [for_each]. unfold bind at 1.
  destruct (save_template_rejects_name x2 wc) as (e & w' & ->); [| |eauto].
  - now rewrite Hcell.
  - rewrite Hcell. now rewrite Hp.
Qed.

(** The relational backend refuses a collection with a duplicate name:
    [save_templates] returns [False] and the rollback restores the
    committed database. *)
Lemma SQLiteStorage_save_templates_duplicate (self : SQLiteStorage.t)
      (M1 M2 M3 : mapping TaskTemplate.t) (x1 x2 : pyval * TaskTemplate.t) w :
  TaskTemplate.name (snd x1) = TaskTemplate.name (snd x2) ->
  SQLiteStorage.save_templates self (M1 ++ x1 :: M2 ++ x2 :: M3)%list w
  = (Return false, set_conn (Connection (committed (conn w)) None) w).
Proof.
  intros Hname.
  destruct (SQLiteStorage_save_templates_cases self (M1 ++ x1 :: M2 ++ x2 :: M3)%list w)
    as [(e & w1 & _ & E) | (w1 & Hr & _ & _)]; [exact E|].
  exfalso. rewrite replace_templates_delete_all in Hr.
  destruct (delete_all_cases template_tables
              (for_each (M1 ++ x1 :: M2 ++ x2 :: M3) SQLiteStorage.save_template) w)
    as [(t & _ & _ & e & w' & Hr') | (_ & w0 & _ & _ & Hr')]; [congruence|].
  destruct (save_templates_duplicate_raises M1 M2 M3 x1 x2 w0 Hname) as (e & w' & Hd).
  congruence.
Qed.

(** C5. For a templates collection keyed by distinct ids in which two
    templates have the same name (and which json can encode, the templates
    file being writable): the relational backend's [save_templates] fails,
    its insertions raise, it returns [False], and the committed database is
    the one before the call; the document backend's [save_templates]
    returns [True], and a following [load_templates] returns the whole
    collection, both templates of that name included. *)
Theorem duplicate_template_name_rejected_by_sqlite_accepted_by_json :
  forall (ss : SQLiteStorage.t) (js : JSONStorage.t)
         (A B C : list (string * TaskTemplate.t))
         (k1 k2 : string) (t1 t2 : TaskTemplate.t) (w : world),
    TaskTemplate.name t1 = TaskTemplate.name t2 ->
    NoDup (map fst (A ++ (k1, t1) :: B ++ (k2, t2) :: C)) ->
    all_serializable TaskTemplate.t TaskTemplate.to_dict
      (A ++ (k1, t1) :: B ++ (k2, t2) :: C) = true ->
    writable w (JSONStorage.templates_filepath js) = true ->
    (exists w',
        SQLiteStorage.save_templates ss
          (keyed TaskTemplate.t (A ++ (k1, t1) :: B ++ (k2, t2) :: C)) w
        = (Return false, w') /\
        committed (conn w') = committed (conn w) /\
        pending (conn w') = None /\
        exists e w1,
          SQLiteStorage.replace_templates
            (keyed TaskTemplate.t (A ++ (k1, t1) :: B ++ (k2, t2) :: C)) w
          = (Raise e, w1)) /\
    (exists w1,
        JSONStorage.save_templates js
          (keyed TaskTemplate.t (A ++ (k1, t1) :: B ++ (k2, t2) :: C)) w
        = (Return true, w1) /\
        JSONStorage.load_templates js w1
        = (Return (keyed TaskTemplate.t (A ++ (k1, t1) :: B ++ (k2, t2) :: C)), w1) /\
        In (PStr k1, t1) (keyed TaskTemplate.t (A ++ (k1, t1) :: B ++ (k2, t2) :: C)) /\
        In (PStr k2, t2) (keyed TaskTemplate.t (A ++ (k1, t1) :: B ++ (k2, t2) :: C)) /\
        k1 <> k2).
Proof.
  intros ss js A B C k1 k2 t1 t2 w Hname Hnd Hser Hw.
  split.
  - assert (Hk : keyed TaskTemplate.t (A ++ (k1, t1) :: B ++ (k2, t2) :: C)
                 = (keyed TaskTemplate.t A ++ (PStr k1, t1)
                    :: keyed TaskTemplate.t B ++ (PStr k2, t2)
                    :: keyed TaskTemplate.t C)%list).
    { unfold keyed. rewrite map_app. cbn [map]. rewrite map_app. reflexivity. }
    rewrite Hk.
    pose proof (SQLiteStorage_save_templates_duplicate ss
                  (keyed TaskTemplate.t A) (keyed TaskTemplate.t B)
                  (keyed TaskTemplate.t C) (PStr k1, t1) (PStr k2, t2) w Hname) as E.
    eexists. split; [exact E|]. split; [reflexivity|]. split; [reflexivity|].
    destruct (SQLiteStorage_save_templates_cases ss
                (keyed TaskTemplate.t A ++ (PStr k1, t1)
                 :: keyed TaskTemplate.t B ++ (PStr k2, t2)
                 :: keyed TaskTemplate.t C)%list w)
      as [(e & w1 & Hr & _) | (w1 & _ & _ & E')]; [eauto | congruence].
  - destruct (JSONStorage_templates_round_trip js _ w Hnd Hser Hw) as (w1 & Es & El).
    exists w1. split; [exact Es|]. split; [exact El|].
    split; [|split].
    + unfold keyed. apply in_map_iff. exists (k1, t1). split; [reflexivity|].
      apply in_or_app. right. now left.
    + unfold keyed. apply in_map_iff. exists (k2, t2). split; [reflexivity|].
      apply in_or_app. right. right. apply in_or_app. right. now left.
    + intros ->. rewrite map_app in Hnd. cbn [map fst] in Hnd.
      apply NoDup_remove_2 in Hnd. apply Hnd. apply in_or_app. right.
      rewrite map_app. apply in_or_app. right. now left.
Qed.

(** ** The relational backend: failed loads *)

Lemma returns_only_bind {A B} (Q : B -> Prop) (m : Py A) (k : A -> Py B) :
  (forall a, returns_only Q (k a)) -> returns_only Q (bind m k).
Proof.
  intros Hk w r w' E. apply bind_inv in E. destruct E as (a & w1 & _ & E).
  eapply Hk; eauto.
Qed.

Lemma returns_only_ret {A} (Q : A -> Prop) (a : A) : Q a -> returns_only Q (ret a).
Proof. intros Ha w r w' E. now inversion E; subst. Qed.

Lemma mapping_set_not_empty {A} (m : mapping A) k (v : A) : mapping_set m k v <> [].
Proof. destruct m as [|[k' v'] m]; cbn; [|destruct (key_eqb k k')]; discriminate. Qed.

Lemma fold_py_not_empty {A B} (f : list B -> A -> Py (list B)) (xs : list A) :
  (forall s x, returns_only (fun r => r <> []) (f s x)) ->
  xs <> [] ->
  forall s, returns_only (fun r => r <> []) (fold_py f xs s).
Proof.
  intros Hf. induction xs as [|x xs IH]; [congruence|]. intros _ s w r w' E.
  cbn [fold_py] in E. apply bind_inv in E. destruct E as (s1 & w1 & E1 & E).
  destruct xs as [|y ys].
  - cbn in E. inversion E; subst. eapply Hf; eauto.
  - eapply IH; [discriminate | exact E].
Qed.

Lemma load_task_not_empty acc row :
  returns_only (fun r => r <> []) (SQLiteStorage.load_task acc row).
Proof.
  unfold SQLiteStorage.load_task. cbv zeta.
  repeat (apply returns_only_bind; intros ?).
  apply returns_only_ret, mapping_set_not_empty.
Qed.

Lemma load_template_not_empty acc row :
  returns_only (fun r => r <> []) (SQLiteStorage.load_template acc row).
Proof.
  unfold SQLiteStorage.load_template. cbv zeta.
  repeat (apply returns_only_bind; intros ?).
  apply returns_only_ret, mapping_set_not_empty.
Qed.

Lemma select_all_cases t w :
  match view (conn w) t with
  | None =>
      select_all t w = (Raise (OperationalError ("no such table: " ++ table_label t)), w)
  | Some rows => select_all t w = (Return (map (named_row t) rows), w)
  end.
Proof. unfold select_all, bind, get_conn. now destruct (view (conn w) t). Qed.

Lemma select_where_cases t key v w :
  match view (conn w) t with
  | None =>
      select_where t key v w
      = (Raise (OperationalError ("no such table: " ++ table_label t)), w)
  | Some rows => exists o, select_where t key v w = (o, w)
  end.
Proof.
  unfold select_where, bind, get_conn, call_platform.
  destruct (view (conn w) t); [eauto | reflexivity].
Qed.

(** One step of a loop body that only reads: it raises, or it returns in
    the same world. *)
Ltac reading_step :=
  match goal with
  | |- exists e w', bind (lift ?o) ?k ?w = (Raise e, w') =>
      destruct o as [?a | ?e];
      [rewrite bind_lift_return | eexists; eexists; reflexivity]
  | Hnone : view (conn ?w) ?t = None
    |- exists e w', bind (select_where ?t ?key ?v) ?k ?w = (Raise e, w') =>
      let Hsel := fresh "Hsel" in
      pose proof (select_where_cases t key v w) as Hsel; rewrite Hnone in Hsel;
      cbv beta iota in Hsel;
      rewrite (bind_raise _ _ _ _ _ Hsel); eexists; eexists; reflexivity
  | |- exists e w', bind (select_where ?t ?key ?v) ?k ?w = (Raise e, w') =>
      let Hsel := fresh "Hsel" in
      pose proof (select_where_cases t key v w) as Hsel;
      destruct (view (conn w) t);
      [ destruct Hsel as ([?rows | ?e] & Hsel);
        [ rewrite (bind_return _ _ _ _ _ Hsel)
        | rewrite (bind_raise _ _ _ _ _ Hsel); eexists; eexists; reflexivity ]
      | rewrite (bind_raise _ _ _ _ _ Hsel); eexists; eexists; reflexivity ]
  end; cbv beta.

Lemma load_task_missing_child acc row w t :
  In t [tbl_task_categories; tbl_task_tags; tbl_task_dependencies; tbl_time_entries] ->
  view (conn w) t = None ->
  exists e w', SQLiteStorage.load_task acc row w = (Raise e, w').
Proof.
  intros Hin Hnone. unfold SQLiteStorage.load_task. cbv zeta.
  cbn in Hin. destruct Hin as [<- | [<- | [<- | [<- | []]]]]; repeat reading_step.
Qed.

Lemma load_template_missing_child acc row w t :
  In t [tbl_template_categories; tbl_template_tags] ->
  view (conn w) t = None ->
  exists e w', SQLiteStorage.load_template acc row w = (Raise e, w').
Proof.
  intros Hin Hnone. unfold SQLiteStorage.load_template. cbv zeta.
  cbn in Hin. destruct Hin as [<- | [<- | []]]; repeat reading_step.
Qed.

Lemma fold_py_first_raises {A S} (f : S -> A -> Py S) x xs s w :
  (exists e w', f s x w = (Raise e, w')) ->
  exists e w', fold_py f (x :: xs) s w = (Raise e, w').
Proof.
  intros (e & w' & E). cbn [fold_py]. rewrite (bind_raise _ _ _ _ _ E). eauto.
Qed.

(** C4. The loads of the relational backend have no handler: a failure
    reaches the caller as a raised error and never as an empty mapping.
    When the parent table is missing, the load raises [OperationalError];
    when the parent table has a row and one of the child tables it reads is
    missing, the load raises; and the load returns the empty mapping only
    when the parent table exists and is empty. *)
Theorem SQLiteStorage_load_failures_propagate :
  forall (self : SQLiteStorage.t) (w : world),
    (view (conn w) tbl_tasks = None ->
     SQLiteStorage.load_tasks self w
     = (Raise (OperationalError "no such table: tasks"), w)) /\
    (forall r rows t,
        view (conn w) tbl_tasks = Some (r :: rows) ->
        In t [tbl_task_categories; tbl_task_tags; tbl_task_dependencies;
              tbl_time_entries] ->
        view (conn w) t = None ->
        exists e w', SQLiteStorage.load_tasks self w = (Raise e, w')) /\
    (forall w', SQLiteStorage.load_tasks self w = (Return [], w') ->
                view (conn w) tbl_tasks = Some []) /\
    (view (conn w) tbl_templates = None ->
     SQLiteStorage.load_templates self w
     = (Raise (OperationalError "no such table: templates"), w)) /\
    (forall r rows t,
        view (conn w) tbl_templates = Some (r :: rows) ->
        In t [tbl_template_categories; tbl_template_tags] ->
        view (conn w) t = None ->
        exists e w', SQLiteStorage.load_templates self w = (Raise e, w')) /\
    (forall w', SQLiteStorage.load_templates self w = (Return [], w') ->
                view (conn w) tbl_templates = Some []).
Proof.
  intros self w.
  pose proof (select_all_cases tbl_tasks w) as Stasks.
  pose proof (select_all_cases tbl_templates w) as Stemplates.
  unfold SQLiteStorage.load_tasks, SQLiteStorage.load_templates.
  repeat split.
  - intros Hnone. rewrite Hnone in Stasks.
    now rewrite (bind_raise _ _ _ _ _ Stasks).
  - intros r rows t Hv Hin Hnone. rewrite Hv in Stasks.
    rewrite (bind_return _ _ _ _ _ Stasks). cbn [map].
    apply fold_py_first_raises. eapply load_task_missing_child; eauto.
  - intros w' E. destruct (view (conn w) tbl_tasks) as [[|r rows]|]; [reflexivity| |].
    + exfalso. rewrite (bind_return _ _ _ _ _ Stasks) in E. cbn [map] in E.
      eapply (fold_py_not_empty SQLiteStorage.load_task); [| |exact E| reflexivity].
      * intros. apply load_task_not_empty.
      * discriminate.
    + rewrite (bind_raise _ _ _ _ _ Stasks) in E. discriminate.
  - intros Hnone. rewrite Hnone in Stemplates.
    now rewrite (bind_raise _ _ _ _ _ Stemplates).
  - intros r rows t Hv Hin Hnone. rewrite Hv in Stemplates.
    rewrite (bind_return _ _ _ _ _ Stemplates). cbn [map].
    apply fold_py_first_raises. eapply load_template_missing_child; eauto.
  - intros w' E. destruct (view (conn w) tbl_templates) as [[|r rows]|]; [reflexivity| |].
    + exfalso. rewrite (bind_return _ _ _ _ _ Stemplates) in E. cbn [map] in E.
      eapply (fold_py_not_empty SQLiteStorage.load_template); [| |exact E| reflexivity].
      * intros. apply load_template_not_empty.
      * discriminate.
    + rewrite (bind_raise _ _ _ _ _ Stemplates) in E. discriminate.
Qed.

(** ** Reminders and recurrence *)

Lemma truthy_str s : s <> "" -> truthy (PStr s) = true.
Proof.
  intros H. cbn. destruct (String.eqb s "") eqn:E; [|reflexivity].
  apply String.eqb_eq in E. contradiction.
Qed.

Lemma datetime_add_in_range d delta :
  0 <= dt_micros d + delta <= datetime_max ->
  datetime_add d delta = Return (DateTime (dt_micros d + delta) (dt_offset d)).
Proof.
  intros [H1 H2]. unfold datetime_add.
  apply Z.leb_le in H1, H2. now rewrite H1, H2.
Qed.

(** C7. A task whose due date is one hour after the current time, with
    [reminder_before_minutes = 120], a status other than "completed" and no
    [last_reminded], needs a reminder: [needs_reminder] returns [True].
    Once [last_reminded] holds that current time, every later call whose
    clock reading is less than one hour after it returns [False]. *)
Theorem needs_reminder_scenario :
  forall (task : Task.t) (w : world) (due_text : string) (now_us : Z),
    Task.due_date task = PStr due_text ->
    due_text <> "" ->
    fromisoformat (pf w) due_text = Return (naive (now_us + us_per_hour)) ->
    Task.reminder_before_minutes task = PInt 120 ->
    eq_str (Task.status task) "completed" = false ->
    Task.last_reminded task = PNone ->
    clock w (clock_reads w) = now_us ->
    us_per_hour <= now_us <= datetime_max ->
    (exists w', Task.needs_reminder task w = (Return true, w')) /\
    (forall (w2 : world) (marked : string),
        pf w2 = pf w ->
        marked <> "" ->
        fromisoformat (pf w) marked = Return (naive now_us) ->
        clock w2 (S (clock_reads w2)) - now_us < us_per_hour ->
        exists w',
          Task.needs_reminder (Task.set_last_reminded (PStr marked) task) w2
          = (Return false, w')).
Proof.
  intros task w due_text now_us Hdue Hne Hparse Hrem Hstatus Hlast Hclock Hrange.
  assert (Hmax : datetime_max = 315537897599999999) by reflexivity.
  unfold us_per_hour in *.
  assert (Htd : check_timedelta (120 * us_per_minute) = Return 7200000000)
    by reflexivity.
  split.
  - unfold Task.needs_reminder.
    rewrite Hdue, Hrem, Hstatus, Hlast, (truthy_str _ Hne).
    cbn [truthy negb orb Z.eqb].
    unfold bind, call_platform, lift, now. cbn [py_fromisoformat make_timedelta].
    rewrite Hparse, Htd.
    rewrite datetime_add_in_range by (cbn [dt_micros naive]; lia).
    cbn [datetime_ge naive dt_offset dt_micros].
    rewrite Hclock.
    match goal with
    | |- context [?a <=? ?b] => destruct (Z.leb_spec a b); [|lia]
    end.
    eexists. reflexivity.
  - intros w2 marked Hpf Hmarked Hmparse Hsoon.
    rewrite <- Hpf in Hparse, Hmparse.
    unfold Task.needs_reminder.
    destruct task; cbn [Task.set_last_reminded Task.due_date Task.reminder_before_minutes
      Task.status Task.last_reminded] in *.
    subst due_date reminder_before_minutes last_reminded.
    rewrite Hstatus, (truthy_str _ Hne), (truthy_str _ Hmarked).
    cbn [truthy negb orb Z.eqb].
    unfold bind, call_platform, lift, now. cbn [py_fromisoformat make_timedelta].
    rewrite Hparse, Htd.
    rewrite datetime_add_in_range by (cbn [dt_micros naive]; lia).
    cbn [datetime_ge naive dt_offset dt_micros].
    match goal with
    | |- context [?a <=? ?b] => destruct (a <=? b); [|eexists; reflexivity]
    end.
    change (pf (tick w2)) with (pf w2). rewrite Hmparse.
    cbn [datetime_diff naive dt_offset dt_micros].
    change (clock (tick w2) (clock_reads (tick w2))) with (clock w2 (S (clock_reads w2))).
    match goal with
    | |- context [?a <? ?b] => destruct (Z.ltb_spec a b); [|unfold us_per_hour in *; lia]
    end.
    eexists. reflexivity.
Qed.

Lemma mapping_get_set_same {A} (m : mapping A) k (v0 v : A) :
  mapping_get m k = Some v0 -> mapping_get (mapping_set m k v) k = Some v.
Proof.
  induction m as [|[k' v'] m IH]; cbn [mapping_get mapping_set]; [discriminate|].
  destruct (key_eqb k k') eqn:E; cbn [mapping_get]; rewrite E; auto.
Qed.

Lemma mapping_get_set_absent {A} (m : mapping A) k k2 (v0 v : A) :
  mapping_get m k = Some v0 -> mapping_get m k2 = None ->
  mapping_get (mapping_set m k v) k2 = None.
Proof.
  induction m as [|[k' v'] m IH]; cbn [mapping_get mapping_set]; [discriminate|].
  destruct (key_eqb k k') eqn:E, (key_eqb k2 k') eqn:E2; cbn [mapping_get];
    rewrite ?E2; try discriminate; auto.
Qed.

Lemma mapping_get_app_found {A} (m l : mapping A) k (v : A) :
  mapping_get m k = Some v -> mapping_get (m ++ l)%list k = Some v.
Proof.
  induction m as [|[k' v'] m IH]; cbn [mapping_get app]; [discriminate|].
  destruct (key_eqb k k'); auto.
Qed.

Lemma mapping_get_app_new {A} (m : mapping A) s (v : A) :
  mapping_get m (PStr s) = None -> mapping_get (m ++ [(PStr s, v)])%list (PStr s) = Some v.
Proof.
  induction m as [|[k' v'] m IH]; cbn [mapping_get app].
  - intros _. cbn. now rewrite String.eqb_refl.
  - destruct (key_eqb (PStr s) k'); [discriminate | auto].
Qed.


Lemma Task_complete_spec task w :
  Task.complete task w
  = (Return (Task.set_updated_at
               (PStr (isoformat (pf w) (naive (clock w (S (clock_reads w))))))
               (Task.set_completed_at
                  (PStr (isoformat (pf w) (naive (clock w (clock_reads w)))))
                  (Task.set_status (PStr "completed") task))),
     tick (tick w)).
Proof. reflexivity. Qed.

Lemma generate_next_recurrence_daily (t0 : Task.t) (w : world) due_text D :
  Task.is_recurring t0 = PBool true ->
  Task.recurrence_type t0 = PStr "daily" ->
  Task.recurrence_interval t0 = PInt 2 ->
  Task.due_date t0 = PStr due_text ->
  due_text <> "" ->
  fromisoformat (pf w) due_text = Return D ->
  0 <= dt_micros D + 2 * us_per_day <= datetime_max ->
  exists c m l,
  Task.generate_next_recurrence t0 w
  = (Return
       (Some
          (Task.set_last_recurrence l
             (Task.set_due_date
                (PStr (isoformat (pf w)
                         (DateTime (dt_micros D + 2 * us_per_day) (dt_offset D))))
                (Task.set_time_entries (PList [])
                   (Task.set_updated_at m
                      (Task.set_created_at c
                         (Task.set_completed_at PNone
                            (Task.set_status (PStr "pending")
                               (Task.set_id (PStr (uuid_source w (uuid_drawn w)))
                                  t0))))))))),
     tick (tick (tick (drawn w)))).
Proof.
  intros Hrec Htype Hint Hdue Hne Hparse Hrange.
  assert (Htd : check_timedelta (2 * us_per_day) = Return (2 * us_per_day)) by reflexivity.
  unfold Task.generate_next_recurrence.
  rewrite Hrec, Htype, Hint, Hdue, (truthy_str _ Hne).
  cbn [truthy negb orb eq_str String.eqb Ascii.eqb Bool.eqb].
  rewrite (bind_return _ _ _ _ _ (Task_from_dict_to_dict t0 w)).
  unfold bind, uuid4_str, now_isoformat, now, call_platform, ret.
  cbn [bind pf tick drawn py_fromisoformat make_timedelta obind].
  rewrite Hparse, Htd. cbn [obind].
  rewrite datetime_add_in_range by assumption.
  eexists. eexists. eexists. reflexivity.
Qed.


Section Manager.
Context {backend : Type} `{Storage backend}.

Lemma mbind_return {A B} (m : TaskManager.Method A) (k : A -> TaskManager.Method B)
      (self self' : TaskManager.t backend) w a w' :
  m self w = (Return a, self', w') -> TaskManager.mbind m k self w = k a self' w'.
Proof. intros E. unfold TaskManager.mbind. now rewrite E. Qed.

Lemma call_return {A} (m : Py A) (self : TaskManager.t backend) w a w' :
  m w = (Return a, w') -> TaskManager.call m self w = (Return a, self, w').
Proof. intros E. unfold TaskManager.call. now rewrite E. Qed.

Lemma save_returns (self : TaskManager.t backend) w :
  saves_return (TaskManager.storage self) ->
  exists w', TaskManager.save self w = (Return tt, self, w').
Proof.
  intros [Ht Hm]. unfold TaskManager.save.
  rewrite (mbind_return _ _ self self w self w eq_refl).
  destruct (Ht (TaskManager.tasks self) w) as (b & w1 & E1).
  rewrite (mbind_return _ _ _ _ _ _ _ (call_return _ self _ _ _ E1)).
  destruct (Hm (TaskManager.templates self) w1) as (b' & w2 & E2).
  rewrite (mbind_return _ _ _ _ _ _ _ (call_return _ self _ _ _ E2)).
  eexists. reflexivity.
Qed.

End Manager.


(** ** The round trip through each backend *)

(** C1, on the sample task (a category, a tag, a dependency, a stopped and
    a running time entry).  In the relational backend [save_tasks] succeeds
    and [load_tasks] returns a task that is not the saved one: its time
    entries are the rows of the [time_entries] table, each with the extra
    key [task_id], on which [TimeEntry.from_dict] raises while it accepts
    the saved entries.  In the document backend the same round trip gives
    the saved collection back. *)
Theorem SQLiteStorage_round_trip_adds_task_id :
  fst (SQLiteStorage.save_tasks Sample.sqlite Sample.tasks Sample.world0) = Return true /\
  fst (SQLiteStorage.load_tasks Sample.sqlite
         (snd (SQLiteStorage.save_tasks Sample.sqlite Sample.tasks Sample.world0)))
  = Return [(Task.id Sample.task,
             Task.set_time_entries
               (PList [Sample.completed_entry_row; Sample.active_entry_row])
               Sample.task)] /\
  Task.set_time_entries (PList [Sample.completed_entry_row; Sample.active_entry_row])
                        Sample.task <> Sample.task /\
  (forall w, exists msg,
      TimeEntry.from_dict Sample.completed_entry_row w = (Raise (TypeError msg), w)) /\
  (forall w, TimeEntry.from_dict Sample.completed_entry w
             = (Return (TimeEntry.mk (PStr "e-1") (PStr "2026-11-03T08:00:00")
                                     (PStr "2026-11-03T08:30:00")
                                     (PFloat (Float64 4629137466983448576))
                                     (PStr "draft")), w)) /\
  fst (JSONStorage.save_tasks Sample.json Sample.tasks Sample.world0) = Return true /\
  fst (JSONStorage.load_tasks Sample.json
         (snd (JSONStorage.save_tasks Sample.json Sample.tasks Sample.world0)))
  = Return Sample.tasks.
Proof.
  split; [vm_compute; reflexivity|].
  split; [vm_compute; reflexivity|].
  split; [discriminate|].
  split; [intros w; eexists; reflexivity|].
  split; [intros w; reflexivity|].
  split; vm_compute; reflexivity.
Qed.

(** The saves of the two backends return. *)
Lemma JSONStorage_saves_return (self : JSONStorage.t) : saves_return self.
Proof.
  split; intros M w; cbn [storage_save_tasks storage_save_templates JSONStorage_Storage].
  - destruct (JSONStorage_save_tasks_cases self M w) as [E | (text & _ & E)]; eauto.
  - destruct (JSONStorage_save_templates_cases self M w) as [E | (text & _ & E)]; eauto.
Qed.

Lemma SQLiteStorage_saves_return (self : SQLiteStorage.t) : saves_return self.
Proof.
  split; intros M w; cbn [storage_save_tasks storage_save_templates SQLiteStorage_Storage].
  - destruct (SQLiteStorage_save_tasks_cases self M w)
      as [(e & w1 & _ & E) | (w1 & _ & _ & E)]; eauto.
  - destruct (SQLiteStorage_save_templates_cases self M w)
      as [(e & w1 & _ & E) | (w1 & _ & _ & E)]; eauto.
Qed.

(** ** The properties on the sample data *)

Lemma run_returns {A} (m : Py A) (w : world) (a : A) :
  fst (m w) = Return a -> m w = (Return a, snd (m w)).
Proof. destruct (m w) as [o w']. cbn. now intros ->. Qed.

Lemma Task_from_dict_missing_field_witness :
  exists task w' v w0 w1,
    Task.from_dict (PDict Sample.old_record) Reference.empty_world = (Return task, w') /\
    dict_get (Task.to_dict task) "reminder_before_minutes" = Some v /\
    advances Reference.empty_world w0 /\
    Task.declared_default "reminder_before_minutes" w0 = (Return v, w1).
Proof.
  apply (Task_from_dict_missing_field_takes_default Sample.old_record
           "reminder_before_minutes" Reference.empty_world).
  - intros k H. simpl in H. simpl. tauto.
  - simpl. tauto.
  - reflexivity.
Defined.



Lemma duplicate_template_name_witness :
  (exists w',
      SQLiteStorage.save_templates Sample.sqlite
        (keyed TaskTemplate.t ([] ++ ("tpl-1", Sample.template_a)
                               :: [] ++ ("tpl-2", Sample.template_b) :: [])) Sample.world0
      = (Return false, w') /\
      committed (conn w') = committed (conn Sample.world0) /\
      pending (conn w') = None /\
      exists e w1,
        SQLiteStorage.replace_templates
          (keyed TaskTemplate.t ([] ++ ("tpl-1", Sample.template_a)
                                 :: [] ++ ("tpl-2", Sample.template_b) :: [])) Sample.world0
        = (Raise e, w1)) /\
  (exists w1,
      JSONStorage.save_templates Sample.json
        (keyed TaskTemplate.t ([] ++ ("tpl-1", Sample.template_a)
                               :: [] ++ ("tpl-2", Sample.template_b) :: [])) Sample.world0
      = (Return true, w1) /\
      JSONStorage.load_templates Sample.json w1
      = (Return (keyed TaskTemplate.t ([] ++ ("tpl-1", Sample.template_a)
                                       :: [] ++ ("tpl-2", Sample.template_b) :: [])), w1) /\
      In (PStr "tpl-1", Sample.template_a)
         (keyed TaskTemplate.t ([] ++ ("tpl-1", Sample.template_a)
                                :: [] ++ ("tpl-2", Sample.template_b) :: [])) /\
      In (PStr "tpl-2", Sample.template_b)
         (keyed TaskTemplate.t ([] ++ ("tpl-1", Sample.template_a)
                                :: [] ++ ("tpl-2", Sample.template_b) :: [])) /\
      "tpl-1" <> "tpl-2").
Proof.
  apply (duplicate_template_name_rejected_by_sqlite_accepted_by_json
           Sample.sqlite Sample.json [] [] [] "tpl-1" "tpl-2"
           Sample.template_a Sample.template_b Sample.world0).
  - reflexivity.
  - simpl. repeat constructor; simpl; intuition discriminate.
  - reflexivity.
  - vm_compute; reflexivity.
Defined.

Lemma needs_reminder_witness :
  (exists w', Task.needs_reminder Sample.reminder_task Reference.empty_world
              = (Return true, w')) /\
  (forall (w2 : world) (marked : string),
      pf w2 = pf Reference.empty_world ->
      marked <> "" ->
      fromisoformat (pf Reference.empty_world) marked
      = Return (naive (Reference.the_clock 0)) ->
      clock w2 (S (clock_reads w2)) - Reference.the_clock 0 < us_per_hour ->
      exists w',
        Task.needs_reminder (Task.set_last_reminded (PStr marked) Sample.reminder_task) w2
        = (Return false, w')).
Proof.
  apply (needs_reminder_scenario Sample.reminder_task Reference.empty_world
           "2026-11-03T11:00:00" (Reference.the_clock 0)).
  - reflexivity.
  - discriminate.
  - vm_compute; reflexivity.
  - reflexivity.
  - reflexivity.
  - reflexivity.
  - reflexivity.
  - vm_compute; split; discriminate.
Defined.


(** The failures of the document backend, phase by phase: a file that is no
    JSON, a document that is no object, a value json cannot encode, a file
    that cannot be written. *)
Example JSONStorage_load_tasks_malformed_file :
  fst (JSONStorage.load_tasks Sample.json Sample.world_with_malformed_file) = Return [].
Proof. vm_compute. reflexivity. Qed.

Example JSONStorage_load_tasks_not_an_object :
  fst (JSONStorage.load_tasks Sample.json
         (overwritten "tasks.json" (JsonText (PList [])) Sample.world0)) = Return [].
Proof. vm_compute. reflexivity. Qed.

Example JSONStorage_save_tasks_bytes_value :
  fst (JSONStorage.save_tasks Sample.json
         [(PStr "t-1", Task.set_time_entries (PList [PBytes []]) Sample.task)]
         Sample.world0) = Return false.
Proof. vm_compute. reflexivity. Qed.

Example JSONStorage_save_tasks_read_only_file :
  fst (JSONStorage.save_tasks Sample.json Sample.tasks
         (set_fs (fun _ => ReadOnlyFile (Malformed "")) Sample.world0)) = Return false.
Proof. vm_compute. reflexivity. Qed.

(** A dropped table: the relational load raises where the document load of
    a damaged file returns the empty mapping. *)
Example SQLiteStorage_load_tasks_dropped_table :
  fst (SQLiteStorage.load_tasks Sample.sqlite Sample.world_without_tasks_table)
  = Raise (OperationalError "no such table: tasks").
Proof. vm_compute. reflexivity. Qed.

(** A save that fails after some insertions: the second task brings a time
    entry whose id the first has stored.  The save returns [False] and a
    following load returns what was stored before. *)
Example SQLiteStorage_save_tasks_rolls_back :
  fst (SQLiteStorage.replace_tasks Sample.clashing_tasks Sample.world_with_task)
  = Raise (IntegrityError "UNIQUE constraint failed: time_entries.id") /\
  fst (SQLiteStorage.save_tasks Sample.sqlite Sample.clashing_tasks Sample.world_with_task)
  = Return false /\
  fst (SQLiteStorage.load_tasks Sample.sqlite
         (snd (SQLiteStorage.save_tasks Sample.sqlite Sample.clashing_tasks
                 Sample.world_with_task)))
  = fst (SQLiteStorage.load_tasks Sample.sqlite Sample.world_with_task).
Proof.
  split; [vm_compute; reflexivity|].
  split; vm_compute; reflexivity.
Qed.

(** The error that the duplicate name raises. *)
Example SQLiteStorage_duplicate_name_error :
  fst (SQLiteStorage.replace_templates (keyed TaskTemplate.t Sample.templates)
         Sample.world0)
  = Raise (IntegrityError "UNIQUE constraint failed: templates.name").
Proof. vm_compute. reflexivity. Qed.

(** The sample recurrence: due 2026-11-03T11:00:00, next due two days on. *)
Example recurring_task_next_due_date :
  option_map Task.due_date
    (match fst (Task.generate_next_recurrence Sample.recurring_task Sample.world0) with
     | Return next => next
     | Raise _ => None
     end)
  = Some (PStr "2026-11-05T11:00:00").
Proof. vm_compute. reflexivity. Qed.

(** ** models.py: codecs, dependencies, recurrence and reminders *)

(** X1. For TimeEntry, Task and TaskTemplate, from_dict applied to the
    to_dict of a record returns that record, without reading the clock or
    drawing a uuid. *)
Theorem from_dict_inverts_to_dict :
  forall (w : world),
    (forall entry : TimeEntry.t,
        TimeEntry.from_dict (PDict (TimeEntry.to_dict entry)) w = (Return entry, w)) /\
    (forall task : Task.t,
        Task.from_dict (PDict (Task.to_dict task)) w = (Return task, w)) /\
    (forall template : TaskTemplate.t,
        TaskTemplate.from_dict (PDict (TaskTemplate.to_dict template)) w
        = (Return template, w)).
Proof.
  intros w. split; [|split].
  - intros []. reflexivity.
  - intros []. reflexivity.
  - intros []. reflexivity.
Qed.

Lemma is_overdue_cases :
  forall (task : Task.t) (w : world),
    (truthy (Task.due_date task) = false \/ eq_str (Task.status task) "completed" = true ->
     Task.is_overdue task w = (Return false, w)) /\
    (forall due_text D,
        Task.due_date task = PStr due_text -> due_text <> "" ->
        eq_str (Task.status task) "completed" = false ->
        fromisoformat (pf w) due_text = Return (naive D) ->
        Task.is_overdue task w = (Return (D <? clock w (clock_reads w)), tick w)) /\
    (forall due_text e,
        Task.due_date task = PStr due_text -> due_text <> "" ->
        eq_str (Task.status task) "completed" = false ->
        fromisoformat (pf w) due_text = Raise e ->
        Task.is_overdue task w = (Raise e, w)).
Proof.
  intros task w. unfold Task.is_overdue. split; [|split].
  - intros [H | H]; rewrite H; [reflexivity|].
    now rewrite orb_true_r.
  - intros due_text D Hdue Hne Hst Hparse.
    rewrite Hdue, Hst, (truthy_str _ Hne). cbn [negb orb].
    unfold bind, call_platform, now, lift. cbn [py_fromisoformat].
    rewrite Hparse. reflexivity.
  - intros due_text e Hdue Hne Hst Hparse.
    rewrite Hdue, Hst, (truthy_str _ Hne). cbn [negb orb].
    unfold bind, call_platform. cbn [py_fromisoformat].
    rewrite Hparse. reflexivity.
Qed.

Lemma can_start_loop (all_tasks : mapping Task.t) (ids : list string) :
  (fix loop (dep_ids : list pyval) : outcome bool :=
     match dep_ids with
     | [] => Return true
     | dep_id :: dep_ids' =>
         dep_task <~ mapping_lookup all_tasks dep_id ;;
         match dep_task with
         | None => Return false
         | Some dep_task =>
             if negb (eq_str (Task.status dep_task) "completed") then Return false
             else loop dep_ids'
         end
     end) (map PStr ids)
  = Return (forallb (completed_in all_tasks) ids).
Proof.
  induction ids as [|i ids IH]; [reflexivity|].
  cbn [map forallb]. unfold mapping_lookup at 1. cbn [hashable obind].
  unfold completed_in at 1.
  destruct (mapping_get all_tasks (PStr i)) as [t|]; [|reflexivity].
  destruct (eq_str (Task.status t) "completed"); cbn [negb andb]; [exact IH | reflexivity].
Qed.

Lemma can_start_forallb (task : Task.t) (all_tasks : mapping Task.t) (dep_ids : list string) :
  Task.depends_on task = PList (map PStr dep_ids) ->
  Task_can_start task all_tasks = Return (forallb (completed_in all_tasks) dep_ids).
Proof.
  intros Hdeps. unfold Task_can_start. rewrite Hdeps.
  destruct dep_ids as [|i ids]; [reflexivity|].
  cbn [map truthy negb py_iter obind].
  apply (can_start_loop all_tasks (i :: ids)).
Qed.

Lemma can_start_missing_dependency (task : Task.t) (all_tasks : mapping Task.t)
      (dep_ids : list string) (dep_id : string) :
  Task.depends_on task = PList (map PStr dep_ids) ->
  In dep_id dep_ids ->
  completed_in all_tasks dep_id = false ->
  Task_can_start task all_tasks = Return false.
Proof.
  intros Hdeps Hin Hc. rewrite (can_start_forallb task all_tasks dep_ids Hdeps).
  f_equal. apply not_true_is_false. intros Hall.
  rewrite forallb_forall in Hall. specialize (Hall dep_id Hin). congruence.
Qed.

(** X2. can_start returns True for a task without dependencies; for string
    dependency ids it returns whether every one is the id of a completed
    task of all_tasks, so a dependency that is missing from all_tasks gives
    False; an unhashable first dependency raises TypeError. *)
Theorem Task_can_start_spec :
  forall (task : Task.t) (all_tasks : mapping Task.t),
    (truthy (Task.depends_on task) = false -> Task_can_start task all_tasks = Return true) /\
    (forall dep_ids,
        Task.depends_on task = PList (map PStr dep_ids) ->
        Task_can_start task all_tasks = Return (forallb (completed_in all_tasks) dep_ids)) /\
    (forall dep_ids dep_id,
        Task.depends_on task = PList (map PStr dep_ids) ->
        In dep_id dep_ids ->
        mapping_get all_tasks (PStr dep_id) = None ->
        Task_can_start task all_tasks = Return false) /\
    (forall deps dep,
        Task.depends_on task = PList (dep :: deps) -> hashable dep = false ->
        exists msg, Task_can_start task all_tasks = Raise (TypeError msg)).
Proof.
  intros task all_tasks. split; [|split; [|split]].
  - intros Hnone. unfold Task_can_start. now rewrite Hnone.
  - intros dep_ids. apply can_start_forallb.
  - intros dep_ids dep_id Hdeps Hin Hnone.
    apply (can_start_missing_dependency task all_tasks dep_ids dep_id Hdeps Hin).
    unfold completed_in. now rewrite Hnone.
  - intros deps dep Hdeps Hdep. unfold Task_can_start. rewrite Hdeps.
    cbn [truthy negb py_iter obind]. unfold mapping_lookup. rewrite Hdep.
    eexists. reflexivity.
Qed.

Lemma check_timedelta_in_range us :
  - datetime_max <= us <= datetime_max -> check_timedelta us = Return us.
Proof.
  intros H. unfold check_timedelta.
  assert (Hmax : datetime_max = 315537897599999999) by reflexivity.
  assert (Hlo : - timedelta_max_days * us_per_day = -86399999913600000000) by reflexivity.
  assert (Hhi : (timedelta_max_days + 1) * us_per_day = 86400000000000000000) by reflexivity.
  rewrite Hlo, Hhi.
  destruct (Z.leb_spec (-86399999913600000000) us); [|lia].
  destruct (Z.ltb_spec us 86400000000000000000); [|lia].
  reflexivity.
Qed.

Lemma recurrence_delta p (task : Task.t) ty n D :
  Task.recurrence_type task = PStr ty ->
  Task.recurrence_interval task = PInt n ->
  0 <= dt_micros D <= datetime_max ->
  (forall d, recurrence_days ty = Some d ->
             0 <= dt_micros D + d * n * us_per_day <= datetime_max) ->
  (if eq_str (Task.recurrence_type task) "daily" then
     delta <~ make_timedelta p us_per_day (Task.recurrence_interval task) ;;
     datetime_add D delta
   else if eq_str (Task.recurrence_type task) "weekly" then
     delta <~ make_timedelta p us_per_week (Task.recurrence_interval task) ;;
     datetime_add D delta
   else if eq_str (Task.recurrence_type task) "monthly" then
     days <~ int_times p 30 (Task.recurrence_interval task) ;;
     delta <~ make_timedelta p us_per_day days ;;
     datetime_add D delta
   else if eq_str (Task.recurrence_type task) "yearly" then
     days <~ int_times p 365 (Task.recurrence_interval task) ;;
     delta <~ make_timedelta p us_per_day days ;;
     datetime_add D delta
   else Return D)
  = Return (DateTime (dt_micros D
                      + match recurrence_days ty with
                        | Some d => d * n * us_per_day
                        | None => 0
                        end)
                     (dt_offset D)).
Proof.
  intros Hty Hn HD Hrange. rewrite Hty, Hn. cbn [eq_str].
  unfold recurrence_days in *.
  assert (Hweek : us_per_week = 7 * us_per_day) by reflexivity.
  destruct (String.eqb ty "daily").
  { specialize (Hrange 1 eq_refl). cbn [make_timedelta].
    rewrite check_timedelta_in_range by lia. cbn [obind].
    replace (n * us_per_day) with (1 * n * us_per_day) by lia.
    now apply datetime_add_in_range. }
  destruct (String.eqb ty "weekly").
  { specialize (Hrange 7 eq_refl). cbn [make_timedelta].
    rewrite check_timedelta_in_range by lia. cbn [obind].
    replace (n * us_per_week) with (7 * n * us_per_day) by lia.
    now apply datetime_add_in_range. }
  destruct (String.eqb ty "monthly").
  { specialize (Hrange 30 eq_refl). cbn [int_times obind make_timedelta].
    rewrite check_timedelta_in_range by lia. cbn [obind].
    now apply datetime_add_in_range. }
  destruct (String.eqb ty "yearly").
  { specialize (Hrange 365 eq_refl). cbn [int_times obind make_timedelta].
    rewrite check_timedelta_in_range by lia. cbn [obind].
    now apply datetime_add_in_range. }
  destruct D as [us off]. cbn [dt_micros dt_offset]. now rewrite Z.add_0_r.
Qed.


Lemma needs_reminder_not_reminded_yet (task : Task.t) (w : world) (due_text : string)
      (D m : Z) :
  Task.due_date task = PStr due_text -> due_text <> "" ->
  Task.reminder_before_minutes task = PInt m -> m <> 0 ->
  eq_str (Task.status task) "completed" = false ->
  truthy (Task.last_reminded task) = false ->
  fromisoformat (pf w) due_text = Return (naive D) ->
  0 <= D <= datetime_max ->
  0 <= D - m * us_per_minute <= datetime_max ->
  Task.needs_reminder task w
  = (Return (D - m * us_per_minute <=? clock w (clock_reads w)), tick w).
Proof.
  intros Hdue Hne Hm Hm0 Hst Hlast Hparse HD Hrange.
  unfold Task.needs_reminder.
  rewrite Hdue, Hm, Hst, (truthy_str _ Hne).
  cbn [truthy negb orb].
  replace (m =? 0) with false by (symmetry; now apply Z.eqb_neq).
  cbn [negb].
  unfold bind, call_platform, lift, now. cbn [py_fromisoformat make_timedelta].
  rewrite Hparse.
  rewrite check_timedelta_in_range by lia.
  rewrite datetime_add_in_range by (cbn [dt_micros naive]; lia).
  cbn [datetime_ge naive dt_offset dt_micros].
  replace (D + - (m * us_per_minute)) with (D - m * us_per_minute) by lia.
  rewrite Hlast. now destruct (_ <=? _).
Qed.

(** X4. needs_reminder returns False without reading the clock when the task
    has no due date, no (or a zero) reminder or is completed. Otherwise, for
    an integer reminder and a naive due date that parses, both within the
    datetime range, it returns whether now has reached due minus the
    reminder minutes, and for a task reminded before it also requires that
    at least an hour passed since last_reminded. *)
Theorem Task_needs_reminder_spec :
  forall (task : Task.t) (w : world),
    (truthy (Task.due_date task) = false \/
     truthy (Task.reminder_before_minutes task) = false \/
     eq_str (Task.status task) "completed" = true ->
     Task.needs_reminder task w = (Return false, w)) /\
    (forall (due_text : string) (D m : Z),
        Task.due_date task = PStr due_text -> due_text <> "" ->
        Task.reminder_before_minutes task = PInt m -> m <> 0 ->
        eq_str (Task.status task) "completed" = false ->
        fromisoformat (pf w) due_text = Return (naive D) ->
        0 <= D <= datetime_max ->
        0 <= D - m * us_per_minute <= datetime_max ->
        (truthy (Task.last_reminded task) = false ->
         Task.needs_reminder task w
         = (Return (D - m * us_per_minute <=? clock w (clock_reads w)), tick w)) /\
        (forall (last_text : string) (L : Z),
            Task.last_reminded task = PStr last_text -> last_text <> "" ->
            fromisoformat (pf w) last_text = Return (naive L) ->
            Task.needs_reminder task w
            = if D - m * us_per_minute <=? clock w (clock_reads w)
              then (Return (negb (clock w (S (clock_reads w)) - L <? us_per_hour)),
                    tick (tick w))
              else (Return false, tick w))).
Proof.
  intros task w. unfold Task.needs_reminder. split.
  - intros [H | [H | H]]; rewrite H.
    + reflexivity.
    + now rewrite orb_true_r.
    + now destruct (_ || _).
  - intros due_text D m Hdue Hne Hm Hm0 Hst Hparse HD Hrange.
    rewrite Hdue, Hm, Hst, (truthy_str _ Hne).
    cbn [truthy negb orb].
    replace (m =? 0) with false by (symmetry; now apply Z.eqb_neq).
    cbn [negb].
    unfold bind, call_platform, lift, now. cbn [py_fromisoformat make_timedelta].
    rewrite Hparse.
    rewrite check_timedelta_in_range by lia.
    rewrite datetime_add_in_range by (cbn [dt_micros naive]; lia).
    cbn [datetime_ge naive dt_offset dt_micros].
    replace (D + - (m * us_per_minute)) with (D - m * us_per_minute) by lia.
    split.
    + intros Hlast. rewrite Hlast.
      now destruct (_ <=? _).
    + intros last_text L Hlast Hlne HL.
      rewrite Hlast, (truthy_str _ Hlne).
      destruct (_ <=? _); [|reflexivity].
      cbn [py_fromisoformat]. change (pf (tick w)) with (pf w). rewrite HL.
      cbn [datetime_diff naive dt_offset dt_micros].
      change (clock (tick w) (clock_reads (tick w))) with (clock w (S (clock_reads w))).
      now destruct (_ <? _).
Qed.

Lemma TaskTemplate_create_task_runs :
  forall (template : TaskTemplate.t) (w : world),
    (forall cs ts,
        TaskTemplate.categories template = PList cs ->
        TaskTemplate.tags template = PList ts ->
        TaskTemplate.create_task template w
        = (Return
             (Task.mk (PStr (uuid_source w (uuid_drawn w)))
                      (TaskTemplate.title template)
                      (TaskTemplate.description template)
                      (TaskTemplate.priority template)
                      (PStr "pending")
                      (PStr (isoformat (pf w) (naive (clock w (clock_reads w)))))
                      (PStr (isoformat (pf w) (naive (clock w (S (clock_reads w))))))
                      PNone PNone (PList cs) (PList ts) (PBool false) PNone (PInt 1)
                      PNone (PList []) (PList []) (PList [])
                      (TaskTemplate.estimated_minutes template)
                      (PBool false) PNone
                      (TaskTemplate.reminder_before_minutes template) PNone),
           tick (tick (drawn w)))) /\
    (py_copy (TaskTemplate.categories template)
     = Raise (AttributeError "object has no attribute 'copy'") ->
     TaskTemplate.create_task template w
     = (Raise (AttributeError "object has no attribute 'copy'"), w)).
Proof.
  intros template w. unfold TaskTemplate.create_task. split.
  - intros cs ts Hc Ht. rewrite Hc, Ht. reflexivity.
  - intros Hc. rewrite Hc. reflexivity.
Qed.

(** ** JSONStorage: construction and the templates file *)

Lemma JSONStorage_loads_of_empty_document (self : JSONStorage.t) (name : string) w :
  (fs w (JSONStorage.filepath self) = File (JsonText (PDict [(name, PDict [])])) ->
   JSONStorage.load_tasks self w = (Return [], w)) /\
  (fs w (JSONStorage.templates_filepath self) = File (JsonText (PDict [(name, PDict [])])) ->
   JSONStorage.load_templates self w = (Return [], w)).
Proof.
  split; intros Hf.
  - unfold JSONStorage.load_tasks, try_except, JSONStorage.load_tasks_body, bind, read_text.
    rewrite Hf. cbn [json_loads lift py_get dict_get].
    destruct (String.eqb "tasks" name); reflexivity.
  - unfold JSONStorage.load_templates, try_except, JSONStorage.load_templates_body, bind,
      read_text.
    rewrite Hf. cbn [json_loads lift py_get dict_get].
    destruct (String.eqb "templates" name); reflexivity.
Qed.

Lemma fs_overwritten path c w q :
  fs (overwritten path c w) q = if String.eqb q path then File c else fs w q.
Proof. reflexivity. Qed.

Lemma ensured_fs path c w q :
  fs (ensured path c w) q
  = match fs w q with
    | Absent => if String.eqb q path then File c else Absent
    | node => node
    end.
Proof.
  unfold ensured. destruct (fs w path) eqn:E.
  - rewrite fs_overwritten. destruct (String.eqb q path) eqn:Eq.
    + apply String.eqb_eq in Eq. subst q. now rewrite E.
    + now destruct (fs w q).
  - destruct (String.eqb q path) eqn:Eq.
    + apply String.eqb_eq in Eq. subst q. now rewrite E.
    + now destruct (fs w q).
  - destruct (String.eqb q path) eqn:Eq.
    + apply String.eqb_eq in Eq. subst q. now rewrite E.
    + now destruct (fs w q).
  - destruct (String.eqb q path) eqn:Eq.
    + apply String.eqb_eq in Eq. subst q. now rewrite E.
    + now destruct (fs w q).
Qed.

Lemma ensured_set_fs path c w : ensured path c w = set_fs (fs (ensured path c w)) w.
Proof.
  unfold ensured. destruct w as [p c0 cr us ud f cn]. cbn [fs].
  destruct (f path); reflexivity.
Qed.


Lemma JSONStorage_load_templates_path (s1 s2 : JSONStorage.t) w :
  JSONStorage.templates_filepath s1 = JSONStorage.templates_filepath s2 ->
  JSONStorage.load_templates s1 w = JSONStorage.load_templates s2 w.
Proof.
  intros E. unfold JSONStorage.load_templates, JSONStorage.load_templates_body.
  now rewrite E.
Qed.

(** X6. The templates path does not depend on the tasks path: two
    JSONStorage objects constructed with different tasks paths share
    templates.json, so encodable templates saved through one (the file being
    writable) are what the other loads. *)
Theorem JSONStorage_templates_file_is_shared :
  forall (path1 path2 : string) (items : list (string * TaskTemplate.t))
         (w s1 s2 : _) (w1 w2 : world),
    JSONStorage.new path1 w = (Return s1, w1) ->
    JSONStorage.new path2 w1 = (Return s2, w2) ->
    NoDup (map fst items) ->
    all_serializable TaskTemplate.t TaskTemplate.to_dict items = true ->
    writable w2 "templates.json" = true ->
    exists w3,
      JSONStorage.save_templates s1 (keyed TaskTemplate.t items) w2 = (Return true, w3) /\
      JSONStorage.load_templates s2 w3 = (Return (keyed TaskTemplate.t items), w3).
Proof.
  intros path1 path2 items w s1 s2 w1 w2 H1 H2 Hnd Hser Hw.
  assert (Hs1 : JSONStorage.templates_filepath s1 = "templates.json").
  { unfold JSONStorage.new, bind in H1.
    destruct (JSONStorage._ensure_files _ w) as [[[]|e] w0]; [|discriminate].
    now inversion H1. }
  assert (Hs2 : JSONStorage.templates_filepath s2 = "templates.json").
  { unfold JSONStorage.new, bind in H2.
    destruct (JSONStorage._ensure_files _ w1) as [[[]|e] w0]; [|discriminate].
    now inversion H2. }
  rewrite <- Hs1 in Hw.
  destruct (JSONStorage_templates_round_trip s1 items w2 Hnd Hser Hw) as (w3 & Es & El).
  exists w3. split; [exact Es|].
  rewrite (JSONStorage_load_templates_path s2 s1) by congruence. exact El.
Qed.

Lemma json_dumps_collection_shape p name records text :
  json_dumps_collection p name records = Return text ->
  exists members, text = JsonText (PDict [(name, PDict members)]).
Proof.
  unfold json_dumps_collection. destruct (ofold _ _ _) as [members|e]; [|discriminate].
  cbn [obind]. intros E. inversion E. eauto.
Qed.

(** X7. When the tasks path of a JSONStorage equals its templates path, a
    successful save_tasks makes load_templates return {} and a successful
    save_templates makes load_tasks return {}: each save overwrites the
    other collection. *)
Theorem JSONStorage_tasks_path_clash_loses_templates :
  forall (self : JSONStorage.t) (tasks : mapping Task.t)
         (templates : mapping TaskTemplate.t) (w w1 : world),
    JSONStorage.filepath self = JSONStorage.templates_filepath self ->
    (JSONStorage.save_tasks self tasks w = (Return true, w1) ->
     JSONStorage.load_templates self w1 = (Return [], w1)) /\
    (JSONStorage.save_templates self templates w = (Return true, w1) ->
     JSONStorage.load_tasks self w1 = (Return [], w1)).
Proof.
  intros self tasks templates w w1 Hpath. split; intros Hs.
  - destruct (JSONStorage_save_tasks_cases self tasks w) as [E | (text & Hd & E)];
      rewrite E in Hs; [discriminate|].
    inversion Hs; subst w1.
    destruct (json_dumps_collection_shape _ _ _ _ Hd) as (members & ->).
    unfold JSONStorage.load_templates, try_except, JSONStorage.load_templates_body.
    rewrite <- Hpath.
    rewrite (bind_return _ _ _ _ _ (read_text_overwritten _ _ _)).
    reflexivity.
  - destruct (JSONStorage_save_templates_cases self templates w) as [E | (text & Hd & E)];
      rewrite E in Hs; [discriminate|].
    inversion Hs; subst w1.
    destruct (json_dumps_collection_shape _ _ _ _ Hd) as (members & ->).
    unfold JSONStorage.load_tasks, try_except, JSONStorage.load_tasks_body.
    rewrite Hpath.
    rewrite (bind_return _ _ _ _ _ (read_text_overwritten _ _ _)).
    reflexivity.
Qed.


(** ** TaskManager: tasks, dependencies, labels, bulk operations and filters *)

Lemma key_eqb_refl_str s : key_eqb (PStr s) (PStr s) = true.
Proof. cbn. apply String.eqb_refl. Qed.

Lemma mapping_set_set {A} (m : mapping A) k (a b : A) :
  key_eqb k k = true ->
  mapping_set (mapping_set m k a) k b = mapping_set m k b.
Proof.
  intros Hk. induction m as [|[k' v] m IH]; cbn.
  - now rewrite Hk.
  - destruct (key_eqb k k') eqn:E; cbn; rewrite E; [reflexivity | now rewrite IH].
Qed.

Section ManagerMethods.
Context {backend : Type} `{Storage backend}.

Lemma mbind_raise {A B} (m : TaskManager.Method A) (k : A -> TaskManager.Method B)
      (self self' : TaskManager.t backend) w e w' :
  m self w = (Raise e, self', w') -> TaskManager.mbind m k self w = (Raise e, self', w').
Proof. intros E. unfold TaskManager.mbind. now rewrite E. Qed.

Lemma mbind_assoc {A B C} (m : TaskManager.Method A) (k1 : A -> TaskManager.Method B)
      (k2 : B -> TaskManager.Method C) (self : TaskManager.t backend) w :
  TaskManager.mbind (TaskManager.mbind m k1) k2 self w
  = TaskManager.mbind m (fun a => TaskManager.mbind (k1 a) k2) self w.
Proof. unfold TaskManager.mbind. now destruct (m self w) as [[[a|e] self'] w']. Qed.

Lemma mbind_this {B} (k : TaskManager.t backend -> TaskManager.Method B) self w :
  TaskManager.mbind TaskManager.this k self w = k self self w.
Proof. reflexivity. Qed.

Lemma mbind_update {B} f (k : unit -> TaskManager.Method B) (self : TaskManager.t backend) w :
  TaskManager.mbind (TaskManager.update f) k self w = k tt (f self) w.
Proof. reflexivity. Qed.

Lemma mbind_mret {A B} (a : A) (k : A -> TaskManager.Method B) (self : TaskManager.t backend) w :
  TaskManager.mbind (TaskManager.mret a) k self w = k a self w.
Proof. reflexivity. Qed.

Lemma mbind_call {A B} (m : Py A) (k : A -> TaskManager.Method B)
      (self : TaskManager.t backend) w :
  TaskManager.mbind (TaskManager.call m) k self w
  = match m w with
    | (Return a, w') => k a self w'
    | (Raise e, w') => (Raise e, self, w')
    end.
Proof. unfold TaskManager.mbind, TaskManager.call. now destruct (m w) as [[a|e] w']. Qed.

Lemma mbind_call_lift {A B} (o : outcome A) (k : A -> TaskManager.Method B)
      (self : TaskManager.t backend) w :
  TaskManager.mbind (TaskManager.call (lift o)) k self w
  = match o with
    | Return a => k a self w
    | Raise e => (Raise e, self, w)
    end.
Proof. rewrite mbind_call. unfold lift. now destruct o. Qed.

Lemma save_spec (self : TaskManager.t backend) w :
  saves_return (TaskManager.storage self) ->
  TaskManager.save self w = (Return tt, self, after_save self w).
Proof.
  intros [Ht Hm]. unfold TaskManager.save, after_save.
  rewrite mbind_this, mbind_call.
  destruct (Ht (TaskManager.tasks self) w) as (b & w1 & E1). rewrite E1.
  rewrite mbind_call. cbn [snd].
  destruct (Hm (TaskManager.templates self) w1) as (b' & w2 & E2). rewrite E2.
  reflexivity.
Qed.

Lemma put_task_spec {B} key task (k : unit -> TaskManager.Method B)
      (self : TaskManager.t backend) w :
  TaskManager.mbind (TaskManager.put_task key task) k self w
  = k tt (TaskManager.set_tasks (mapping_set (TaskManager.tasks self) key task) self) w.
Proof. reflexivity. Qed.

Lemma changed_spec key task (self : TaskManager.t backend) w :
  saves_return (TaskManager.storage self) ->
  key_eqb key key = true ->
  let self' :=
    TaskManager.set_tasks (mapping_set (TaskManager.tasks self) key (touched w task)) self in
  TaskManager.changed key task self w
  = (Return (touched w task), self', after_save self' (tick w)).
Proof.
  intros Hs Hk self'. unfold TaskManager.changed.
  rewrite put_task_spec, mbind_call.
  change (Task.update_timestamp task w) with (Return (touched w task), tick w).
  cbv beta iota. rewrite put_task_spec.
  cbn [TaskManager.set_tasks TaskManager.tasks TaskManager.storage TaskManager.templates].
  rewrite mapping_set_set by assumption.
  fold (TaskManager.set_tasks (mapping_set (TaskManager.tasks self) key (touched w task)) self).
  fold self'.
  rewrite (mbind_return _ _ _ _ _ _ _ (save_spec self' (tick w) Hs)).
  reflexivity.
Qed.


(** X9. Called with an id that is not in self.tasks, every id-taking method
    of TaskManager returns its empty answer (None, False, [] or 0) and
    changes neither the manager nor the stores: nothing is saved. *)
Theorem unknown_task_id_changes_nothing :
  forall (self : TaskManager.t backend) (w : world) (task_id other : string)
         (kwargs : list (Task.field * pyval)) (f : Task.field) (label : string)
         (priority due_date reminder_minutes recurrence_type interval notes : pyval)
         (minutes : Z -> pyfloat),
    mapping_get (TaskManager.tasks self) (PStr task_id) = None ->
    TaskManager.get_task task_id self w = (Return None, self, w) /\
    TaskManager.update_task task_id kwargs self w = (Return None, self, w) /\
    TaskManager.delete_task task_id self w = (Return false, self, w) /\
    TaskManager.complete_task (PStr task_id) self w = (Return None, self, w) /\
    TaskManager.add_label f task_id label self w = (Return None, self, w) /\
    TaskManager.remove_label f task_id label self w = (Return None, self, w) /\
    TaskManager.add_dependency task_id other self w = (Return false, self, w) /\
    TaskManager.add_dependency other task_id self w = (Return false, self, w) /\
    TaskManager.remove_dependency task_id other self w = (Return false, self, w) /\
    TaskManager.get_task_dependencies task_id self w = (Return [], self, w) /\
    TaskManager.start_time_tracking task_id notes self w = (Return None, self, w) /\
    TaskManager.stop_time_tracking minutes task_id other self w = (Return None, self, w) /\
    TaskManager.get_active_time_entries task_id self w = (Return [], self, w) /\
    TaskManager.bulk_update [task_id] kwargs self w = (Return [], self, w) /\
    TaskManager.bulk_complete [task_id] self w = (Return [], self, w) /\
    TaskManager.bulk_delete [task_id] self w = (Return 0, self, w) /\
    TaskManager.set_priority task_id priority self w = (Return None, self, w) /\
    TaskManager.set_due_date task_id due_date reminder_minutes self w
    = (Return None, self, w) /\
    TaskManager.make_recurring task_id recurrence_type interval self w
    = (Return None, self, w) /\
    TaskManager.bulk_set_label f [task_id] label self w = (Return [], self, w).
Proof.
  intros self w task_id other kwargs f label priority due_date reminder_minutes
         recurrence_type interval notes minutes Hnone.
  assert (Hupdates : forall kwargs,
             TaskManager.update_task task_id kwargs self w = (Return None, self, w)).
  { intros kw. unfold TaskManager.update_task. now rewrite mbind_this, Hnone. }
  pose proof (Hupdates kwargs) as Hupdate.
  assert (Hlabel : TaskManager.add_label f task_id label self w = (Return None, self, w)).
  { unfold TaskManager.add_label. now rewrite mbind_this, Hnone. }
  assert (Hdelete : TaskManager.delete_task task_id self w = (Return false, self, w)).
  { unfold TaskManager.delete_task. now rewrite mbind_this, Hnone. }
  assert (Hcomplete :
            TaskManager.complete_task (PStr task_id) self w = (Return None, self, w)).
  { unfold TaskManager.complete_task. now rewrite mbind_this, Hnone. }
  repeat split.
  - unfold TaskManager.get_task. now rewrite mbind_this, Hnone.
  - exact Hupdate.
  - exact Hdelete.
  - exact Hcomplete.
  - unfold TaskManager.add_label. now rewrite mbind_this, Hnone.
  - unfold TaskManager.remove_label. now rewrite mbind_this, Hnone.
  - unfold TaskManager.add_dependency. now rewrite mbind_this, Hnone.
  - unfold TaskManager.add_dependency. rewrite mbind_this, Hnone.
    now destruct (mapping_get _ (PStr other)).
  - unfold TaskManager.remove_dependency. now rewrite mbind_this, Hnone.
  - unfold TaskManager.get_task_dependencies. now rewrite mbind_this, Hnone.
  - unfold TaskManager.start_time_tracking. now rewrite mbind_this, Hnone.
  - unfold TaskManager.stop_time_tracking. now rewrite mbind_this, Hnone.
  - unfold TaskManager.get_active_time_entries. now rewrite mbind_this, Hnone.
  - unfold TaskManager.bulk_update. cbn [TaskManager.mfold].
    now rewrite mbind_assoc, (mbind_return _ _ _ _ _ _ _ Hupdate).
  - unfold TaskManager.bulk_complete. cbn [TaskManager.mfold].
    now rewrite mbind_assoc, (mbind_return _ _ _ _ _ _ _ Hcomplete).
  - unfold TaskManager.bulk_delete. cbn [TaskManager.mfold].
    now rewrite mbind_assoc, (mbind_return _ _ _ _ _ _ _ Hdelete).
  - apply Hupdates.
  - apply Hupdates.
  - apply Hupdates.
  - unfold TaskManager.bulk_set_label. cbn [TaskManager.mfold].
    now rewrite mbind_assoc, (mbind_return _ _ _ _ _ _ _ Hlabel).
Qed.


Lemma create_task_runs (self : TaskManager.t backend) (w : world)
      (title description priority due_date categories tags : pyval) :
  saves_return (TaskManager.storage self) ->
  let task_id := uuid_source w (uuid_drawn w) in
  let task :=
    Task.mk (PStr task_id) title description priority (PStr "pending")
            (PStr (isoformat (pf w) (naive (clock w (clock_reads w)))))
            (PStr (isoformat (pf w) (naive (clock w (S (clock_reads w))))))
            due_date PNone (TaskManager.or_empty categories) (TaskManager.or_empty tags)
            (PBool false) PNone (PInt 1) PNone (PList []) (PList []) (PList [])
            PNone (PBool false) PNone PNone PNone in
  let self' :=
    TaskManager.set_tasks (mapping_set (TaskManager.tasks self) (PStr task_id) task) self in
  TaskManager.create_task title description priority due_date categories tags self w
  = (Return task, self', after_save self' (tick (tick (drawn w)))).
Proof.
  intros Hs task_id task self'. unfold TaskManager.create_task.
  rewrite mbind_call.
  change (Task.init _ w) with (Return task, tick (tick (drawn w))).
  cbv beta iota. rewrite put_task_spec.
  change (Task.id task) with (PStr task_id). fold self'.
  rewrite (mbind_return _ _ _ _ _ _ _ (save_spec self' _ Hs)).
  reflexivity.
Qed.

End ManagerMethods.

Lemma keyed_app (entity : Type) (xs ys : list (string * entity)) :
  keyed entity (xs ++ ys) = (keyed entity xs ++ keyed entity ys)%list.
Proof. apply map_app. Qed.

Lemma mapping_get_keyed_absent (entity : Type) (items : list (string * entity)) k :
  ~ In k (map fst items) -> mapping_get (keyed entity items) (PStr k) = None.
Proof.
  induction items as [|[k' v] items IH]; cbn; [reflexivity|].
  intros Hn. destruct (String.eqb_spec k k') as [-> | Hne]; [tauto|].
  apply IH. tauto.
Qed.

Lemma mapping_set_keyed_fresh (entity : Type) (items : list (string * entity)) k v :
  ~ In k (map fst items) ->
  mapping_set (keyed entity items) (PStr k) v = keyed entity (items ++ [(k, v)]).
Proof.
  intros Hn. rewrite mapping_set_fresh by now apply mapping_get_keyed_absent.
  now rewrite keyed_app.
Qed.

Lemma JSONStorage_load_tasks_of_file (self : JSONStorage.t)
      (items : list (string * Task.t)) (w : world) :
  fs w (JSONStorage.filepath self)
  = File (JsonText (PDict [("tasks", PDict (members_of Task.t Task.to_dict items))])) ->
  NoDup (map fst items) ->
  JSONStorage.load_tasks self w = (Return (keyed Task.t items), w).
Proof.
  intros Hfs Hnd.
  unfold JSONStorage.load_tasks, try_except, JSONStorage.load_tasks_body.
  assert (Hread : read_text (JSONStorage.filepath self) w
                  = (Return (JsonText (PDict [("tasks",
                       PDict (members_of Task.t Task.to_dict items))])), w)).
  { unfold read_text. now rewrite Hfs. }
  rewrite (bind_return _ _ _ _ _ Hread).
  cbn [json_loads]. rewrite bind_lift_return.
  cbn [py_get dict_get String.eqb Ascii.eqb Bool.eqb]. rewrite bind_lift_return.
  cbn [py_items]. rewrite bind_lift_return.
  rewrite (load_members Task.t Task.to_dict Task.from_dict
             Task_from_dict_to_dict items [] _ Hnd); auto.
Qed.

(** What the document backend leaves in the tasks file when the manager saves. *)
Lemma JSONStorage_after_save (self : TaskManager.t JSONStorage.t)
      (items : list (string * Task.t)) (w : world) :
  TaskManager.tasks self = keyed Task.t items ->
  NoDup (map fst items) ->
  all_serializable Task.t Task.to_dict items = true ->
  writable w (JSONStorage.filepath (TaskManager.storage self)) = true ->
  JSONStorage.filepath (TaskManager.storage self)
  <> JSONStorage.templates_filepath (TaskManager.storage self) ->
  fs (after_save self w) (JSONStorage.filepath (TaskManager.storage self))
  = File (JsonText (PDict [("tasks", PDict (members_of Task.t Task.to_dict items))])).
Proof.
  intros Ht Hnd Hser Hw Hpath. unfold after_save.
  cbn [storage_save_tasks storage_save_templates JSONStorage_Storage]. rewrite Ht.
  destruct (JSONStorage_save_tasks_cases (TaskManager.storage self) (keyed Task.t items) w)
    as [E | (text & Hd & E)].
  - destruct (JSONStorage_tasks_round_trip (TaskManager.storage self) items w Hnd Hser Hw)
      as (w1 & Es & _). congruence.
  - rewrite E. cbn [snd].
    rewrite (json_dumps_keyed Task.t Task.to_dict (pf w) "tasks" items Hnd Hser) in Hd.
    inversion Hd; subst text.
    destruct (JSONStorage_save_templates_cases (TaskManager.storage self)
                (TaskManager.templates self)
                (overwritten (JSONStorage.filepath (TaskManager.storage self))
                   (JsonText (PDict [("tasks", PDict (members_of Task.t Task.to_dict items))]))
                   w))
      as [E2 | (text2 & _ & E2)]; rewrite E2; cbn [snd].
    + unfold overwritten. cbn [fs set_fs]. now rewrite String.eqb_refl.
    + unfold overwritten. cbn [fs set_fs].
      destruct (String.eqb_spec (JSONStorage.filepath (TaskManager.storage self))
                  (JSONStorage.templates_filepath (TaskManager.storage self)));
        [contradiction|].
      now rewrite String.eqb_refl.
Qed.

Lemma create_task_persists :
  forall (self : TaskManager.t JSONStorage.t) (w : world)
         (items : list (string * Task.t))
         (title description priority due_date categories tags : pyval),
    TaskManager.tasks self = keyed Task.t items ->
    NoDup (map fst items) ->
    ~ In (uuid_source w (uuid_drawn w)) (map fst items) ->
    all_serializable Task.t Task.to_dict items = true ->
    forallb json_serializable [title; description; priority; due_date; categories; tags]
    = true ->
    writable w (JSONStorage.filepath (TaskManager.storage self)) = true ->
    JSONStorage.filepath (TaskManager.storage self)
    <> JSONStorage.templates_filepath (TaskManager.storage self) ->
    exists task self' w',
      TaskManager.create_task title description priority due_date categories tags self w
      = (Return task, self', w') /\
      Task.id task = PStr (uuid_source w (uuid_drawn w)) /\
      Task.title task = title /\
      Task.status task = PStr "pending" /\
      TaskManager.tasks self'
      = keyed Task.t (items ++ [(uuid_source w (uuid_drawn w), task)]) /\
      JSONStorage.load_tasks (TaskManager.storage self) w'
      = (Return (TaskManager.tasks self'), w').
Proof.
  intros self w items title description priority due_date categories tags
         Ht Hnd Hfresh Hser Hargs Hw Hpath.
  rewrite (create_task_runs self w title description priority due_date categories tags
             (JSONStorage_saves_return _)).
  eexists. eexists. eexists. split; [reflexivity|].
  split; [reflexivity|]. split; [reflexivity|]. split; [reflexivity|].
  cbn [TaskManager.set_tasks TaskManager.tasks].
  rewrite Ht, (mapping_set_keyed_fresh Task.t items _ _ Hfresh).
  split; [reflexivity|].
  match goal with
  | |- JSONStorage.load_tasks _ (after_save ?s ?w0) = _ => set (self' := s); set (w1 := w0)
  end.
  assert (Hnd' : NoDup (map fst (items ++ [(uuid_source w (uuid_drawn w),
                   Task.mk (PStr (uuid_source w (uuid_drawn w))) title description priority
                     (PStr "pending")
                     (PStr (isoformat (pf w) (naive (clock w (clock_reads w)))))
                     (PStr (isoformat (pf w) (naive (clock w (S (clock_reads w))))))
                     due_date PNone (TaskManager.or_empty categories)
                     (TaskManager.or_empty tags)
                     (PBool false) PNone (PInt 1) PNone (PList []) (PList []) (PList [])
                     PNone (PBool false) PNone PNone PNone)]))).
  { rewrite map_app. cbn [map fst].
    apply NoDup_app; [exact Hnd | repeat constructor; cbn; tauto |].
    intros k Hk [<- | []]. contradiction. }
  apply JSONStorage_load_tasks_of_file; [|exact Hnd'].
  apply (JSONStorage_after_save self' _ w1);
    [reflexivity | exact Hnd' | | exact Hw | exact Hpath].
  unfold all_serializable. rewrite forallb_app. unfold all_serializable in Hser.
  rewrite Hser. cbn [forallb andb] in Hargs.
  repeat match goal with
         | H : _ && _ = true |- _ => apply andb_prop in H; destruct H
         end.
  assert (Hc : json_serializable (TaskManager.or_empty categories) = true)
    by (unfold TaskManager.or_empty; now destruct (truthy categories)).
  assert (Hg : json_serializable (TaskManager.or_empty tags) = true)
    by (unfold TaskManager.or_empty; now destruct (truthy tags)).
  cbn [forallb snd andb Task.to_dict json_serializable Task.id Task.title
       Task.description Task.priority Task.status Task.created_at Task.updated_at
       Task.due_date Task.completed_at Task.categories Task.tags Task.is_recurring
       Task.recurrence_type Task.recurrence_interval Task.last_recurrence
       Task.depends_on Task.blocked_by Task.time_entries Task.estimated_minutes
       Task.is_template Task.template_name Task.reminder_before_minutes
       Task.last_reminded].
  repeat match goal with H : json_serializable _ = true |- _ => rewrite H; clear H end.
  reflexivity.
Qed.

Lemma mapping_get_set {A} (m : mapping A) k (v : A) :
  key_eqb k k = true -> mapping_get (mapping_set m k v) k = Some v.
Proof.
  intros Hk. induction m as [|[k' v'] m IH]; cbn.
  - now rewrite Hk.
  - destruct (key_eqb k k') eqn:E; cbn; now rewrite E.
Qed.

Lemma key_eqb_str_eq a b : key_eqb (PStr a) (PStr b) = true -> a = b.
Proof. cbn. apply String.eqb_eq. Qed.

Lemma mapping_get_set_other {A} (m : mapping A) (a b : string) (v : A) :
  a <> b -> mapping_get (mapping_set m (PStr a) v) (PStr b) = mapping_get m (PStr b).
Proof.
  intros Hne. induction m as [|[k' v'] m IH]; cbn [mapping_set mapping_get].
  - cbn. destruct (String.eqb_spec b a); [congruence | reflexivity].
  - destruct (key_eqb (PStr a) k') eqn:E; cbn [mapping_get].
    + destruct k'; cbn in E; try discriminate.
      apply String.eqb_eq in E. subst s. cbn [key_eqb].
      destruct (String.eqb_spec b a); [congruence | reflexivity].
    + destruct (key_eqb (PStr b) k'); [reflexivity | exact IH].
Qed.

Lemma mapping_remove_length {A} (m : mapping A) k (v : A) :
  mapping_get m k = Some v ->
  S (List.length (mapping_remove m k)) = List.length m.
Proof.
  induction m as [|[k' v'] m IH]; cbn; [discriminate|].
  destruct (key_eqb k k'); [reflexivity|].
  intros Hg. cbn. now rewrite IH.
Qed.

Lemma filter_other_keys (entity : Type) (items : list (string * entity)) k :
  ~ In k (map fst items) ->
  filter (fun kt => negb (String.eqb (fst kt) k)) items = items.
Proof.
  induction items as [|[k' v] items IH]; cbn [filter map fst In]; [reflexivity|].
  intros Hn. destruct (String.eqb_spec k' k); [subst; tauto|].
  cbn [negb]. rewrite IH; tauto.
Qed.

Lemma mapping_remove_keyed (entity : Type) (items : list (string * entity)) k :
  NoDup (map fst items) ->
  mapping_remove (keyed entity items) (PStr k)
  = keyed entity (filter (fun kt => negb (String.eqb (fst kt) k)) items).
Proof.
  unfold keyed.
  induction items as [|[k' v] items IH]; [reflexivity|].
  intros Hnd. inversion Hnd as [|? ? Hnot Hnd']; subst.
  cbn [map fst snd mapping_remove key_eqb filter].
  destruct (String.eqb_spec k k') as [-> | Hne].
  - rewrite String.eqb_refl. cbn [negb].
    now rewrite (filter_other_keys entity items k' Hnot).
  - destruct (String.eqb_spec k' k); [congruence|]. cbn [negb map fst snd].
    now rewrite IH.
Qed.

Lemma mapping_get_keyed_filter (entity : Type) (items : list (string * entity)) k :
  mapping_get (keyed entity (filter (fun kt => negb (String.eqb (fst kt) k)) items)) (PStr k)
  = None.
Proof.
  apply mapping_get_keyed_absent. intros Hin.
  apply in_map_iff in Hin. destruct Hin as ([k' v] & <- & Hin).
  apply filter_In in Hin. destruct Hin as [_ Hneg]. cbn in Hneg.
  now rewrite String.eqb_refl in Hneg.
Qed.

Lemma mapping_get_keyed_filter_other (entity : Type) (items : list (string * entity))
      k other :
  other <> k ->
  mapping_get (keyed entity (filter (fun kt => negb (String.eqb (fst kt) k)) items))
              (PStr other)
  = mapping_get (keyed entity items) (PStr other).
Proof.
  intros Hne. unfold keyed.
  induction items as [|[k' v] items IH]; [reflexivity|].
  cbn [filter fst]. destruct (String.eqb_spec k' k) as [-> | Hk]; cbn [negb].
  - cbn [map fst snd mapping_get key_eqb].
    destruct (String.eqb_spec other k); [contradiction | exact IH].
  - cbn [map fst snd mapping_get key_eqb]. now rewrite IH.
Qed.

Lemma mapping_get_keyed_In (entity : Type) (items : list (string * entity)) k v :
  NoDup (map fst items) -> In (k, v) items ->
  mapping_get (keyed entity items) (PStr k) = Some v.
Proof.
  unfold keyed.
  induction items as [|[k' v'] items IH]; [intros _ []|].
  intros Hnd Hin. inversion Hnd as [|? ? Hnot Hnd']; subst.
  cbn [map fst snd mapping_get key_eqb].
  destruct Hin as [Heq | Hin].
  - inversion Heq; subst. now rewrite String.eqb_refl.
  - destruct (String.eqb_spec k k') as [-> | Hne]; [|now apply IH].
    exfalso. apply Hnot. now apply (in_map fst) in Hin.
Qed.

Section Deletion.
Context {backend : Type} `{Storage backend}.

Lemma delete_task_runs (self : TaskManager.t backend) (w : world)
      (items : list (string * Task.t)) (task_id : string) (task : Task.t) :
  saves_return (TaskManager.storage self) ->
  TaskManager.tasks self = keyed Task.t items ->
  NoDup (map fst items) ->
  In (task_id, task) items ->
  let self' :=
    TaskManager.set_tasks
      (keyed Task.t (filter (fun kt => negb (String.eqb (fst kt) task_id)) items)) self in
  TaskManager.delete_task task_id self w = (Return true, self', after_save self' w).
Proof.
  intros Hs Ht Hnd Hin self'.
  pose proof (mapping_get_keyed_In Task.t items task_id task Hnd Hin) as Hget.
  unfold TaskManager.delete_task. rewrite mbind_this, Ht, Hget, mbind_update.
  rewrite Ht, (mapping_remove_keyed Task.t items task_id Hnd). fold self'.
  now rewrite (mbind_return _ _ _ _ _ _ _ (save_spec self' w Hs)).
Qed.

(** X10. delete_task of a known id returns True after saving, removes that
    task and no other, keeps the order of the remaining tasks and the
    templates; afterwards get_task gives None and a second delete_task
    returns False without saving. *)
Theorem delete_task_removes_the_task_only :
  forall (self : TaskManager.t backend) (w : world) (items : list (string * Task.t))
         (task_id : string) (task : Task.t),
    saves_return (TaskManager.storage self) ->
    TaskManager.tasks self = keyed Task.t items ->
    NoDup (map fst items) ->
    In (task_id, task) items ->
    exists self',
      TaskManager.delete_task task_id self w = (Return true, self', after_save self' w) /\
      TaskManager.tasks self'
      = keyed Task.t (filter (fun kt => negb (String.eqb (fst kt) task_id)) items) /\
      TaskManager.templates self' = TaskManager.templates self /\
      TaskManager.get_task task_id self' (after_save self' w)
      = (Return None, self', after_save self' w) /\
      (forall other, other <> task_id ->
         mapping_get (TaskManager.tasks self') (PStr other)
         = mapping_get (TaskManager.tasks self) (PStr other)) /\
      TaskManager.delete_task task_id self' (after_save self' w)
      = (Return false, self', after_save self' w).
Proof.
  intros self w items task_id task Hs Ht Hnd Hin.
  set (self' := TaskManager.set_tasks
                  (keyed Task.t (filter (fun kt => negb (String.eqb (fst kt) task_id)) items))
                  self).
  assert (Hnone : mapping_get (TaskManager.tasks self') (PStr task_id) = None)
    by apply mapping_get_keyed_filter.
  exists self'. split; [|split; [reflexivity | split; [reflexivity | split; [|split]]]].
  - exact (delete_task_runs self w items task_id task Hs Ht Hnd Hin).
  - unfold TaskManager.get_task. now rewrite mbind_this, Hnone.
  - intros other Hne. rewrite Ht. now apply mapping_get_keyed_filter_other.
  - unfold TaskManager.delete_task. now rewrite mbind_this, Hnone.
Qed.

End Deletion.

Lemma contains_str (ids : list string) (s : string) :
  existsb (fun x => eq_str x s) (map PStr ids) = true <-> In s ids.
Proof.
  induction ids as [|i ids IH]; cbn; [split; [discriminate | tauto]|].
  rewrite orb_true_iff, IH. split; intros [E | E]; auto.
  - left. now apply String.eqb_eq in E.
  - left. subst. apply String.eqb_refl.
Qed.

Lemma ofilter_In {A} (f : A -> outcome bool) (xs ys : list A) (x : A) :
  ofilter f xs = Return ys -> In x xs -> f x = Return true -> In x ys.
Proof.
  revert ys. induction xs as [|a xs IH]; cbn [ofilter In]; [tauto|].
  intros ys E Hin Hx. destruct (f a) as [b|e] eqn:Ea; [|discriminate].
  cbn [obind] in E. destruct (ofilter f xs) as [zs|e]; [|discriminate].
  cbn [obind] in E. inversion E; subst ys.
  destruct Hin as [-> | Hin].
  - rewrite Hx in Ea. inversion Ea; subst. now left.
  - specialize (IH zs eq_refl Hin Hx). destruct b; [now right | exact IH].
Qed.

Section Dependencies.
Context {backend : Type} `{Storage backend}.

Lemma get_blocked_tasks_contains (self : TaskManager.t backend) (w : world)
      (key : pyval) (task : Task.t) blocked self' w' :
  In (key, task) (TaskManager.tasks self) ->
  truthy (Task.depends_on task) = true ->
  Task_can_start task (TaskManager.tasks self) = Return false ->
  TaskManager.get_blocked_tasks self w = (Return blocked, self', w') ->
  In task blocked.
Proof.
  intros Hin Htr Hcs. unfold TaskManager.get_blocked_tasks.
  rewrite mbind_this. unfold TaskManager.call, lift.
  destruct (ofilter _ _) as [ys|e] eqn:E; intros Hret; inversion Hret; subst.
  eapply ofilter_In; [exact E | |].
  - unfold mapping_values. now apply (in_map snd) in Hin.
  - cbv beta. now rewrite Htr, Hcs.
Qed.

(** X11. delete_task does not remove the deleted id from the depends_on
    lists of other tasks: a task that depended on the deleted one keeps the
    dependency, can_start is False for it from then on, and
    get_blocked_tasks lists it. *)
Theorem deleted_dependency_blocks_dependents :
  forall (self : TaskManager.t backend) (w : world) (items : list (string * Task.t))
         (task_id dependent_id : string) (task dependent : Task.t)
         (dep_ids : list string),
    saves_return (TaskManager.storage self) ->
    TaskManager.tasks self = keyed Task.t items ->
    NoDup (map fst items) ->
    In (task_id, task) items ->
    In (dependent_id, dependent) items ->
    dependent_id <> task_id ->
    Task.depends_on dependent = PList (map PStr dep_ids) ->
    In task_id dep_ids ->
    exists self' w',
      TaskManager.delete_task task_id self w = (Return true, self', w') /\
      mapping_get (TaskManager.tasks self') (PStr dependent_id) = Some dependent /\
      Task_can_start dependent (TaskManager.tasks self') = Return false /\
      forall blocked self2 w2,
        TaskManager.get_blocked_tasks self' w' = (Return blocked, self2, w2) ->
        In dependent blocked.
Proof.
  intros self w items task_id dependent_id task dependent dep_ids
         Hs Ht Hnd Hin Hdep Hne Hdeps Hd.
  pose proof (delete_task_runs self w items task_id task Hs Ht Hnd Hin) as Edel.
  cbv zeta in Edel.
  set (self' := TaskManager.set_tasks
                  (keyed Task.t (filter (fun kt => negb (String.eqb (fst kt) task_id)) items))
                  self) in *.
  assert (Ht' : TaskManager.tasks self'
                = keyed Task.t (filter (fun kt => negb (String.eqb (fst kt) task_id)) items))
    by reflexivity.
  exists self', (after_save self' w).
  assert (Hcs : Task_can_start dependent (TaskManager.tasks self') = Return false).
  { apply (can_start_missing_dependency dependent _ dep_ids task_id Hdeps Hd).
    unfold completed_in. rewrite Ht'. now rewrite mapping_get_keyed_filter. }
  split; [exact Edel|]. split; [|split; [exact Hcs|]].
  - rewrite Ht', (mapping_get_keyed_filter_other Task.t items _ _ Hne).
    now apply mapping_get_keyed_In.
  - intros blocked self2 w2 Eb.
    apply (get_blocked_tasks_contains self' (after_save self' w) (PStr dependent_id)
             dependent blocked self2 w2); [| |exact Hcs|exact Eb].
    + rewrite Ht'. unfold keyed. apply in_map_iff.
      exists (dependent_id, dependent). split; [reflexivity|].
      apply filter_In. split; [exact Hdep|]. cbn.
      now destruct (String.eqb_spec dependent_id task_id).
    + rewrite Hdeps. destruct dep_ids; [destruct Hd | reflexivity].
Qed.

(** X12. add_dependency(t, t) on a known, not completed task returns True
    and adds the task's own id to its depends_on; the task then cannot
    start. *)
Theorem add_dependency_accepts_self_dependency :
  forall (self : TaskManager.t backend) (w : world) (task_id : string) (task : Task.t)
         (dep_ids : list string),
    saves_return (TaskManager.storage self) ->
    mapping_get (TaskManager.tasks self) (PStr task_id) = Some task ->
    Task.depends_on task = PList (map PStr dep_ids) ->
    ~ In task_id dep_ids ->
    eq_str (Task.status task) "completed" = false ->
    exists task' self' w',
      TaskManager.add_dependency task_id task_id self w = (Return true, self', w') /\
      mapping_get (TaskManager.tasks self') (PStr task_id) = Some task' /\
      Task.depends_on task' = PList (map PStr (dep_ids ++ [task_id])) /\
      Task.status task' = Task.status task /\
      Task_can_start task' (TaskManager.tasks self') = Return false.
Proof.
  intros self w task_id task dep_ids Hs Hget Hdeps Hnot Hst.
  set (task1 := Task.setattr Task.f_depends_on (PList (map PStr dep_ids ++ [PStr task_id]))
                             task).
  set (self' := TaskManager.set_tasks
                  (mapping_set (TaskManager.tasks self) (PStr task_id) (touched w task1))
                  self).
  exists (touched w task1), self', (after_save self' (tick w)).
  assert (Hdeps' : Task.depends_on (touched w task1)
                   = PList (map PStr (dep_ids ++ [task_id]))).
  { rewrite map_app. unfold task1. now destruct task. }
  assert (Hget' : mapping_get (TaskManager.tasks self') (PStr task_id)
                  = Some (touched w task1)).
  { apply mapping_get_set. apply key_eqb_refl_str. }
  split; [|split; [exact Hget' | split; [exact Hdeps' | split]]].
  - unfold TaskManager.add_dependency. rewrite mbind_this, Hget.
    rewrite mbind_call_lift, Hdeps. cbn [py_contains].
    replace (existsb (fun x => eq_str x task_id) (map PStr dep_ids)) with false
      by (symmetry; apply not_true_is_false; now rewrite contains_str).
    rewrite mbind_assoc, mbind_call_lift. cbn [py_append]. rewrite mbind_assoc.
    fold task1.
    rewrite (mbind_return _ _ _ _ _ _ _
               (changed_spec (PStr task_id) task1 self w Hs (key_eqb_refl_str _))).
    reflexivity.
  - unfold task1. now destruct task.
  - apply (can_start_missing_dependency _ _ _ task_id Hdeps').
    + apply in_or_app. right. now left.
    + unfold completed_in. rewrite Hget'.
      replace (Task.status (touched w task1)) with (Task.status task)
        by (unfold task1; now destruct task).
      exact Hst.
Qed.

End Dependencies.

Lemma remove_first_appended (label : string) (labels : list pyval) :
  existsb (fun x => eq_str x label) labels = false ->
  remove_first label (labels ++ [PStr label]) = labels.
Proof.
  induction labels as [|x labels IH]; cbn [app remove_first existsb].
  - intros _. cbn. now rewrite String.eqb_refl.
  - intros Hn. apply orb_false_elim in Hn. destruct Hn as [Hx Hl].
    rewrite Hx. now rewrite IH.
Qed.

Lemma existsb_appended (label : string) (labels : list pyval) :
  existsb (fun x => eq_str x label) (labels ++ [PStr label]) = true.
Proof.
  rewrite existsb_app. cbn. rewrite String.eqb_refl. now rewrite orb_true_r.
Qed.

Lemma mapping_set_holds {A} (m : mapping A) k (v : A) :
  In v (mapping_values (mapping_set m k v)).
Proof.
  unfold mapping_values. induction m as [|[k' v'] m IH]; cbn [mapping_set map snd].
  - now left.
  - destruct (key_eqb k k'); cbn [map snd]; [now left | now right].
Qed.

Section Labels.
Context {backend : Type} `{Storage backend}.

Lemma relabel_runs (f : Task.field) (task_id : string) (task : Task.t) (labels : pyval)
      (self : TaskManager.t backend) (w : world) :
  saves_return (TaskManager.storage self) ->
  let task' := touched w (Task.setattr f labels task) in
  let self' :=
    TaskManager.set_tasks (mapping_set (TaskManager.tasks self) (PStr task_id) task') self in
  TaskManager.mbind (TaskManager.changed (PStr task_id) (Task.setattr f labels task))
                    (fun task => TaskManager.mret (Some task)) self w
  = (Return (Some task'), self', after_save self' (tick w)).
Proof.
  intros Hs task' self'.
  now rewrite (mbind_return _ _ _ _ _ _ _
                 (changed_spec (PStr task_id) _ self w Hs (key_eqb_refl_str _))).
Qed.


Lemma update_task_runs (task_id : string) (kwargs : list (Task.field * pyval))
      (task : Task.t) (self : TaskManager.t backend) (w : world) :
  saves_return (TaskManager.storage self) ->
  mapping_get (TaskManager.tasks self) (PStr task_id) = Some task ->
  let task' := touched w (TaskManager.assign kwargs task) in
  let self' :=
    TaskManager.set_tasks (mapping_set (TaskManager.tasks self) (PStr task_id) task') self in
  TaskManager.update_task task_id kwargs self w
  = (Return (Some task'), self', after_save self' (tick w)).
Proof.
  intros Hs Hget task' self'. unfold TaskManager.update_task.
  rewrite mbind_this, Hget.
  now rewrite (mbind_return _ _ _ _ _ _ _
                 (changed_spec (PStr task_id) _ self w Hs (key_eqb_refl_str _))).
Qed.

(** X14. set_due_date called without reminder_minutes sets
    reminder_before_minutes to None, whatever it was: only due_date,
    reminder_before_minutes and updated_at change, and needs_reminder is
    False for the task afterwards. *)
Theorem set_due_date_without_reminder_cancels_the_reminder :
  forall (self : TaskManager.t backend) (w : world) (task_id : string) (task : Task.t)
         (due_date : pyval),
    saves_return (TaskManager.storage self) ->
    mapping_get (TaskManager.tasks self) (PStr task_id) = Some task ->
    exists task' self' w',
      TaskManager.set_due_date task_id due_date PNone self w
      = (Return (Some task'), self', w') /\
      mapping_get (TaskManager.tasks self') (PStr task_id) = Some task' /\
      Task.due_date task' = due_date /\
      Task.reminder_before_minutes task' = PNone /\
      (forall f, f <> Task.f_due_date -> f <> Task.f_reminder_before_minutes ->
                 f <> Task.f_updated_at -> Task.getattr f task' = Task.getattr f task) /\
      forall w0, Task.needs_reminder task' w0 = (Return false, w0).
Proof.
  intros self w task_id task due_date Hs Hget.
  unfold TaskManager.set_due_date.
  rewrite (update_task_runs task_id _ task self w Hs Hget).
  eexists. eexists. eexists. split; [reflexivity|].
  split; [apply mapping_get_set, key_eqb_refl_str|].
  split; [now destruct task|]. split; [now destruct task|]. split.
  - intros f H1 H2 H3. destruct task. destruct f; try reflexivity; congruence.
  - intros w0. unfold Task.needs_reminder.
    replace (truthy (Task.reminder_before_minutes _)) with false by now destruct task.
    cbn [negb]. now rewrite orb_true_r.
Qed.

(** X15. On a known task set_priority changes priority and updated_at only
    and get_tasks_by_priority of that priority then lists the task;
    make_recurring sets is_recurring, recurrence_type and
    recurrence_interval (and updated_at) only, with or without a due date,
    and get_recurring_tasks then lists the task. *)
Theorem set_priority_and_make_recurring_show_in_the_queries :
  forall (self : TaskManager.t backend) (w : world) (task_id priority : string)
         (task : Task.t) (recurrence_type interval : pyval),
    saves_return (TaskManager.storage self) ->
    mapping_get (TaskManager.tasks self) (PStr task_id) = Some task ->
    (exists task' self' w',
        TaskManager.set_priority task_id (PStr priority) self w
        = (Return (Some task'), self', w') /\
        mapping_get (TaskManager.tasks self') (PStr task_id) = Some task' /\
        Task.priority task' = PStr priority /\
        (forall f, f <> Task.f_priority -> f <> Task.f_updated_at ->
                   Task.getattr f task' = Task.getattr f task) /\
        exists found,
          TaskManager.get_tasks_by_priority priority self' w' = (Return found, self', w') /\
          In task' found) /\
    (exists task' self' w',
        TaskManager.make_recurring task_id recurrence_type interval self w
        = (Return (Some task'), self', w') /\
        mapping_get (TaskManager.tasks self') (PStr task_id) = Some task' /\
        Task.is_recurring task' = PBool true /\
        Task.recurrence_type task' = recurrence_type /\
        Task.recurrence_interval task' = interval /\
        (forall f, f <> Task.f_is_recurring -> f <> Task.f_recurrence_type ->
                   f <> Task.f_recurrence_interval -> f <> Task.f_updated_at ->
                   Task.getattr f task' = Task.getattr f task) /\
        exists found,
          TaskManager.get_recurring_tasks self' w' = (Return found, self', w') /\
          In task' found).
Proof.
  intros self w task_id priority task recurrence_type interval Hs Hget. split.
  - unfold TaskManager.set_priority.
    rewrite (update_task_runs task_id _ task self w Hs Hget).
    eexists. eexists. eexists. split; [reflexivity|].
    split; [apply mapping_get_set, key_eqb_refl_str|].
    split; [now destruct task|]. split.
    + intros f H1 H2. destruct task. destruct f; try reflexivity; congruence.
    + unfold TaskManager.get_tasks_by_priority. rewrite mbind_this.
      eexists. split; [reflexivity|].
      apply filter_In. split; [apply mapping_set_holds|].
      destruct task. cbn. apply String.eqb_refl.
  - unfold TaskManager.make_recurring.
    rewrite (update_task_runs task_id _ task self w Hs Hget).
    eexists. eexists. eexists. split; [reflexivity|].
    split; [apply mapping_get_set, key_eqb_refl_str|].
    split; [now destruct task|]. split; [now destruct task|].
    split; [now destruct task|]. split.
    + intros f H1 H2 H3 H4. destruct task. destruct f; try reflexivity; congruence.
    + unfold TaskManager.get_recurring_tasks. rewrite mbind_this.
      eexists. split; [reflexivity|].
      apply filter_In. split; [apply mapping_set_holds|].
      now destruct task.
Qed.

End Labels.

Section Bulk.
Context {backend : Type} `{Storage backend}.

Lemma delete_task_cases (task_id : string) (self : TaskManager.t backend) (w : world) :
  saves_return (TaskManager.storage self) ->
  (mapping_get (TaskManager.tasks self) (PStr task_id) = None /\
   TaskManager.delete_task task_id self w = (Return false, self, w)) \/
  (exists self' w',
      TaskManager.delete_task task_id self w = (Return true, self', w') /\
      TaskManager.storage self' = TaskManager.storage self /\
      TaskManager.templates self' = TaskManager.templates self /\
      TaskManager.tasks self' = mapping_remove (TaskManager.tasks self) (PStr task_id) /\
      S (List.length (TaskManager.tasks self')) = List.length (TaskManager.tasks self)).
Proof.
  intros Hs. unfold TaskManager.delete_task. rewrite mbind_this.
  destruct (mapping_get (TaskManager.tasks self) (PStr task_id)) as [task|] eqn:Hget.
  - right. rewrite mbind_update.
    set (self' := TaskManager.set_tasks _ self).
    rewrite (mbind_return _ _ _ _ _ _ _ (save_spec self' w Hs)).
    exists self', (after_save self' w).
    split; [reflexivity|]. split; [reflexivity|]. split; [reflexivity|].
    split; [reflexivity|]. cbn. now apply mapping_remove_length with task.
  - left. now split.
Qed.

Lemma bulk_delete_from (task_ids : list string) (count : Z)
      (self : TaskManager.t backend) (w : world) :
  saves_return (TaskManager.storage self) ->
  exists removed self' w',
    TaskManager.mfold (fun count task_id =>
                         TaskManager.mbind (TaskManager.delete_task task_id)
                           (fun deleted =>
                              TaskManager.mret (if deleted then count + 1 else count)))
                      task_ids count self w
    = (Return (count + Z.of_nat removed), self', w') /\
    TaskManager.storage self' = TaskManager.storage self /\
    TaskManager.templates self' = TaskManager.templates self /\
    (removed + List.length (TaskManager.tasks self')
     = List.length (TaskManager.tasks self))%nat /\
    (removed <= List.length task_ids)%nat.
Proof.
  revert count self w.
  induction task_ids as [|task_id task_ids IH]; intros count self w Hs.
  - exists 0%nat, self, w. cbn [TaskManager.mfold]. unfold TaskManager.mret.
    split; [f_equal; f_equal; f_equal; lia|]. now repeat split.
  - cbn [TaskManager.mfold]. rewrite mbind_assoc.
    destruct (delete_task_cases task_id self w Hs)
      as [[Hnone E] | (self1 & w1 & E & Hst & Htp & Htk & Hlen)];
      rewrite (mbind_return _ _ _ _ _ _ _ E), mbind_mret.
    + destruct (IH count self w Hs) as (removed & self' & w' & E' & Hst' & Htp' & Hn & Hle).
      exists removed, self', w'. cbn [List.length]. repeat split; auto.
    + assert (Hs1 : saves_return (TaskManager.storage self1)) by now rewrite Hst.
      destruct (IH (count + 1) self1 w1 Hs1)
        as (removed & self' & w' & E' & Hst' & Htp' & Hn & Hle).
      exists (S removed), self', w'. cbn [List.length].
      split; [|split; [congruence | split; [congruence | split; lia]]].
      rewrite E'. f_equal. f_equal. f_equal. lia.
Qed.

(** X16. bulk_delete returns the number of tasks it removed (the decrease of
    len(self.tasks)), which is at most the number of ids given, so unknown
    and repeated ids are not counted; templates are untouched. *)
Theorem bulk_delete_counts_the_removed_tasks :
  forall (self : TaskManager.t backend) (w : world) (task_ids : list string),
    saves_return (TaskManager.storage self) ->
    exists count self' w',
      TaskManager.bulk_delete task_ids self w = (Return count, self', w') /\
      count = Z.of_nat (List.length (TaskManager.tasks self))
              - Z.of_nat (List.length (TaskManager.tasks self')) /\
      0 <= count <= Z.of_nat (List.length task_ids) /\
      TaskManager.templates self' = TaskManager.templates self.
Proof.
  intros self w task_ids Hs.
  destruct (bulk_delete_from task_ids 0 self w Hs)
    as (removed & self' & w' & E & _ & Htp & Hn & Hle).
  exists (Z.of_nat removed), self', w'.
  split; [exact E|]. split; [lia|]. split; [lia | exact Htp].
Qed.

End Bulk.

Lemma ofilter_returns {A} (f : A -> outcome bool) (g : A -> bool) (xs : list A) :
  Forall (fun x => f x = Return (g x)) xs -> ofilter f xs = Return (filter g xs).
Proof.
  induction 1 as [|x xs Hx _ IH]; cbn [ofilter filter]; [reflexivity|].
  rewrite Hx, IH. cbn [obind]. now destruct (g x).
Qed.

Lemma filter_filter {A} (p q : A -> bool) (xs : list A) :
  filter p (filter q xs) = filter (fun x => q x && p x) xs.
Proof.
  induction xs as [|x xs IH]; cbn [filter]; [reflexivity|].
  destruct (q x); cbn [filter andb]; rewrite IH; reflexivity.
Qed.

Lemma filter_all {A} (xs : list A) : filter (fun _ => true) xs = xs.
Proof. induction xs; cbn; congruence. Qed.

Lemma Forall_filter {A} (P : A -> Prop) (p : A -> bool) (xs : list A) :
  Forall P xs -> Forall P (filter p xs).
Proof.
  induction 1 as [|x xs Hx _ IH]; cbn [filter]; [constructor|].
  destruct (p x); [now constructor | exact IH].
Qed.

Section Filtering.
Context {backend : Type} `{Storage backend}.

(** X17. filter_tasks returns, in insertion order, the tasks that meet every
    given criterion, a criterion that is None or the empty string not
    counting. get_tasks_by_priority(p) agrees with filter_tasks(priority=p)
    for p non-empty; for p empty the first selects the tasks with empty
    priority and the second returns all tasks. *)
Theorem filter_tasks_keeps_the_tasks_that_meet_all_criteria :
  forall (self : TaskManager.t backend) (w : world)
         (status priority category tag : option string) (has_due_date : option bool),
    Forall (fun task => exists cs gs,
                Task.categories task = PList cs /\ Task.tags task = PList gs)
           (mapping_values (TaskManager.tasks self)) ->
    TaskManager.filter_tasks status priority category tag has_due_date self w
    = (Return (filter (meets status priority category tag has_due_date)
                      (mapping_values (TaskManager.tasks self))), self, w) /\
    (forall p, p <> "" ->
        TaskManager.get_tasks_by_priority p self w
        = TaskManager.filter_tasks None (Some p) None None None self w) /\
    TaskManager.get_tasks_by_priority "" self w
    = (Return (filter (fun task => eq_str (Task.priority task) "")
                      (mapping_values (TaskManager.tasks self))), self, w) /\
    TaskManager.filter_tasks None (Some "") None None None self w
    = (Return (mapping_values (TaskManager.tasks self)), self, w).
Proof.
  intros self w status priority category tag has_due_date Hlists.
  split; [|split; [|split]].
  - unfold TaskManager.filter_tasks. rewrite mbind_this.
    unfold TaskManager.call, lift. f_equal. f_equal.
    set (values := mapping_values (TaskManager.tasks self)) in *.
    cbv zeta.
    set (by_status := match TaskManager.given status with
                      | Some s => filter (fun t => eq_str (Task.status t) s) values
                      | None => values
                      end).
    assert (E1 : by_status
                 = filter (fun t => criterion_holds status (eq_str (Task.status t))) values).
    { unfold by_status, criterion_holds.
      destruct (TaskManager.given status); [reflexivity | now rewrite filter_all]. }
    set (by_priority := match TaskManager.given priority with
                        | Some p => filter (fun t => eq_str (Task.priority t) p) by_status
                        | None => by_status
                        end).
    assert (E2 : by_priority
                 = filter (fun t => criterion_holds priority (eq_str (Task.priority t)))
                          by_status).
    { unfold by_priority, criterion_holds.
      destruct (TaskManager.given priority); [reflexivity | now rewrite filter_all]. }
    assert (H2 : Forall (fun task => exists cs gs,
                             Task.categories task = PList cs /\ Task.tags task = PList gs)
                        by_priority).
    { rewrite E2, E1. now repeat apply Forall_filter. }
    assert (E3 : match TaskManager.given category with
                 | Some c => ofilter (fun t => py_contains (Task.categories t) c) by_priority
                 | None => Return by_priority
                 end
                 = Return (filter (fun t => criterion_holds category
                                     (fun c => existsb (fun x => eq_str x c)
                                                       (elements (Task.categories t))))
                                  by_priority)).
    { unfold criterion_holds. destruct (TaskManager.given category) as [c|];
        [|now rewrite filter_all].
      apply ofilter_returns. eapply Forall_impl; [|exact H2].
      intros t (cs & gs & Hc & _). now rewrite Hc. }
    rewrite E3. cbn [obind].
    set (by_category := filter _ by_priority) in *.
    assert (H3 : Forall (fun task => exists cs gs,
                             Task.categories task = PList cs /\ Task.tags task = PList gs)
                        by_category)
      by now apply Forall_filter.
    assert (E4 : match TaskManager.given tag with
                 | Some g => ofilter (fun t => py_contains (Task.tags t) g) by_category
                 | None => Return by_category
                 end
                 = Return (filter (fun t => criterion_holds tag
                                     (fun g => existsb (fun x => eq_str x g)
                                                       (elements (Task.tags t))))
                                  by_category)).
    { unfold criterion_holds. destruct (TaskManager.given tag) as [g|];
        [|now rewrite filter_all].
      apply ofilter_returns. eapply Forall_impl; [|exact H3].
      intros t (cs & gs & _ & Hg). now rewrite Hg. }
    rewrite E4. cbn [obind]. f_equal.
    unfold by_category. rewrite E2, E1.
    destruct has_due_date as [[|]|]; rewrite !filter_filter;
      apply filter_ext; intros t; unfold meets;
      rewrite ?andb_assoc, ?andb_true_r; reflexivity.
  - intros p Hne.
    unfold TaskManager.filter_tasks, TaskManager.get_tasks_by_priority.
    rewrite !mbind_this. unfold TaskManager.given.
    destruct (String.eqb_spec p "") as [E | _]; [contradiction|].
    reflexivity.
  - unfold TaskManager.get_tasks_by_priority. now rewrite mbind_this.
  - unfold TaskManager.filter_tasks. rewrite mbind_this. reflexivity.
Qed.

End Filtering.

(** ** TaskManager: time tracking *)

Lemma active_entry_step (e : TimeEntry.t) (active : list TimeEntry.t) (w : world) :
  (end_time <- lift (py_get (entry_dict e) "end_time" PNone) ;;
   if negb (truthy end_time) then
     entry <- TimeEntry.from_dict (entry_dict e) ;;
     ret (active ++ [entry])%list
   else ret active) w
  = (Return (if is_active e then (active ++ [e])%list else active), w).
Proof.
  assert (Hget : py_get (entry_dict e) "end_time" PNone = Return (TimeEntry.end_time e))
    by now destruct e.
  rewrite Hget, bind_lift_return. unfold is_active.
  destruct (negb (truthy (TimeEntry.end_time e))); [|reflexivity].
  assert (Hfrom : TimeEntry.from_dict (entry_dict e) w = (Return e, w)) by now destruct e.
  now rewrite (bind_return _ _ _ _ _ Hfrom).
Qed.

Lemma active_entries_fold (es : list TimeEntry.t) (active : list TimeEntry.t) (w : world) :
  fold_py (fun active entry_dict =>
             end_time <- lift (py_get entry_dict "end_time" PNone) ;;
             if negb (truthy end_time) then
               entry <- TimeEntry.from_dict entry_dict ;;
               ret (active ++ [entry])%list
             else ret active)
          (map entry_dict es) active w
  = (Return (active ++ filter is_active es)%list, w).
Proof.
  revert active. induction es as [|e es IH]; intros active; cbn [map fold_py filter].
  - unfold ret. now rewrite app_nil_r.
  - rewrite (bind_return _ _ _ _ _ (active_entry_step e active w)), IH.
    destruct (is_active e); [now rewrite <- app_assoc | reflexivity].
Qed.

Lemma entry_dict_id (e : TimeEntry.t) :
  py_getitem (entry_dict e) "id" = Return (TimeEntry.id e).
Proof. now destruct e. Qed.

Lemma find_entry_first (entry_id : string) (es1 es2 : list TimeEntry.t) (e : TimeEntry.t) :
  Forall (fun e' => eq_str (TimeEntry.id e') entry_id = false) es1 ->
  eq_str (TimeEntry.id e) entry_id = true ->
  TaskManager.find_entry entry_id (map entry_dict (es1 ++ e :: es2))
  = Return (Some (entry_dict e)).
Proof.
  intros Hes1 He. induction Hes1 as [|e' es1 He' _ IH];
    cbn [app map TaskManager.find_entry]; rewrite entry_dict_id; cbn [obind].
  - now rewrite He.
  - now rewrite He'.
Qed.

Lemma replace_entry_first (entry_id : string) (es1 es2 : list TimeEntry.t)
      (e : TimeEntry.t) (replacement : pyval) :
  Forall (fun e' => eq_str (TimeEntry.id e') entry_id = false) es1 ->
  eq_str (TimeEntry.id e) entry_id = true ->
  TaskManager.replace_entry entry_id replacement (map entry_dict (es1 ++ e :: es2))
  = Return (map entry_dict es1 ++ replacement :: map entry_dict es2)%list.
Proof.
  intros Hes1 He. induction Hes1 as [|e' es1 He' _ IH];
    cbn [app map TaskManager.replace_entry]; rewrite entry_dict_id; cbn [obind].
  - now rewrite He.
  - rewrite He', IH. reflexivity.
Qed.

Section TimeTracking.
Context {backend : Type} `{Storage backend}.

Lemma get_active_time_entries_runs (self : TaskManager.t backend) (w : world)
      (task_id : string) (task : Task.t) (es : list TimeEntry.t) :
  mapping_get (TaskManager.tasks self) (PStr task_id) = Some task ->
  Task.time_entries task = PList (map entry_dict es) ->
  TaskManager.get_active_time_entries task_id self w
  = (Return (filter is_active es), self, w).
Proof.
  intros Hget Hes. unfold TaskManager.get_active_time_entries.
  rewrite mbind_this, Hget, Hes. unfold TaskManager.call.
  cbn [py_iter]. rewrite bind_lift_return.
  now rewrite (active_entries_fold es [] w).
Qed.


(** X18. start_time_tracking on a known task returns a new entry with a
    fresh id, start_time now, no end_time and duration 0, and
    get_active_time_entries then returns the entries that were active before
    followed by it; running entries are not stopped. *)
Theorem start_time_tracking_adds_an_active_entry :
  forall (self : TaskManager.t backend) (w : world) (task_id : string) (task : Task.t)
         (notes : pyval) (es : list TimeEntry.t),
    saves_return (TaskManager.storage self) ->
    mapping_get (TaskManager.tasks self) (PStr task_id) = Some task ->
    Task.time_entries task = PList (map entry_dict es) ->
    let entry :=
      TimeEntry.mk (PStr (uuid_source w (uuid_drawn w)))
                   (PStr (isoformat (pf w) (naive (clock w (clock_reads w)))))
                   PNone (PFloat (Float64 0)) notes in
    exists self' w',
      TaskManager.start_time_tracking task_id notes self w
      = (Return (Some entry), self', w') /\
      TaskManager.get_active_time_entries task_id self' w'
      = (Return (filter is_active es ++ [entry])%list, self', w').
Proof.
  intros self w task_id task notes es Hs Hget Hes entry.
  set (task1 := Task.set_time_entries (PList (map entry_dict es ++ [entry_dict entry])) task).
  set (w1 := tick (drawn w)).
  set (self' := TaskManager.set_tasks
                  (mapping_set (TaskManager.tasks self) (PStr task_id) (touched w1 task1))
                  self).
  exists self', (after_save self' (tick w1)). split.
  - unfold TaskManager.start_time_tracking.
    rewrite mbind_this, Hget, mbind_call.
    change (TimeEntry.init [("notes", notes)] w) with (Return entry, w1).
    cbv beta iota. rewrite mbind_call_lift, Hes. cbn [py_append].
    fold (entry_dict entry). fold task1.
    now rewrite (mbind_return _ _ _ _ _ _ _
                   (changed_spec (PStr task_id) task1 self w1 Hs (key_eqb_refl_str _))).
  - rewrite (get_active_time_entries_runs self' _ task_id (touched w1 task1)
               (es ++ [entry])).
    + rewrite filter_app. reflexivity.
    + apply mapping_get_set, key_eqb_refl_str.
    + rewrite map_app. unfold task1. now destruct task.
Qed.


(** X19. stop_time_tracking replaces the first entry with the given id, in
    place, by the entry with end_time now and the duration from start_time
    to now, keeps the other entries, and the entry is no longer among the
    active ones. *)
Theorem stop_time_tracking_closes_the_entry :
  forall (self : TaskManager.t backend) (w : world) (minutes : Z -> pyfloat)
         (task_id entry_id start_text : string) (task : Task.t)
         (es1 es2 : list TimeEntry.t) (e : TimeEntry.t) (started : Z),
    saves_return (TaskManager.storage self) ->
    mapping_get (TaskManager.tasks self) (PStr task_id) = Some task ->
    Task.time_entries task = PList (map entry_dict (es1 ++ e :: es2)) ->
    Forall (fun e' => eq_str (TimeEntry.id e') entry_id = false) es1 ->
    TimeEntry.id e = PStr entry_id ->
    TimeEntry.start_time e = PStr start_text ->
    fromisoformat (pf w) start_text = Return (naive started) ->
    fromisoformat (pf w) (isoformat (pf w) (naive (clock w (clock_reads w))))
    = Return (naive (clock w (clock_reads w))) ->
    isoformat (pf w) (naive (clock w (clock_reads w))) <> "" ->
    let stopped :=
      TimeEntry.mk (TimeEntry.id e) (TimeEntry.start_time e)
                   (PStr (isoformat (pf w) (naive (clock w (clock_reads w)))))
                   (PFloat (minutes (clock w (clock_reads w) - started)))
                   (TimeEntry.notes e) in
    exists task' self' w',
      TaskManager.stop_time_tracking minutes task_id entry_id self w
      = (Return (Some stopped), self', w') /\
      mapping_get (TaskManager.tasks self') (PStr task_id) = Some task' /\
      Task.time_entries task' = PList (map entry_dict (es1 ++ stopped :: es2)) /\
      TaskManager.get_active_time_entries task_id self' w'
      = (Return (filter is_active (es1 ++ es2)), self', w').
Proof.
  intros self w minutes task_id entry_id start_text task es1 es2 e started
         Hs Hget Hes Hes1 Hid Hstart Hparse Hround Hne stopped.
  assert (He : eq_str (TimeEntry.id e) entry_id = true)
    by (rewrite Hid; apply String.eqb_refl).
  set (task1 := Task.set_time_entries (PList (map entry_dict (es1 ++ stopped :: es2))) task).
  set (w1 := tick w).
  set (self' := TaskManager.set_tasks
                  (mapping_set (TaskManager.tasks self) (PStr task_id) (touched w1 task1))
                  self).
  assert (Hget' : mapping_get (TaskManager.tasks self') (PStr task_id)
                  = Some (touched w1 task1))
    by (apply mapping_get_set, key_eqb_refl_str).
  assert (Hes' : Task.time_entries (touched w1 task1)
                 = PList (map entry_dict (es1 ++ stopped :: es2)))
    by (unfold task1; now destruct task).
  exists (touched w1 task1), self', (after_save self' (tick w1)).
  split; [|split; [exact Hget' | split; [exact Hes'|]]].
  - unfold TaskManager.stop_time_tracking.
    rewrite mbind_this, Hget, mbind_call_lift, Hes. cbn [py_iter].
    rewrite mbind_call_lift, (find_entry_first entry_id es1 es2 e Hes1 He).
    rewrite mbind_call.
    replace (TimeEntry.from_dict (entry_dict e) w) with (Return e, w) by now destruct e.
    cbv beta iota. rewrite mbind_call.
    change (now_isoformat w)
      with (Return (PStr (isoformat (pf w) (naive (clock w (clock_reads w))))), w1).
    cbv beta iota. rewrite mbind_call.
    unfold call_platform at 1.
    replace (TimeEntry.start_time (TimeEntry.set_end_time _ e)) with (PStr start_text)
      by (rewrite <- Hstart; now destruct e).
    cbn [py_fromisoformat]. change (pf w1) with (pf w). rewrite Hparse.
    cbv beta iota. rewrite mbind_call. unfold call_platform at 1.
    replace (TimeEntry.end_time (TimeEntry.set_end_time _ e))
      with (PStr (isoformat (pf w) (naive (clock w (clock_reads w)))))
      by now destruct e.
    cbn [py_fromisoformat]. change (pf w1) with (pf w). rewrite Hround.
    cbv beta iota. rewrite mbind_call_lift.
    cbn [datetime_diff naive dt_offset dt_micros].
    rewrite mbind_call_lift.
    replace (TimeEntry.set_duration_minutes _ (TimeEntry.set_end_time _ e)) with stopped
      by (unfold stopped; now destruct e).
    fold (entry_dict stopped).
    rewrite (replace_entry_first entry_id es1 es2 e _ Hes1 He).
    replace (map entry_dict es1 ++ entry_dict stopped :: map entry_dict es2)%list
      with (map entry_dict (es1 ++ stopped :: es2)) by now rewrite map_app.
    fold task1.
    now rewrite (mbind_return _ _ _ _ _ _ _
                   (changed_spec (PStr task_id) task1 self w1 Hs (key_eqb_refl_str _))).
  - rewrite (get_active_time_entries_runs self' _ task_id _ _ Hget' Hes').
    rewrite !filter_app. cbn [filter]. unfold is_active at 2. cbn [stopped TimeEntry.end_time].
    now rewrite (truthy_str _ Hne).
Qed.

End TimeTracking.

Lemma row_entry_from_dict entry w :
  row_entry entry ->
  exists msg, TimeEntry.from_dict entry w = (Raise (TypeError msg), w).
Proof.
  intros (d & -> & Hd).
  apply (TimeEntry_from_dict_unknown_key d "task_id").
  - rewrite Hd. cbn. auto.
  - cbn. intros H. repeat (destruct H as [H | H]; [discriminate|]). exact H.
Qed.

Lemma dict_get_of_key (d : dict) k : In k (dict_keys d) -> exists v, dict_get d k = Some v.
Proof.
  induction d as [|[k' v'] d IH]; cbn; [tauto|].
  intros [-> | Hin].
  - rewrite String.eqb_refl. eauto.
  - destruct (String.eqb k k'); eauto.
Qed.

Lemma find_entry_among_rows (entry_id : string) (entries : list pyval) (d : dict) :
  Forall row_entry entries ->
  In (PDict d) entries ->
  dict_get d "id" = Some (PStr entry_id) ->
  exists found, TaskManager.find_entry entry_id entries = Return (Some found) /\
                row_entry found.
Proof.
  intros Hall. induction Hall as [|e entries He _ IH]; [intros []|].
  intros Hin Hid. cbn [TaskManager.find_entry].
  destruct He as (d0 & -> & Hd0).
  destruct (dict_get_of_key d0 "id") as (v & Hv); [rewrite Hd0; cbn; auto|].
  cbn [py_getitem]. rewrite Hv. cbn [obind].
  destruct (eq_str v entry_id) eqn:E.
  - exists (PDict d0). split; [reflexivity | now exists d0].
  - destruct Hin as [Heq | Hin]; [|now apply IH].
    inversion Heq; subst d0. rewrite Hid in Hv. inversion Hv; subst v.
    cbn in E. now rewrite String.eqb_refl in E.
Qed.

Lemma active_rows_raise (entries : list pyval) (active : list TimeEntry.t) (w : world) :
  Forall row_entry entries ->
  Exists (fun entry => exists d v, entry = PDict d /\ dict_get d "end_time" = Some v /\
                                   truthy v = false) entries ->
  exists msg,
    fold_py (fun active entry_dict =>
               end_time <- lift (py_get entry_dict "end_time" PNone) ;;
               if negb (truthy end_time) then
                 entry <- TimeEntry.from_dict entry_dict ;;
                 ret (active ++ [entry])%list
               else ret active)
            entries active w
    = (Raise (TypeError msg), w).
Proof.
  intros Hall. revert active.
  induction Hall as [|e entries He _ IH]; intros active Hex; [inversion Hex|].
  cbn [fold_py].
  destruct (row_entry_from_dict e w He) as (msg & Hraise).
  destruct He as (d0 & -> & Hd0).
  destruct (dict_get_of_key d0 "end_time") as (v0 & Hv0); [rewrite Hd0; cbn; auto 6|].
  assert (Hstep : forall (k : list TimeEntry.t -> Py (list TimeEntry.t)),
             bind (end_time <- lift (py_get (PDict d0) "end_time" PNone) ;;
                   if negb (truthy end_time) then
                     entry <- TimeEntry.from_dict (PDict d0) ;;
                     ret (active ++ [entry])%list
                   else ret active) k w
             = if negb (truthy v0) then (Raise (TypeError msg), w) else k active w).
  { intros k. cbn [py_get]. rewrite Hv0. unfold bind at 1. rewrite bind_lift_return.
    destruct (negb (truthy v0)); [|reflexivity].
    now rewrite (bind_raise _ _ _ _ _ Hraise). }
  rewrite Hstep. destruct (truthy v0) eqn:Ev0; cbn [negb]; [|eauto].
  apply IH. inversion Hex as [? ? (d & v & Heq & Hv & Hf) | ? ? Hex']; subst; [|exact Hex'].
  inversion Heq; subst d. congruence.
Qed.

Lemma mapping_get_In {A} (m : mapping A) k (v : A) :
  mapping_get m k = Some v -> exists k', In (k', v) m.
Proof.
  induction m as [|[k' v'] m IH]; cbn; [discriminate|].
  destruct (key_eqb k k').
  - intros E. inversion E; subst. eauto.
  - intros E. destruct (IH E) as (k2 & Hin). eauto.
Qed.


(** ** TaskManager: failures and persistence *)

Section Completion.
Context {backend : Type} `{Storage backend}.

(** X21. complete_task of a recurring task whose due date does not parse
    raises the parse error after the task was marked completed in memory and
    before save: self.tasks holds the completed task while the files and the
    database are as before. *)
Theorem complete_task_failure_leaves_the_completion_unsaved :
  forall (self : TaskManager.t backend) (w : world) (task_id due_text : string)
         (task : Task.t) (e : exn),
    mapping_get (TaskManager.tasks self) (PStr task_id) = Some task ->
    truthy (Task.is_recurring task) = true ->
    truthy (Task.recurrence_type task) = true ->
    Task.due_date task = PStr due_text -> due_text <> "" ->
    fromisoformat (pf w) due_text = Raise e ->
    exists completed self' w',
      TaskManager.complete_task (PStr task_id) self w = (Raise e, self', w') /\
      mapping_get (TaskManager.tasks self') (PStr task_id) = Some completed /\
      Task.status completed = PStr "completed" /\
      TaskManager.templates self' = TaskManager.templates self /\
      fs w' = fs w /\ conn w' = conn w.
Proof.
  intros self w task_id due_text task e Hget Hrec Hty Hdue Hne Hparse.
  unfold TaskManager.complete_task.
  rewrite mbind_this, Hget, mbind_call, Task_complete_spec.
  cbv beta iota. rewrite mbind_update.
  set (completed := Task.set_updated_at _ _).
  assert (Hrec' : truthy (Task.is_recurring completed) = true)
    by (unfold completed; now destruct task).
  rewrite Hrec', mbind_assoc, mbind_call.
  assert (Hgen : exists w1,
             Task.generate_next_recurrence completed (tick (tick w)) = (Raise e, w1) /\
             fs w1 = fs w /\ conn w1 = conn w).
  { unfold Task.generate_next_recurrence. rewrite Hrec'.
    replace (truthy (Task.recurrence_type completed)) with true
      by (rewrite <- Hty; unfold completed; now destruct task).
    replace (Task.due_date completed) with (PStr due_text)
      by (rewrite <- Hdue; unfold completed; now destruct task).
    rewrite (truthy_str _ Hne). cbn [negb orb].
    rewrite (bind_return _ _ _ _ _ (Task_from_dict_to_dict completed _)).
    unfold bind, uuid4_str, now_isoformat, now, call_platform, ret.
    cbn [bind pf tick drawn py_fromisoformat]. rewrite Hparse.
    eexists. split; [reflexivity|]. now split. }
  destruct Hgen as (w1 & -> & Hfs & Hconn).
  exists completed. eexists. exists w1. split; [reflexivity|].
  split; [apply (mapping_get_set_same _ _ task); exact Hget|].
  split; [unfold completed; now destruct task|]. now repeat split.
Qed.

End Completion.

Lemma fold_py_raises_under {A S} (I : world -> Prop) (f : S -> A -> Py S)
      (xs : list A) (x : A) :
  In x xs ->
  (forall s y, invariant I (f s y)) ->
  (forall s w, I w -> exists e w', f s x w = (Raise e, w')) ->
  forall s w, I w -> exists e w', fold_py f xs s w = (Raise e, w').
Proof.
  intros Hin Hinv Hx. induction xs as [|y xs IH]; [destruct Hin|].
  intros s w Hw. cbn [fold_py]. unfold bind.
  destruct (f s y w) as [[s'|e] w'] eqn:E; [|eauto].
  destruct Hin as [-> | Hin].
  - destruct (Hx s w Hw) as (e & w2 & E2). congruence.
  - apply (IH Hin). exact (Hinv s y w _ _ Hw E).
Qed.

Lemma filter_py_raises_under {A} (I : world -> Prop) (f : A -> Py bool)
      (xs : list A) (x : A) :
  In x xs ->
  (forall y, invariant I (f y)) ->
  (forall w, I w -> exists e w', f x w = (Raise e, w')) ->
  forall w, I w -> exists e w', filter_py f xs w = (Raise e, w').
Proof.
  intros Hin Hinv Hx. induction xs as [|y xs IH]; [destruct Hin|].
  intros w Hw. cbn [filter_py]. unfold bind at 1.
  destruct (f y w) as [[b|e] w'] eqn:E; [|eauto].
  destruct Hin as [-> | Hin].
  - destruct (Hx w Hw) as (e & w2 & E2). congruence.
  - destruct (IH Hin w' (Hinv y w _ _ Hw E)) as (e & w2 & E2).
    unfold bind. rewrite E2. eauto.
Qed.

Lemma invariant_now I : (forall w, I w -> I (tick w)) -> invariant I now.
Proof. intros Ht w o w' Hw E. unfold now in E. inversion E; subst. now apply Ht. Qed.

Lemma invariant_if I {A} (b : bool) (m1 m2 : Py A) :
  invariant I m1 -> invariant I m2 -> invariant I (if b then m1 else m2).
Proof. now destruct b. Qed.

Lemma is_overdue_keeps_platform p (task : Task.t) :
  invariant (fun w => pf w = p) (Task.is_overdue task).
Proof.
  unfold Task.is_overdue. apply invariant_if; [now apply invariant_pure|].
  invariant. apply invariant_now. now intros w.
Qed.

Section Overdue.
Context {backend : Type} `{Storage backend}.

(** X22. One task that is not completed and whose due date does not parse
    makes is_overdue raise for it and makes get_overdue_tasks and
    get_tasks_due_soon raise for the whole collection. *)
Theorem due_date_queries_fail_on_an_unparsable_due_date :
  forall (self : TaskManager.t backend) (w : world) (key : pyval) (task : Task.t)
         (due_text : string) (e0 : exn) (hours : pyval),
    In (key, task) (TaskManager.tasks self) ->
    Task.due_date task = PStr due_text -> due_text <> "" ->
    eq_str (Task.status task) "completed" = false ->
    fromisoformat (pf w) due_text = Raise e0 ->
    (forall w0, pf w0 = pf w -> Task.is_overdue task w0 = (Raise e0, w0)) /\
    (exists e w', TaskManager.get_overdue_tasks self w = (Raise e, self, w')) /\
    (exists e w', TaskManager.get_tasks_due_soon hours self w = (Raise e, self, w')).
Proof.
  intros self w key task due_text e0 hours Hin Hdue Hne Hst Hparse.
  assert (Hvalue : In task (mapping_values (TaskManager.tasks self)))
    by (unfold mapping_values; now apply (in_map snd) in Hin).
  assert (Hover : forall w0, pf w0 = pf w -> Task.is_overdue task w0 = (Raise e0, w0)).
  { intros w0 Hp. unfold Task.is_overdue.
    rewrite Hdue, Hst, (truthy_str _ Hne). cbn [negb orb].
    unfold bind, call_platform. cbn [py_fromisoformat]. now rewrite Hp, Hparse. }
  split; [exact Hover|]. split.
  - unfold TaskManager.get_overdue_tasks. rewrite mbind_this. unfold TaskManager.call.
    destruct (filter_py_raises_under (fun w0 => pf w0 = pf w) Task.is_overdue
                (mapping_values (TaskManager.tasks self)) task Hvalue
                (is_overdue_keeps_platform (pf w))
                (fun w0 Hp => ex_intro _ e0 (ex_intro _ w0 (Hover w0 Hp))) w eq_refl)
      as (e & w' & ->).
    eauto.
  - unfold TaskManager.get_tasks_due_soon. rewrite mbind_this. unfold TaskManager.call.
    unfold bind at 1. unfold now at 1.
    unfold bind at 1. unfold call_platform at 1.
    destruct (make_timedelta (pf (tick w)) us_per_hour hours) as [delta|e]; [|eauto].
    unfold bind at 1. unfold lift at 1.
    destruct (datetime_add _ delta) as [threshold|e]; [|eauto].
    match goal with
    | |- context [fold_py ?f ?xs ?acc ?wa] =>
        assert (Hraise : exists e w', fold_py f xs acc wa = (Raise e, w'));
        [apply (fold_py_raises_under (fun wb => pf wb = pf w) f xs task Hvalue);
         [| | reflexivity] |]
    end.
    + intros s y.
      apply invariant_if; [|now apply invariant_pure].
      invariant. destruct a0; [|now apply invariant_pure].
      invariant.
    + intros s w0 Hp. rewrite Hdue, Hst, (truthy_str _ Hne). cbn [negb andb].
      unfold bind, call_platform. cbn [py_fromisoformat]. rewrite Hp, Hparse. eauto.
    + destruct Hraise as (e & w' & ->). eauto.
Qed.

End Overdue.

Lemma find_app_first {A} (p : A -> bool) (xs ys : list A) (x : A) :
  In x xs -> p x = true -> find p (xs ++ ys) = find p xs.
Proof.
  induction xs as [|a xs IH]; cbn [app find In]; [tauto|].
  intros [-> | Hin] Hp.
  - now rewrite Hp.
  - destruct (p a); [reflexivity | now apply IH].
Qed.

(** X23. With the SQLite backend, create_template with a name already in use
    returns the template and adds it to self.templates (list_templates shows
    it last), but the committed template tables stay as they were, and
    get_template of that name still returns the older template. *)
Theorem create_template_with_a_used_name_stays_in_memory_only :
  forall (self : TaskManager.t SQLiteStorage.t) (w : world)
         (older newer : mapping TaskTemplate.t) (key : pyval) (existing : TaskTemplate.t)
         (name : string) (title description priority categories tags : pyval),
    TaskManager.templates self = (older ++ (key, existing) :: newer)%list ->
    TaskTemplate.name existing = PStr name ->
    mapping_get (TaskManager.templates self) (PStr (uuid_source w (uuid_drawn w))) = None ->
    pending (conn w) = None ->
    exists template self' w',
      TaskManager.create_template (PStr name) title description priority categories tags
                                  self w
      = (Return template, self', w') /\
      TaskTemplate.name template = PStr name /\
      TaskManager.templates self'
      = (TaskManager.templates self
           ++ [(PStr (uuid_source w (uuid_drawn w)), template)])%list /\
      TaskManager.list_templates self' w'
      = (Return (mapping_values (TaskManager.templates self) ++ [template])%list,
         self', w') /\
      (forall t, is_template_table t = true ->
                 committed (conn w') t = committed (conn w) t) /\
      TaskManager.get_template name self' w'
      = (Return (find (fun t => eq_str (TaskTemplate.name t) name)
                      (mapping_values (TaskManager.templates self))), self', w') /\
      find (fun t => eq_str (TaskTemplate.name t) name)
           (mapping_values (TaskManager.templates self)) <> None.
Proof.
  intros self w older newer key existing name title description priority categories tags
         Htpl Hname Hfresh Hpending.
  set (template :=
         TaskTemplate.mk (PStr (uuid_source w (uuid_drawn w))) (PStr name) title description
                         priority (TaskManager.or_empty categories)
                         (TaskManager.or_empty tags) PNone PNone).
  set (self' := TaskManager.set_templates
                  (TaskManager.templates self
                     ++ [(PStr (uuid_source w (uuid_drawn w)), template)])%list self).
  assert (Hfound : In existing (mapping_values (TaskManager.templates self)) /\
                   eq_str (TaskTemplate.name existing) name = true).
  { split.
    - rewrite Htpl. unfold mapping_values. rewrite map_app. apply in_or_app. right. now left.
    - rewrite Hname. apply String.eqb_refl. }
  exists template, self', (after_save self' (drawn w)).
  split; [|split; [reflexivity | split; [reflexivity | split; [|split; [|split]]]]].
  2: { unfold TaskManager.list_templates. rewrite mbind_this. unfold TaskManager.mret.
       cbn [self' TaskManager.set_templates TaskManager.templates].
       unfold mapping_values. now rewrite map_app. }
  - unfold TaskManager.create_template. rewrite mbind_call.
    change (TaskTemplate.init _ w) with (Return template, drawn w).
    cbv beta iota. rewrite mbind_update.
    change (TaskTemplate.id template) with (PStr (uuid_source w (uuid_drawn w))).
    rewrite (mapping_set_fresh _ _ _ Hfresh).
    fold self'.
    now rewrite (mbind_return _ _ _ _ _ _ _
                   (save_spec self' (drawn w) (SQLiteStorage_saves_return _))).
  - intros t Ht. unfold after_save.
    cbn [storage_save_tasks storage_save_templates SQLiteStorage_Storage].
    cbn [self' TaskManager.set_templates TaskManager.templates TaskManager.storage
         TaskManager.tasks].
    rewrite Htpl, <- app_assoc. cbn [app].
    rewrite (SQLiteStorage_save_templates_duplicate _ older newer []
               (key, existing) (PStr (uuid_source w (uuid_drawn w)), template))
      by (cbn [snd]; now rewrite Hname).
    cbn [snd conn set_conn committed].
    destruct (SQLiteStorage_save_tasks_cases (TaskManager.storage self)
                (TaskManager.tasks self) (drawn w))
      as [(e & w1 & _ & E) | (w1 & _ & Hframe & E)]; rewrite E; cbn [snd conn set_conn committed].
    + reflexivity.
    + rewrite Hframe by (unfold is_template_table in Ht; now destruct (is_task_table t)).
      cbn [drawn conn]. unfold view. now rewrite Hpending.
  - unfold TaskManager.get_template. rewrite mbind_this. unfold TaskManager.mret.
    f_equal. f_equal. f_equal.
    cbn [self' TaskManager.set_templates TaskManager.templates].
    unfold mapping_values. rewrite map_app.
    apply (find_app_first _ _ _ existing); tauto.
  - destruct Hfound as [Hin Hp]. intros Hnone.
    now rewrite (find_none _ _ Hnone existing Hin) in Hp.
Qed.

Lemma invariant_uuid4_str w0 : invariant (same_stores w0) uuid4_str.
Proof. intros w o w' Hw E. unfold uuid4_str in E. inversion E; subst. exact Hw. Qed.

Lemma invariant_now_isoformat w0 : invariant (same_stores w0) now_isoformat.
Proof.
  intros w o w' Hw E. unfold now_isoformat, bind, now, call_platform in E.
  inversion E; subst. exact Hw.
Qed.

Lemma invariant_raise I {A} (e : exn) : invariant I (@raise A e).
Proof. now apply invariant_pure. Qed.

Lemma invariant_try_except I {A} (m : Py A) (h : exn -> Py A) :
  invariant I m -> (forall e, invariant I (h e)) -> invariant I (try_except m h).
Proof.
  intros Hm Hh w o w' Hw. unfold try_except.
  destruct (m w) as [[a|e] w1] eqn:E; intros E'.
  - inversion E'; subst. exact (Hm _ _ _ Hw E).
  - exact (Hh e _ _ _ (Hm _ _ _ Hw E) E').
Qed.

Lemma invariant_fold_py I {A S} (f : S -> A -> Py S) (xs : list A) (s : S) :
  (forall s x, invariant I (f s x)) -> invariant I (fold_py f xs s).
Proof.
  intros Hf. revert s. induction xs as [|x xs IH]; intros s; cbn [fold_py].
  - now apply invariant_pure.
  - apply invariant_bind; [apply Hf | intros s'; apply IH].
Qed.

Lemma invariant_Task_declared_default w0 f :
  invariant (same_stores w0) (Task.declared_default f).
Proof.
  unfold Task.declared_default.
  repeat match goal with
         | |- invariant _ (if ?b then _ else _) => destruct b
         end;
    first [apply invariant_uuid4_str | apply invariant_now_isoformat
          | now apply invariant_pure].
Qed.

Lemma invariant_Task_from_dict w0 data : invariant (same_stores w0) (Task.from_dict data).
Proof.
  unfold Task.from_dict. destruct data; try apply invariant_raise.
  unfold Task.init. destruct (Task.unexpected_keyword d); [apply invariant_raise|].
  repeat (apply invariant_bind;
          [unfold Task.arg; destruct (dict_get d _);
           [now apply invariant_pure | apply invariant_Task_declared_default]
          | intros ?]).
  now apply invariant_pure.
Qed.

Lemma invariant_TaskTemplate_declared_default w0 f :
  invariant (same_stores w0) (TaskTemplate.declared_default f).
Proof.
  unfold TaskTemplate.declared_default.
  repeat match goal with
         | |- invariant _ (if ?b then _ else _) => destruct b
         end;
    first [apply invariant_uuid4_str | now apply invariant_pure].
Qed.

Lemma invariant_TaskTemplate_from_dict w0 data :
  invariant (same_stores w0) (TaskTemplate.from_dict data).
Proof.
  unfold TaskTemplate.from_dict. destruct data; try apply invariant_raise.
  unfold TaskTemplate.init. destruct (TaskTemplate.unexpected_keyword d);
    [apply invariant_raise|].
  repeat (apply invariant_bind;
          [unfold TaskTemplate.arg; destruct (dict_get d _);
           [now apply invariant_pure | apply invariant_TaskTemplate_declared_default]
          | intros ?]).
  now apply invariant_pure.
Qed.

Lemma invariant_read_text I path : invariant I (read_text path).
Proof.
  apply invariant_pure. intros w. unfold read_text. now destruct (fs w path).
Qed.

Lemma JSONStorage_loads_keep_the_stores (self : JSONStorage.t) w0 :
  invariant (same_stores w0) (JSONStorage.load_tasks self) /\
  invariant (same_stores w0) (JSONStorage.load_templates self).
Proof.
  split.
  - unfold JSONStorage.load_tasks, JSONStorage.load_tasks_body.
    apply invariant_try_except; [|intros e; now apply invariant_pure].
    apply invariant_bind; [apply invariant_read_text | intros text].
    invariant. apply invariant_fold_py. intros s x.
    apply invariant_bind; [apply invariant_Task_from_dict | intros t].
    now apply invariant_pure.
  - unfold JSONStorage.load_templates, JSONStorage.load_templates_body.
    apply invariant_try_except; [|intros e; now apply invariant_pure].
    apply invariant_bind; [apply invariant_read_text | intros text].
    invariant. apply invariant_fold_py. intros s x.
    apply invariant_bind; [apply invariant_TaskTemplate_from_dict | intros t].
    now apply invariant_pure.
Qed.

Lemma JSONStorage_load_templates_returns (self : JSONStorage.t) w :
  exists templates w', JSONStorage.load_templates self w = (Return templates, w').
Proof.
  unfold JSONStorage.load_templates, try_except.
  destruct (JSONStorage.load_templates_body self w) as [[m|e] w']; unfold ret; eauto.
Qed.

Lemma TaskManager_new_JSONStorage (storage : JSONStorage.t) (w : world)
      (tasks : mapping Task.t) (w1 : world) :
  JSONStorage.load_tasks storage w = (Return tasks, w1) ->
  exists templates w2,
    TaskManager.new storage w = (Return (TaskManager.mk storage tasks templates), w2) /\
    same_stores w1 w2.
Proof.
  intros Hload.
  destruct (JSONStorage_load_templates_returns storage w1) as (templates & w2 & Htpl).
  exists templates, w2. split.
  - unfold TaskManager.new, TaskManager.load.
    rewrite mbind_this, mbind_call.
    cbn [TaskManager.storage storage_load_tasks JSONStorage_Storage]. rewrite Hload.
    rewrite mbind_update, mbind_call.
    cbn [TaskManager.storage storage_load_templates JSONStorage_Storage TaskManager.set_tasks].
    rewrite Htpl. reflexivity.
  - apply (proj2 (JSONStorage_loads_keep_the_stores storage w1) w1 (Return templates) w2);
      [now repeat split | exact Htpl].
Qed.



(** ** SQLiteStorage: construction and constraints *)

Lemma set_conn_set_conn c1 c2 w : set_conn c1 (set_conn c2 w) = set_conn c1 w.
Proof. reflexivity. Qed.

Lemma exec_create_no_transaction t w :
  pending (conn w) = None ->
  exists w1,
    exec_create t w = (Return tt, w1) /\
    pending (conn w1) = None /\
    w1 = set_conn (conn w1) w /\
    forall t', committed (conn w1) t'
               = if table_name_eqb t' t then initialised (committed (conn w)) t'
                 else committed (conn w) t'.
Proof.
  intros Hp. unfold exec_create, bind, get_conn, view. rewrite Hp.
  destruct (committed (conn w) t) as [rows|] eqn:Et.
  - exists w. split; [reflexivity|]. split; [exact Hp|].
    split; [symmetry; apply set_conn_same|].
    intros t'. destruct (table_name_eqb t' t) eqn:E; [|reflexivity].
    apply table_name_eqb_eq in E. subst t'. unfold initialised. now rewrite Et.
  - eexists. split; [reflexivity|]. cbn [put_conn conn set_conn pending committed].
    split; [reflexivity|]. split; [reflexivity|].
    intros t'. unfold db_set. destruct (table_name_eqb t' t) eqn:E; [|reflexivity].
    apply table_name_eqb_eq in E. subst t'. unfold initialised. now rewrite Et.
Qed.

Lemma create_all_no_transaction {A} (ts : list table_name) (k : Py A) w :
  pending (conn w) = None ->
  exists w1,
    create_all ts k w = k w1 /\
    pending (conn w1) = None /\
    w1 = set_conn (conn w1) w /\
    forall t, committed (conn w1) t
              = if existsb (table_name_eqb t) ts then initialised (committed (conn w)) t
                else committed (conn w) t.
Proof.
  revert w. induction ts as [|t0 ts IH]; intros w Hp.
  - exists w. split; [reflexivity|]. split; [exact Hp|].
    split; [symmetry; apply set_conn_same | reflexivity].
  - destruct (exec_create_no_transaction t0 w Hp) as (w0 & E0 & Hp0 & Hw0 & Hc0).
    destruct (IH w0 Hp0) as (w1 & E1 & Hp1 & Hw1 & Hc1).
    exists w1. split; [|split; [exact Hp1 | split]].
    + cbn [create_all fold_right]. rewrite (bind_return _ _ _ _ _ E0). exact E1.
    + rewrite Hw1, Hw0 at 1. reflexivity.
    + intros t. rewrite Hc1. cbn [existsb].
      destruct (existsb (table_name_eqb t) ts).
      * rewrite orb_true_r. unfold initialised. rewrite Hc0.
        destruct (table_name_eqb t t0); [|reflexivity].
        unfold initialised. now destruct (committed (conn w) t).
      * rewrite orb_false_r. apply Hc0.
Qed.

Lemma create_all_existing {A} (ts : list table_name) (k : Py A) w :
  (forall t, view (conn w) t <> None) -> create_all ts k w = k w.
Proof.
  intros Hall. induction ts as [|t ts IH]; [reflexivity|].
  cbn [create_all fold_right].
  assert (E : exec_create t w = (Return tt, w)).
  { unfold exec_create, bind, get_conn. specialize (Hall t).
    now destruct (view (conn w) t). }
  rewrite (bind_return _ _ _ _ _ E). exact IH.
Qed.

Lemma commit_no_transaction w :
  pending (conn w) = None -> commit w = (Return tt, w).
Proof.
  intros Hp. unfold commit, bind, get_conn, put_conn, view. rewrite Hp.
  f_equal. destruct w as [p c cr us ud f [cm pd]]. cbn in *. now subst.
Qed.

Lemma select_all_empty t w :
  view (conn w) t = Some [] -> select_all t w = (Return [], w).
Proof. intros Hv. unfold select_all, bind, get_conn. now rewrite Hv. Qed.


Lemma insert_task_row_without_title p rows (params : list pyval) id_value :
  insert_row p tbl_tasks rows (id_value :: PNone :: params)
  = match omap sqlite_bind (id_value :: PNone :: params) with
    | Return _ => Raise (IntegrityError "NOT NULL constraint failed: tasks.title")
    | Raise e => Raise e
    end.
Proof.
  unfold insert_row. cbn [omap sqlite_bind obind].
  destruct (sqlite_bind id_value) as [b0|e]; [|reflexivity]. cbn [obind].
  destruct (omap sqlite_bind params) as [bs|e]; [|reflexivity]. cbn [obind].
  reflexivity.
Qed.

Lemma save_task_without_title_raises (item : pyval * Task.t) w :
  Task.title (snd item) = PNone ->
  exists e w', SQLiteStorage.save_task item w = (Raise e, w').
Proof.
  intros Htitle. unfold SQLiteStorage.save_task.
  unfold bind at 1. unfold call_platform at 1.
  destruct (py_int (pf w) (Task.is_recurring (snd item))) as [r|e]; [|eauto].
  unfold bind at 1. unfold call_platform at 1.
  destruct (py_int (pf w) (Task.is_template (snd item))) as [t|e]; [|eauto].
  rewrite Htitle.
  match goal with
  | |- context [exec_insert tbl_tasks ?params] =>
      pose proof (exec_insert_spec tbl_tasks params w) as Hins
  end.
  destruct (view (conn w) tbl_tasks) as [rows|].
  - rewrite insert_task_row_without_title in Hins.
    destruct (omap sqlite_bind _) in Hins;
      rewrite (bind_raise _ _ _ _ _ Hins); eauto.
  - rewrite (bind_raise _ _ _ _ _ Hins). eauto.
Qed.

(** X27. A collection with a task whose title is None cannot be saved by
    SQLiteStorage (title is NOT NULL): save_tasks returns False and rolls
    back, whereas JSONStorage saves the same collection and loads it back
    unchanged. *)
Theorem SQLiteStorage_rejects_a_task_without_title :
  forall (ss : SQLiteStorage.t) (js : JSONStorage.t) (A B : list (string * Task.t))
         (key : string) (task : Task.t) (w : world),
    Task.title task = PNone ->
    NoDup (map fst (A ++ (key, task) :: B)) ->
    all_serializable Task.t Task.to_dict (A ++ (key, task) :: B) = true ->
    writable w (JSONStorage.filepath js) = true ->
    SQLiteStorage.save_tasks ss (keyed Task.t (A ++ (key, task) :: B)) w
    = (Return false, set_conn (Connection (committed (conn w)) None) w) /\
    exists w1,
      JSONStorage.save_tasks js (keyed Task.t (A ++ (key, task) :: B)) w
      = (Return true, w1) /\
      JSONStorage.load_tasks js w1 = (Return (keyed Task.t (A ++ (key, task) :: B)), w1).
Proof.
  intros ss js A B key task w Htitle Hnd Hser Hw. split.
  - destruct (SQLiteStorage_save_tasks_cases ss (keyed Task.t (A ++ (key, task) :: B)) w)
      as [(e & w1 & _ & E) | (w1 & Hr & _ & _)]; [exact E|].
    exfalso. rewrite replace_tasks_delete_all in Hr.
    destruct (delete_all_cases task_tables
                (for_each (keyed Task.t (A ++ (key, task) :: B)) SQLiteStorage.save_task) w)
      as [(t & _ & _ & e & w' & Hr') | (_ & w0 & _ & _ & Hr')]; [congruence|].
    destruct (for_each_raises SQLiteStorage.save_task
                (keyed Task.t (A ++ (key, task) :: B)) (PStr key, task)) with (w := w0)
      as (e & w' & Hd).
    + unfold keyed. apply in_map_iff. exists (key, task). split; [reflexivity|].
      apply in_or_app. right. now left.
    + intros w2. now apply save_task_without_title_raises.
    + congruence.
  - exact (JSONStorage_tasks_round_trip js _ w Hnd Hser Hw).
Qed.

(** ** SQLiteStorage: the templates round trip *)

Lemma is_str_inv v : is_str v = true -> exists s, v = PStr s.
Proof. destruct v; try discriminate. eauto. Qed.

Lemma text_value_bind v :
  text_value v = true ->
  exists c, sqlite_bind v = Return c /\ text_class c /\ sqlite_fetch c = v.
Proof. destruct v; try discriminate; intros _; eexists; repeat split; reflexivity. Qed.

Lemma stored_text p v :
  text_value v = true ->
  sqlite_bind v = Return (stored p TEXT v) /\ sqlite_fetch (stored p TEXT v) = v.
Proof. destruct v; try discriminate; intros _; split; reflexivity. Qed.

Lemma stored_integer p v :
  integer_value v = true ->
  exists c, sqlite_bind v = Return c /\ stored p INTEGER v = c /\ sqlite_fetch c = v /\
            apply_affinity p INTEGER c = c.
Proof.
  destruct v; try discriminate; intros H.
  - exists SNull. now repeat split.
  - exists (SInteger z). unfold stored. cbn [sqlite_bind integer_value] in *.
    rewrite H. now repeat split.
Qed.

Lemma stored_str p s : stored p TEXT (PStr s) = SText s.
Proof. reflexivity. Qed.

Lemma table_name_eqb_neq a b : a <> b -> table_name_eqb a b = false.
Proof.
  intros Hne. destruct (table_name_eqb a b) eqn:E; [|reflexivity].
  apply table_name_eqb_eq in E. contradiction.
Qed.

Lemma exec_insert_writes t params w rows rows' :
  view (conn w) t = Some rows ->
  insert_row (pf w) t rows params = Return rows' ->
  exists w', exec_insert t params w = (Return tt, w') /\ writes t rows' w w'.
Proof.
  intros Hv Hins. pose proof (exec_insert_spec t params w) as Hspec.
  rewrite Hv, Hins in Hspec. eexists. split; [exact Hspec|].
  unfold writes, view. cbn [conn set_conn pending pf].
  split; [|split; [|reflexivity]].
  - unfold db_set. now rewrite table_name_eqb_refl.
  - intros t' Hne. unfold db_set. rewrite (table_name_eqb_neq _ _ Hne). reflexivity.
Qed.

Lemma writes_trans t rows1 rows2 w w1 w2 :
  writes t rows1 w w1 -> writes t rows2 w1 w2 -> writes t rows2 w w2.
Proof.
  intros (_ & Hf1 & Hp1) (Hv2 & Hf2 & Hp2). split; [exact Hv2|]. split; [|congruence].
  intros t' Hne. now rewrite Hf2, Hf1.
Qed.

Lemma insert_label_row p t column rows owner label :
  label_column t = Some column ->
  text_value owner = true -> text_value label = true ->
  insert_row p t rows [owner; label]
  = Return (rows ++ [[stored p TEXT owner; stored p TEXT label]])%list.
Proof.
  intros Ht Ho Hl. unfold insert_row. cbn [omap].
  rewrite (proj1 (stored_text p owner Ho)), (proj1 (stored_text p label Hl)).
  cbn [obind].
  assert (Ho' : text_class (stored p TEXT owner))
    by (destruct owner; try discriminate; exact I).
  assert (Hl' : text_class (stored p TEXT label))
    by (destruct label; try discriminate; exact I).
  destruct t; try discriminate; cbn [columns combine map fst snd col_affinity];
    rewrite !apply_affinity_text_class by assumption; reflexivity.
Qed.

Lemma insert_labels t column owner (labels : list pyval) (body : pyval -> Py unit) w rows :
  label_column t = Some column ->
  (forall label, body label = exec_insert t [owner; label]) ->
  text_value owner = true ->
  forallb text_value labels = true ->
  view (conn w) t = Some rows ->
  exists w',
    for_each labels body w = (Return tt, w') /\
    writes t (rows ++ label_rows (pf w) owner (PList labels))%list w w'.
Proof.
  intros Ht Hbody Ho. revert w rows.
  induction labels as [|label labels IH]; intros w rows Hl Hv.
  - exists w. split; [reflexivity|]. unfold label_rows. cbn [elements map].
    rewrite app_nil_r. split; [exact Hv|]. now split.
  - cbn [forallb] in Hl. apply andb_prop in Hl. destruct Hl as [Hlabel Hl].
    destruct (exec_insert_writes t [owner; label] w rows _ Hv
                (insert_label_row (pf w) t column rows owner label Ht Ho Hlabel))
      as (w1 & E1 & Hw1).
    destruct (IH w1 _ Hl (proj1 Hw1)) as (w2 & E2 & Hw2).
    exists w2. split.
    + cbn [for_each]. rewrite Hbody, (bind_return _ _ _ _ _ E1). exact E2.
    + replace (rows ++ label_rows (pf w) owner (PList (label :: labels)))%list
        with ((rows ++ [[stored (pf w) TEXT owner; stored (pf w) TEXT label]])
                ++ label_rows (pf w1) owner (PList labels))%list.
      * exact (writes_trans _ _ _ _ _ _ Hw1 Hw2).
      * rewrite <- app_assoc. destruct Hw1 as (_ & _ & ->). reflexivity.
Qed.

Lemma text_class_stored p v : text_value v = true -> text_class (stored p TEXT v).
Proof. destruct v; try discriminate; intros _; exact I. Qed.

Ltac split_andb :=
  repeat match goal with
         | H : _ && _ = true |- _ => apply andb_prop in H; destruct H
         end.

Lemma insert_template_row_ok p rows (template : TaskTemplate.t) :
  storable_template template = true ->
  existsb (fun r => sql_eqb (nth 0 r SNull) (stored p TEXT (TaskTemplate.id template)))
          rows = false ->
  existsb (fun r => sql_eqb (nth 1 r SNull) (stored p TEXT (TaskTemplate.name template)))
          rows = false ->
  insert_row p tbl_templates rows
    [TaskTemplate.id template; TaskTemplate.name template;
     TaskTemplate.title template; TaskTemplate.description template;
     TaskTemplate.priority template; TaskTemplate.estimated_minutes template;
     TaskTemplate.reminder_before_minutes template]
  = Return (rows ++ [template_row p template])%list.
Proof.
  intros Hok Hid Hname. unfold storable_template in Hok. split_andb.
  destruct (is_str_inv _ H) as (i & Hi), (is_str_inv _ H7) as (n & Hn).
  destruct (stored_integer p _ H3) as (c5 & Hb5 & Hs5 & _ & Ha5).
  destruct (stored_integer p _ H2) as (c6 & Hb6 & Hs6 & _ & Ha6).
  unfold insert_row, template_row. cbn [omap].
  rewrite Hi, Hn in *. cbn [sqlite_bind obind].
  rewrite (proj1 (stored_text p _ H6)), (proj1 (stored_text p _ H5)),
    (proj1 (stored_text p _ H4)), Hb5, Hb6.
  cbn [obind columns combine map fst snd col_affinity].
  rewrite !(apply_affinity_text_class p _ (text_class_stored p _ H6)),
    !(apply_affinity_text_class p _ (text_class_stored p _ H5)),
    !(apply_affinity_text_class p _ (text_class_stored p _ H4)), Ha5, Ha6, Hs5, Hs6.
  cbn [apply_affinity check_not_null col_not_null obind check_unique col_unique andb].
  rewrite stored_str in Hid, Hname. rewrite Hid, Hname. reflexivity.
Qed.

Lemma text_list_inv v : text_list v = true -> exists l, v = PList l /\ forallb text_value l = true.
Proof. destruct v; try discriminate. eauto. Qed.

Lemma is_str_text_value v : is_str v = true -> text_value v = true.
Proof. now destruct v. Qed.

Lemma fresh_template_cell p (n : nat) (field : TaskTemplate.t -> pyval)
      (templates : list TaskTemplate.t) (template : TaskTemplate.t) :
  (forall t, nth n (template_row p t) SNull = stored p TEXT (field t)) ->
  Forall (fun t => is_str (field t) = true) templates ->
  is_str (field template) = true ->
  ~ In (field template) (map field templates) ->
  existsb (fun r => sql_eqb (nth n r SNull) (stored p TEXT (field template)))
          (map (template_row p) templates) = false.
Proof.
  intros Hnth Hall Hstr Hnot. induction Hall as [|t ts Ht _ IH]; [reflexivity|].
  cbn [map existsb]. rewrite IH by (cbn in Hnot; tauto).
  rewrite Hnth, orb_false_r.
  destruct (is_str_inv _ Ht) as (a & Ha), (is_str_inv _ Hstr) as (b & Hb).
  rewrite Ha, Hb. cbn. apply String.eqb_neq. intros ->.
  apply Hnot. left. congruence.
Qed.

Lemma save_template_step p (templates : list TaskTemplate.t) (item : pyval * TaskTemplate.t)
      (w : world) :
  template_tables_hold p templates w ->
  Forall (fun t => storable_template t = true) templates ->
  storable_template (snd item) = true ->
  ~ In (TaskTemplate.id (snd item)) (map TaskTemplate.id templates) ->
  ~ In (TaskTemplate.name (snd item)) (map TaskTemplate.name templates) ->
  exists w',
    SQLiteStorage.save_template item w = (Return tt, w') /\
    template_tables_hold p (templates ++ [snd item]) w'.
Proof.
  intros (Hp & Hv1 & Hv2 & Hv3) Hall Hok Hid Hname.
  destruct item as [key template]. cbn [snd] in *.
  pose proof Hok as Hok'. unfold storable_template in Hok'. split_andb.
  assert (Hids : Forall (fun t => is_str (TaskTemplate.id t) = true) templates).
  { eapply Forall_impl; [|exact Hall]. intros t Ht. unfold storable_template in Ht.
    now split_andb. }
  assert (Hnames : Forall (fun t => is_str (TaskTemplate.name t) = true) templates).
  { eapply Forall_impl; [|exact Hall]. intros t Ht. unfold storable_template in Ht.
    now split_andb. }
  destruct (text_list_inv _ H1) as (cs & Hcs & Hcs'),
           (text_list_inv _ H0) as (gs & Hgs & Hgs').
  subst p.
  destruct (exec_insert_writes tbl_templates _ w _ _ Hv1
              (insert_template_row_ok (pf w) _ template Hok
                 (fresh_template_cell (pf w) 0 TaskTemplate.id templates template
                    (fun _ => eq_refl) Hids H Hid)
                 (fresh_template_cell (pf w) 1 TaskTemplate.name templates template
                    (fun _ => eq_refl) Hnames H7 Hname)))
    as (w1 & E1 & Hw1 & Hf1 & Hp1).
  assert (Hv2' : view (conn w1) tbl_template_categories
                 = Some (flat_map (fun t => label_rows (pf w) (TaskTemplate.id t)
                                               (TaskTemplate.categories t)) templates))
    by (rewrite Hf1 by discriminate; exact Hv2).
  destruct (insert_labels tbl_template_categories "category" (TaskTemplate.id template) cs
              (fun category =>
                 exec_insert tbl_template_categories [TaskTemplate.id template; category])
              w1 _ eq_refl (fun _ => eq_refl) (is_str_text_value _ H) Hcs' Hv2')
    as (w2 & E2 & Hw2 & Hf2 & Hp2).
  assert (Hv3' : view (conn w2) tbl_template_tags
                 = Some (flat_map (fun t => label_rows (pf w) (TaskTemplate.id t)
                                               (TaskTemplate.tags t)) templates))
    by (rewrite Hf2, Hf1 by discriminate; exact Hv3).
  destruct (insert_labels tbl_template_tags "tag" (TaskTemplate.id template) gs
              (fun tag => exec_insert tbl_template_tags [TaskTemplate.id template; tag])
              w2 _ eq_refl (fun _ => eq_refl) (is_str_text_value _ H) Hgs' Hv3')
    as (w3 & E3 & Hw3 & Hf3 & Hp3).
  exists w3. split.
  - unfold SQLiteStorage.save_template. cbn [snd].
    rewrite (bind_return _ _ _ _ _ E1), Hcs. cbn [py_iter]. rewrite bind_lift_return.
    rewrite (bind_return _ _ _ _ _ E2), Hgs. cbn [py_iter]. rewrite bind_lift_return.
    exact E3.
  - unfold template_tables_hold. rewrite map_app, !flat_map_app. cbn [map flat_map].
    rewrite !app_nil_r.
    split; [congruence|]. split; [|split].
    + rewrite Hf3, Hf2 by discriminate. exact Hw1.
    + rewrite Hf3 by discriminate. rewrite Hw2, Hp1, Hcs. reflexivity.
    + rewrite Hw3, Hp2, Hp1, Hgs. reflexivity.
Qed.

Lemma save_templates_steps p (done : list TaskTemplate.t) (M : mapping TaskTemplate.t)
      (w : world) :
  template_tables_hold p done w ->
  Forall (fun t => storable_template t = true) (done ++ mapping_values M) ->
  NoDup (map TaskTemplate.id (done ++ mapping_values M)) ->
  NoDup (map TaskTemplate.name (done ++ mapping_values M)) ->
  exists w',
    for_each M SQLiteStorage.save_template w = (Return tt, w') /\
    template_tables_hold p (done ++ mapping_values M) w'.
Proof.
  revert done w. induction M as [|item M IH]; intros done w Hhold Hall Hids Hnames.
  - exists w. split; [reflexivity|]. cbn [mapping_values map]. now rewrite app_nil_r.
  - cbn [mapping_values map] in *.
    change (map snd M) with (mapping_values M) in *.
    assert (Hsplit : (done ++ snd item :: mapping_values M
                      = (done ++ [snd item]) ++ mapping_values M)%list)
      by now rewrite <- app_assoc.
    rewrite Hsplit in *.
    destruct (save_template_step p done item w Hhold) as (w1 & E1 & Hhold1).
    + apply Forall_app in Hall. destruct Hall as [Hall _].
      apply Forall_app in Hall. tauto.
    + apply Forall_app in Hall. destruct Hall as [Hall _].
      apply Forall_app in Hall. destruct Hall as [_ Hall]. now inversion Hall.
    + rewrite map_app in Hids. apply NoDup_app_remove_r in Hids.
      rewrite map_app in Hids. cbn [map] in Hids.
      apply NoDup_remove_2 in Hids. now rewrite app_nil_r in Hids.
    + rewrite map_app in Hnames. apply NoDup_app_remove_r in Hnames.
      rewrite map_app in Hnames. cbn [map] in Hnames.
      apply NoDup_remove_2 in Hnames. now rewrite app_nil_r in Hnames.
    + destruct (IH _ w1 Hhold1 Hall Hids Hnames) as (w2 & E2 & Hhold2).
      exists w2. split; [|exact Hhold2].
      cbn [for_each]. now rewrite (bind_return _ _ _ _ _ E1).
Qed.

Lemma select_where_text t key v rows w :
  view (conn w) t = Some rows -> text_value v = true ->
  select_where t key v w
  = (Return (map (named_row t)
               (filter (fun r : row =>
                          sql_eqb (nth (column_index t key) r SNull) (stored (pf w) TEXT v))
                       rows)), w).
Proof.
  intros Hv Htext.
  rewrite <- (proj2 (stored_text (pf w) v Htext)) at 1.
  apply select_where_returns; [exact Hv|]. now apply text_class_stored.
Qed.

(** The rows of a label table that a SELECT for one owner finds. *)
Lemma filter_label_rows p (owner owner' labels : pyval) :
  is_str owner = true -> is_str owner' = true ->
  filter (fun r : row => sql_eqb (nth 0 r SNull) (stored p TEXT owner))
         (label_rows p owner' labels)
  = if key_eqb owner' owner then label_rows p owner' labels else [].
Proof.
  intros Ho Ho'.
  destruct (is_str_inv _ Ho) as (a & ->), (is_str_inv _ Ho') as (b & ->).
  unfold label_rows. cbn [key_eqb]. rewrite !stored_str.
  induction (elements labels) as [|l ls IH]; cbn [map filter nth sql_eqb].
  - now destruct (String.eqb b a).
  - rewrite IH. now destruct (String.eqb b a).
Qed.

Lemma filter_owner_rows p (labels : TaskTemplate.t -> pyval)
      (templates : list TaskTemplate.t) (template : TaskTemplate.t) :
  Forall (fun t => is_str (TaskTemplate.id t) = true) templates ->
  NoDup (map TaskTemplate.id templates) ->
  In template templates ->
  filter (fun r : row => sql_eqb (nth 0 r SNull) (stored p TEXT (TaskTemplate.id template)))
         (flat_map (fun t => label_rows p (TaskTemplate.id t) (labels t)) templates)
  = label_rows p (TaskTemplate.id template) (labels template).
Proof.
  intros Hall Hnd Hin.
  assert (Hstr : is_str (TaskTemplate.id template) = true)
    by (rewrite Forall_forall in Hall; auto).
  assert (Hother : forall ts,
             Forall (fun t => is_str (TaskTemplate.id t) = true) ts ->
             ~ In (TaskTemplate.id template) (map TaskTemplate.id ts) ->
             filter (fun r : row =>
                       sql_eqb (nth 0 r SNull) (stored p TEXT (TaskTemplate.id template)))
                    (flat_map (fun t => label_rows p (TaskTemplate.id t) (labels t)) ts)
             = []).
  { intros ts Hts. induction Hts as [|t ts Ht _ IH]; intros Hnot; [reflexivity|].
    cbn [flat_map]. rewrite filter_app, IH by (cbn in Hnot; tauto).
    rewrite filter_label_rows by assumption.
    destruct (is_str_inv _ Ht) as (b & Hb), (is_str_inv _ Hstr) as (a & Ha).
    rewrite Hb, Ha. cbn [key_eqb].
    destruct (String.eqb_spec b a) as [-> | _]; [|reflexivity].
    exfalso. apply Hnot. left. congruence. }
  induction Hall as [|t ts Ht Hts IH]; [destruct Hin|].
  cbn [map] in Hnd. inversion Hnd as [|? ? Hfresh Hnd']; subst.
  cbn [flat_map]. rewrite filter_app, filter_label_rows by assumption.
  destruct Hin as [-> | Hin].
  - rewrite Hother by assumption.
    destruct (is_str_inv _ Hstr) as (a & Ha). rewrite Ha. cbn [key_eqb].
    now rewrite String.eqb_refl, app_nil_r.
  - rewrite (IH Hnd' Hin).
    destruct (is_str_inv _ Ht) as (b & Hb), (is_str_inv _ Hstr) as (a & Ha).
    rewrite Hb, Ha. cbn [key_eqb].
    destruct (String.eqb_spec b a) as [-> | _]; [|reflexivity].
    exfalso. apply Hfresh. rewrite Hb, <- Ha. now apply in_map.
Qed.

Lemma fetch_label_rows p t column owner (labels : list pyval) :
  label_column t = Some column ->
  text_value owner = true -> forallb text_value labels = true ->
  omap (fun r => row_get r column) (map (named_row t) (label_rows p owner (PList labels)))
  = Return labels.
Proof.
  intros Ht Ho. unfold label_rows. cbn [elements].
  induction labels as [|l ls IH]; intros Hl; [reflexivity|].
  cbn [forallb] in Hl. apply andb_prop in Hl. destruct Hl as [Hl Hls].
  cbn [map omap]. rewrite (IH Hls).
  assert (Hrow : row_get (named_row t [stored p TEXT owner; stored p TEXT l]) column
                 = Return l).
  { destruct t; try discriminate; inversion Ht; subst;
      unfold row_get, named_row; cbn [columns map col_name combine dict_of_row fst snd
                                      dict_get String.eqb Ascii.eqb Bool.eqb];
      now rewrite (proj2 (stored_text p l Hl)). }
  rewrite Hrow. reflexivity.
Qed.

Lemma load_template_step p (templates : list TaskTemplate.t) (template : TaskTemplate.t)
      (acc : mapping TaskTemplate.t) (w : world) :
  template_tables_hold p templates w ->
  Forall (fun t => storable_template t = true) templates ->
  NoDup (map TaskTemplate.id templates) ->
  In template templates ->
  SQLiteStorage.load_template acc (named_row tbl_templates (template_row p template)) w
  = (Return (mapping_set acc (TaskTemplate.id template) template), w).
Proof.
  intros (Hp & _ & Hv2 & Hv3) Hall Hnd Hin.
  assert (Hok : storable_template template = true)
    by (rewrite Forall_forall in Hall; auto).
  assert (Hids : Forall (fun t => is_str (TaskTemplate.id t) = true) templates).
  { eapply Forall_impl; [|exact Hall]. intros t Ht. unfold storable_template in Ht.
    now split_andb. }
  pose proof (filter_owner_rows p TaskTemplate.categories templates template Hids Hnd Hin)
    as Hcats.
  pose proof (filter_owner_rows p TaskTemplate.tags templates template Hids Hnd Hin)
    as Htags.
  unfold storable_template in Hok. split_andb.
  destruct (text_list_inv _ H1) as (cs & Hcs & Hcs'),
           (text_list_inv _ H0) as (gs & Hgs & Hgs').
  destruct (stored_integer p _ H3) as (c5 & _ & Hs5 & Hf5 & _).
  destruct (stored_integer p _ H2) as (c6 & _ & Hs6 & Hf6 & _).
  pose proof (is_str_text_value _ H) as Hid.
  subst p.
  unfold SQLiteStorage.load_template. cbv zeta.
  unfold named_row, template_row.
  cbn [columns map col_name combine dict_of_row fst snd].
  rewrite (proj2 (stored_text (pf w) _ Hid)),
    (proj2 (stored_text (pf w) _ (is_str_text_value _ H7))),
    (proj2 (stored_text (pf w) _ H6)), (proj2 (stored_text (pf w) _ H5)),
    (proj2 (stored_text (pf w) _ H4)), Hs5, Hs6, Hf5, Hf6.
  cbn [py_getitem dict_get String.eqb Ascii.eqb Bool.eqb].
  rewrite bind_lift_return.
  rewrite (bind_return _ _ _ _ _ (select_where_text _ _ _ _ w Hv2 Hid)).
  change (column_index tbl_template_categories "template_id") with 0%nat.
  rewrite Hcats, Hcs,
    (fetch_label_rows (pf w) tbl_template_categories "category" _ cs eq_refl Hid Hcs').
  rewrite bind_lift_return.
  rewrite (bind_return _ _ _ _ _ (select_where_text _ _ _ _ w Hv3 Hid)).
  change (column_index tbl_template_tags "template_id") with 0%nat.
  rewrite Htags, Hgs,
    (fetch_label_rows (pf w) tbl_template_tags "tag" _ gs eq_refl Hid Hgs').
  rewrite bind_lift_return.
  destruct template as [i n ti d pr cats tgs em rm].
  cbn [TaskTemplate.id TaskTemplate.name TaskTemplate.title TaskTemplate.description
       TaskTemplate.priority TaskTemplate.categories TaskTemplate.tags
       TaskTemplate.estimated_minutes TaskTemplate.reminder_before_minutes] in *.
  subst cats tgs.
  reflexivity.
Qed.

Lemma load_templates_fold p (templates : list TaskTemplate.t) (w : world) :
  template_tables_hold p templates w ->
  Forall (fun t => storable_template t = true) templates ->
  NoDup (map TaskTemplate.id templates) ->
  forall (rest : list TaskTemplate.t) (acc : mapping TaskTemplate.t),
    incl rest templates ->
    fold_py SQLiteStorage.load_template
            (map (named_row tbl_templates) (map (template_row p) rest)) acc w
    = (Return (fold_left (fun acc t => mapping_set acc (TaskTemplate.id t) t) rest acc), w).
Proof.
  intros Hhold Hall Hnd rest. induction rest as [|t rest IH]; intros acc Hincl.
  - reflexivity.
  - cbn [map fold_py fold_left].
    rewrite (bind_return _ _ _ _ _
               (load_template_step p templates t acc w Hhold Hall Hnd
                  (Hincl t (or_introl eq_refl)))).
    apply IH. intros x Hx. apply Hincl. now right.
Qed.

Lemma mapping_get_by_id_absent (done : list TaskTemplate.t) (k : pyval) :
  Forall (fun t => is_str (TaskTemplate.id t) = true) done ->
  is_str k = true ->
  ~ In k (map TaskTemplate.id done) ->
  mapping_get (map (fun t => (TaskTemplate.id t, t)) done) k = None.
Proof.
  intros Hall Hk. induction Hall as [|t ts Ht _ IH]; intros Hnot; [reflexivity|].
  cbn [map mapping_get].
  destruct (is_str_inv _ Ht) as (b & Hb), (is_str_inv _ Hk) as (a & Ha).
  rewrite Hb, Ha in *. cbn [key_eqb].
  destruct (String.eqb_spec a b) as [-> | _].
  - exfalso. apply Hnot. left. exact Hb.
  - rewrite <- Ha in *. apply IH. cbn in Hnot. tauto.
Qed.

Lemma collect_by_id (rest done : list TaskTemplate.t) :
  Forall (fun t => is_str (TaskTemplate.id t) = true) (done ++ rest) ->
  NoDup (map TaskTemplate.id (done ++ rest)) ->
  fold_left (fun acc t => mapping_set acc (TaskTemplate.id t) t) rest
            (map (fun t => (TaskTemplate.id t, t)) done)
  = map (fun t => (TaskTemplate.id t, t)) (done ++ rest).
Proof.
  revert done. induction rest as [|t rest IH]; intros done Hall Hnd.
  - now rewrite app_nil_r.
  - cbn [fold_left].
    assert (Hsplit : (done ++ t :: rest = (done ++ [t]) ++ rest)%list)
      by now rewrite <- app_assoc.
    rewrite Hsplit in *.
    rewrite mapping_set_fresh.
    + rewrite <- (IH (done ++ [t])%list Hall Hnd). f_equal.
      now rewrite map_app.
    + apply Forall_app in Hall. destruct Hall as [Hall _].
      apply Forall_app in Hall. destruct Hall as [Hdone Ht].
      apply mapping_get_by_id_absent; [exact Hdone | now inversion Ht |].
      rewrite map_app in Hnd. apply NoDup_app_remove_r in Hnd.
      rewrite map_app in Hnd. cbn [map] in Hnd.
      apply NoDup_remove_2 in Hnd. now rewrite app_nil_r in Hnd.
Qed.

Lemma SQLiteStorage_save_templates_stores (self : SQLiteStorage.t)
      (M : mapping TaskTemplate.t) (w : world) :
  (forall t, In t template_tables -> view (conn w) t <> None) ->
  Forall (fun t => storable_template t = true) (mapping_values M) ->
  NoDup (map TaskTemplate.id (mapping_values M)) ->
  NoDup (map TaskTemplate.name (mapping_values M)) ->
  exists w1,
    SQLiteStorage.save_templates self M w = (Return true, w1) /\
    template_tables_hold (pf w) (mapping_values M) w1.
Proof.
  intros Hexist Hall Hids Hnames.
  destruct (delete_all_cases template_tables
              (for_each M SQLiteStorage.save_template) w)
    as [(t & Hin & Hnone & _) | (_ & w0 & Hp & Hv & Hr)];
    [now apply Hexist in Hin|].
  assert (Hhold : template_tables_hold (pf w) [] w0).
  { split; [exact Hp|]. cbn [map flat_map]. rewrite !Hv. now repeat split. }
  destruct (save_templates_steps (pf w) [] M w0 Hhold Hall Hids Hnames)
    as (w' & E & Hp' & Hv1 & Hv2 & Hv3).
  cbn [app] in *.
  assert (Hrun : SQLiteStorage.replace_templates M w = (Return tt, w'))
    by (rewrite <- E, <- Hr; reflexivity).
  destruct (SQLiteStorage_save_templates_cases self M w)
    as [(e & w1 & Hraise & _) | (w1 & Hret & _ & Hsave)]; [congruence|].
  assert (w1 = w') by congruence. subst w1.
  eexists. split; [exact Hsave|].
  unfold template_tables_hold, view. cbn [conn set_conn pending pf].
  repeat split; assumption.
Qed.

(** X28. For templates with distinct string ids and distinct string names
    whose other fields are values their columns store unchanged (text, None
    or bytes in TEXT columns, 64-bit integers or None in INTEGER columns,
    lists of such text as categories and tags), SQLiteStorage.save_templates
    returns True and load_templates then returns the same templates in the
    same order, keyed by their ids. *)
Theorem SQLiteStorage_templates_round_trip :
  forall (self : SQLiteStorage.t) (M : mapping TaskTemplate.t) (w : world),
    (forall t, In t template_tables -> view (conn w) t <> None) ->
    Forall (fun t => storable_template t = true) (mapping_values M) ->
    NoDup (map TaskTemplate.id (mapping_values M)) ->
    NoDup (map TaskTemplate.name (mapping_values M)) ->
    exists w1,
      SQLiteStorage.save_templates self M w = (Return true, w1) /\
      SQLiteStorage.load_templates self w1
      = (Return (map (fun t => (TaskTemplate.id t, t)) (mapping_values M)), w1) /\
      (Forall (fun kt => fst kt = TaskTemplate.id (snd kt)) M ->
       SQLiteStorage.load_templates self w1 = (Return M, w1)).
Proof.
  intros self M w Hexist Hall Hids Hnames.
  destruct (SQLiteStorage_save_templates_stores self M w Hexist Hall Hids Hnames)
    as (w1 & Hsave & Hhold).
  assert (Hstr : Forall (fun t => is_str (TaskTemplate.id t) = true) (mapping_values M)).
  { eapply Forall_impl; [|exact Hall]. intros t Ht. unfold storable_template in Ht.
    now split_andb. }
  assert (Hload : SQLiteStorage.load_templates self w1
                  = (Return (map (fun t => (TaskTemplate.id t, t)) (mapping_values M)), w1)).
  { unfold SQLiteStorage.load_templates.
    pose proof (select_all_cases tbl_templates w1) as Hsel.
    destruct Hhold as (Hp & Hv1 & Hv2 & Hv3). rewrite Hv1 in Hsel.
    rewrite (bind_return _ _ _ _ _ Hsel).
    rewrite (load_templates_fold (pf w) (mapping_values M) w1
               (conj Hp (conj Hv1 (conj Hv2 Hv3))) Hall Hids _ [] (incl_refl _)).
    exact (f_equal (fun m => (Return m, w1))
             (collect_by_id (mapping_values M) [] Hstr Hids)). }
  exists w1. split; [exact Hsave|]. split; [exact Hload|].
  intros Hkeys. rewrite Hload.
  assert (Hsame : map (fun t => (TaskTemplate.id t, t)) (mapping_values M) = M).
  { unfold mapping_values. rewrite map_map.
    clear - Hkeys. induction Hkeys as [|[k t] M Hk _ IH]; [reflexivity|].
    cbn [map fst snd] in *. now rewrite IH, Hk. }
  now rewrite Hsame.
Qed.

(** ** TaskManager: reminders and templates *)

Lemma needs_reminder_without_reminder (task : Task.t) (w : world) :
  without_reminder task = true -> Task.needs_reminder task w = (Return false, w).
Proof.
  unfold without_reminder, Task.needs_reminder. intros Hq.
  destruct (negb (truthy (Task.due_date task))
            || negb (truthy (Task.reminder_before_minutes task))); [reflexivity|].
  cbn [orb] in Hq. now rewrite Hq.
Qed.

Section Reminders.
Context {backend : Type} `{Storage backend}.

Lemma remind_skips (items : mapping Task.t) (acc : list Task.t)
      (self : TaskManager.t backend) (w : world) :
  Forall (fun item => without_reminder (snd item) = true) items ->
  TaskManager.mfold TaskManager.remind items acc self w = (Return acc, self, w).
Proof.
  induction 1 as [|item items Hq _ IH]; [reflexivity|].
  cbn [TaskManager.mfold]. unfold TaskManager.remind at 1.
  rewrite mbind_assoc, mbind_call, (needs_reminder_without_reminder _ w Hq).
  rewrite mbind_mret. exact IH.
Qed.

Lemma mfold_app {A B} (f : B -> A -> TaskManager.Method B) (xs ys : list A) (b : B)
      (self : TaskManager.t backend) (w : world) :
  TaskManager.mfold f (xs ++ ys) b self w
  = TaskManager.mbind (TaskManager.mfold f xs b) (fun b' => TaskManager.mfold f ys b') self w.
Proof.
  revert b self w. induction xs as [|x xs IH]; intros b self w; [reflexivity|].
  cbn [app TaskManager.mfold]. rewrite mbind_assoc.
  destruct (f b x self w) as [[[b'|e] self'] w'] eqn:E.
  - rewrite !(mbind_return _ _ _ _ _ _ _ E). apply IH.
  - now rewrite !(mbind_raise _ _ _ _ _ _ _ E).
Qed.

(** X29. check_reminders returns [] and changes nothing (no save) when every
    task lacks a due date or a reminder or is completed. When one task,
    never reminded, has reached its reminder time and the others are of that
    kind, it returns that task with last_reminded set to now, keeps it under
    its id and saves; before the reminder time it returns [] without saving. *)
Theorem check_reminders_stamps_the_task_it_reports :
  forall (self : TaskManager.t backend) (w : world),
    (Forall (fun item => without_reminder (snd item) = true) (TaskManager.tasks self) ->
     TaskManager.check_reminders self w = (Return [], self, w)) /\
    (forall (before after : mapping Task.t) (task_id due_text : string) (task : Task.t)
            (D m : Z),
        saves_return (TaskManager.storage self) ->
        TaskManager.tasks self = (before ++ (PStr task_id, task) :: after)%list ->
        Forall (fun item => without_reminder (snd item) = true) (before ++ after) ->
        Task.due_date task = PStr due_text -> due_text <> "" ->
        Task.reminder_before_minutes task = PInt m -> m <> 0 ->
        eq_str (Task.status task) "completed" = false ->
        truthy (Task.last_reminded task) = false ->
        fromisoformat (pf w) due_text = Return (naive D) ->
        0 <= D <= datetime_max ->
        0 <= D - m * us_per_minute <= datetime_max ->
        let reminded :=
          Task.set_last_reminded
            (PStr (isoformat (pf w) (naive (clock w (S (clock_reads w)))))) task in
        let self' :=
          TaskManager.set_tasks
            (mapping_set (TaskManager.tasks self) (PStr task_id) reminded) self in
        TaskManager.check_reminders self w
        = if D - m * us_per_minute <=? clock w (clock_reads w)
          then (Return [reminded], self', after_save self' (tick (tick w)))
          else (Return [], self, tick w)).
Proof.
  intros self w. split.
  - intros Hq. unfold TaskManager.check_reminders. rewrite mbind_this.
    now rewrite (mbind_return _ _ _ _ _ _ _ (remind_skips _ [] self w Hq)).
  - intros before after task_id due_text task D m Hs Htasks Hq Hdue Hne Hm Hm0 Hst Hlast
           Hparse HD Hrange reminded self'.
    apply Forall_app in Hq. destruct Hq as [Hbefore Hafter].
    pose proof (needs_reminder_not_reminded_yet task w due_text D m
                  Hdue Hne Hm Hm0 Hst Hlast Hparse HD Hrange) as Hneeds.
    unfold TaskManager.check_reminders. rewrite mbind_this.
    rewrite Htasks at 1.
    assert (Hloop :
              TaskManager.mfold TaskManager.remind
                (before ++ (PStr task_id, task) :: after) [] self w
              = if D - m * us_per_minute <=? clock w (clock_reads w)
                then (Return [reminded], self', tick (tick w))
                else (Return [], self, tick w)).
    { rewrite mfold_app, (mbind_return _ _ _ _ _ _ _ (remind_skips _ [] self w Hbefore)).
      cbn [TaskManager.mfold]. unfold TaskManager.remind at 1. cbn [fst snd].
      rewrite !mbind_assoc, mbind_call, Hneeds.
      destruct (D - m * us_per_minute <=? clock w (clock_reads w)).
      - rewrite mbind_assoc, mbind_call.
        change (now_isoformat (tick w))
          with (Return (PStr (isoformat (pf w) (naive (clock w (S (clock_reads w)))))),
                tick (tick w)).
        cbv beta iota zeta. rewrite mbind_assoc, put_task_spec, mbind_mret.
        exact (remind_skips _ _ _ _ Hafter).
      - rewrite mbind_mret. exact (remind_skips _ _ _ _ Hafter). }
    destruct (D - m * us_per_minute <=? clock w (clock_reads w)).
    + rewrite (mbind_return _ _ _ _ _ _ _ Hloop).
      cbn [app]. now rewrite (mbind_return _ _ _ _ _ _ _ (save_spec self' _ Hs)).
    + now rewrite (mbind_return _ _ _ _ _ _ _ Hloop).
Qed.

End Reminders.

Section Templates.
Context {backend : Type} `{Storage backend}.


End Templates.

(** ** The properties on the sample data, continued *)

Lemma JSONStorage_templates_file_is_shared_witness :
  exists w3,
    JSONStorage.save_templates (JSONStorage.mk "tasks.json" "templates.json") (keyed TaskTemplate.t Sample.templates) (snd (JSONStorage.new "archive.json" (snd (JSONStorage.new "tasks.json" Reference.empty_world))))
    = (Return true, w3) /\
    JSONStorage.load_templates (JSONStorage.mk "archive.json" "templates.json") w3
    = (Return (keyed TaskTemplate.t Sample.templates), w3).
Proof.
  apply (JSONStorage_templates_file_is_shared "tasks.json" "archive.json"
           Sample.templates Reference.empty_world
           (JSONStorage.mk "tasks.json" "templates.json")
           (JSONStorage.mk "archive.json" "templates.json")
           (snd (JSONStorage.new "tasks.json" Reference.empty_world))
           (snd (JSONStorage.new "archive.json" (snd (JSONStorage.new "tasks.json" Reference.empty_world))))).
  - apply run_returns. vm_compute. reflexivity.
  - apply run_returns. vm_compute. reflexivity.
  - simpl. repeat constructor; simpl; intuition discriminate.
  - vm_compute. reflexivity.
  - vm_compute. reflexivity.
Defined.

Lemma unknown_task_id_changes_nothing_witness :
  TaskManager.get_task "t-0" Sample.manager Sample.world0
  = (Return None, Sample.manager, Sample.world0) /\
  TaskManager.update_task "t-0" [(Task.f_title, PStr "Renamed")] Sample.manager Sample.world0
  = (Return None, Sample.manager, Sample.world0) /\
  TaskManager.delete_task "t-0" Sample.manager Sample.world0
  = (Return false, Sample.manager, Sample.world0) /\
  TaskManager.complete_task (PStr "t-0") Sample.manager Sample.world0
  = (Return None, Sample.manager, Sample.world0) /\
  TaskManager.add_label Task.f_tags "t-0" "urgent" Sample.manager Sample.world0
  = (Return None, Sample.manager, Sample.world0) /\
  TaskManager.remove_label Task.f_tags "t-0" "urgent" Sample.manager Sample.world0
  = (Return None, Sample.manager, Sample.world0) /\
  TaskManager.add_dependency "t-0" "t-4" Sample.manager Sample.world0
  = (Return false, Sample.manager, Sample.world0) /\
  TaskManager.add_dependency "t-4" "t-0" Sample.manager Sample.world0
  = (Return false, Sample.manager, Sample.world0) /\
  TaskManager.remove_dependency "t-0" "t-4" Sample.manager Sample.world0
  = (Return false, Sample.manager, Sample.world0) /\
  TaskManager.get_task_dependencies "t-0" Sample.manager Sample.world0
  = (Return [], Sample.manager, Sample.world0) /\
  TaskManager.start_time_tracking "t-0" (PStr "") Sample.manager Sample.world0
  = (Return None, Sample.manager, Sample.world0) /\
  TaskManager.stop_time_tracking (fun _ : Z => Float64 0) "t-0" "t-4" Sample.manager Sample.world0
  = (Return None, Sample.manager, Sample.world0) /\
  TaskManager.get_active_time_entries "t-0" Sample.manager Sample.world0
  = (Return [], Sample.manager, Sample.world0) /\
  TaskManager.bulk_update ["t-0"] [(Task.f_title, PStr "Renamed")] Sample.manager Sample.world0
  = (Return [], Sample.manager, Sample.world0) /\
  TaskManager.bulk_complete ["t-0"] Sample.manager Sample.world0
  = (Return [], Sample.manager, Sample.world0) /\
  TaskManager.bulk_delete ["t-0"] Sample.manager Sample.world0
  = (Return 0, Sample.manager, Sample.world0) /\
  TaskManager.set_priority "t-0" (PStr "high") Sample.manager Sample.world0
  = (Return None, Sample.manager, Sample.world0) /\
  TaskManager.set_due_date "t-0" (PStr "2026-12-01T09:00:00") (PInt 30) Sample.manager Sample.world0
  = (Return None, Sample.manager, Sample.world0) /\
  TaskManager.make_recurring "t-0" (PStr "weekly") (PInt 1) Sample.manager Sample.world0
  = (Return None, Sample.manager, Sample.world0) /\
  TaskManager.bulk_set_label Task.f_tags ["t-0"] "urgent" Sample.manager Sample.world0
  = (Return [], Sample.manager, Sample.world0).
Proof.
  apply (unknown_task_id_changes_nothing Sample.manager Sample.world0 "t-0" "t-4"
           [(Task.f_title, PStr "Renamed")] Task.f_tags "urgent" (PStr "high")
           (PStr "2026-12-01T09:00:00") (PInt 30) (PStr "weekly") (PInt 1) (PStr "")
           (fun _ : Z => Float64 0)).
  - reflexivity.
Defined.

Lemma delete_task_removes_the_task_only_witness :
  exists self',
    TaskManager.delete_task "t-4" Sample.manager Sample.world0
    = (Return true, self', after_save self' Sample.world0) /\
    TaskManager.tasks self'
   
    = keyed Task.t (filter (fun kt => negb (String.eqb (fst kt) "t-4")) [("t-4", Sample.recurring_task)]) /\
    TaskManager.templates self' = TaskManager.templates Sample.manager /\
    TaskManager.get_task "t-4" self' (after_save self' Sample.world0)
    = (Return None, self', after_save self' Sample.world0) /\
    (forall other, other <> "t-4" ->
       mapping_get (TaskManager.tasks self') (PStr other)
       = mapping_get (TaskManager.tasks Sample.manager) (PStr other)) /\
    TaskManager.delete_task "t-4" self' (after_save self' Sample.world0)
    = (Return false, self', after_save self' Sample.world0).
Proof.
  apply (delete_task_removes_the_task_only Sample.manager Sample.world0
           [("t-4", Sample.recurring_task)] "t-4" Sample.recurring_task).
  - apply JSONStorage_saves_return.
  - reflexivity.
  - simpl. repeat constructor; simpl; intuition discriminate.
  - simpl. tauto.
Defined.

Lemma deleted_dependency_blocks_dependents_witness :
  exists self' w',
    TaskManager.delete_task "t-4" Sample.manager_with_dependency Sample.world0
    = (Return true, self', w') /\
    mapping_get (TaskManager.tasks self') (PStr "t-5") = Some Sample.dependent_task /\
    Task_can_start Sample.dependent_task (TaskManager.tasks self') = Return false /\
    forall blocked self2 w2,
      TaskManager.get_blocked_tasks self' w' = (Return blocked, self2, w2) ->
      In Sample.dependent_task blocked.
Proof.
  apply (deleted_dependency_blocks_dependents Sample.manager_with_dependency
           Sample.world0
           [("t-4", Sample.recurring_task); ("t-5", Sample.dependent_task)] "t-4" "t-5"
           Sample.recurring_task Sample.dependent_task ["t-4"]).
  - apply JSONStorage_saves_return.
  - reflexivity.
  - simpl. repeat constructor; simpl; intuition discriminate.
  - simpl. tauto.
  - simpl. tauto.
  - discriminate.
  - reflexivity.
  - simpl. tauto.
Defined.

Lemma add_dependency_accepts_self_dependency_witness :
  exists task' self' w',
    TaskManager.add_dependency "t-4" "t-4" Sample.manager Sample.world0
    = (Return true, self', w') /\
    mapping_get (TaskManager.tasks self') (PStr "t-4") = Some task' /\
    Task.depends_on task' = PList (map PStr ([] ++ ["t-4"])) /\
    Task.status task' = Task.status Sample.recurring_task /\
    Task_can_start task' (TaskManager.tasks self') = Return false.
Proof.
  apply (add_dependency_accepts_self_dependency Sample.manager Sample.world0 "t-4"
           Sample.recurring_task []).
  - apply JSONStorage_saves_return.
  - reflexivity.
  - reflexivity.
  - simpl. tauto.
  - reflexivity.
Defined.


Lemma set_due_date_without_reminder_cancels_the_reminder_witness :
  exists task' self' w',
    TaskManager.set_due_date "t-3" (PStr "2026-12-01T09:00:00") PNone Sample.reminder_manager Sample.world0
    = (Return (Some task'), self', w') /\
    mapping_get (TaskManager.tasks self') (PStr "t-3") = Some task' /\
    Task.due_date task' = (PStr "2026-12-01T09:00:00") /\
    Task.reminder_before_minutes task' = PNone /\
    (forall f, f <> Task.f_due_date -> f <> Task.f_reminder_before_minutes ->
               f <> Task.f_updated_at -> Task.getattr f task'
               = Task.getattr f Sample.reminder_task) /\
    forall w0, Task.needs_reminder task' w0 = (Return false, w0).
Proof.
  apply (set_due_date_without_reminder_cancels_the_reminder Sample.reminder_manager
           Sample.world0 "t-3" Sample.reminder_task (PStr "2026-12-01T09:00:00")).
  - apply JSONStorage_saves_return.
  - reflexivity.
Defined.

Lemma set_priority_and_make_recurring_show_in_the_queries_witness :
  (exists task' self' w',
      TaskManager.set_priority "t-3" (PStr "low") Sample.reminder_manager Sample.world0
      = (Return (Some task'), self', w') /\
      mapping_get (TaskManager.tasks self') (PStr "t-3") = Some task' /\
      Task.priority task' = PStr "low" /\
      (forall f, f <> Task.f_priority -> f <> Task.f_updated_at ->
                 Task.getattr f task' = Task.getattr f Sample.reminder_task) /\
      exists found,
        TaskManager.get_tasks_by_priority "low" self' w' = (Return found, self', w') /\
        In task' found) /\
  (exists task' self' w',
      TaskManager.make_recurring "t-3" (PStr "weekly") (PInt 1) Sample.reminder_manager Sample.world0
      = (Return (Some task'), self', w') /\
      mapping_get (TaskManager.tasks self') (PStr "t-3") = Some task' /\
      Task.is_recurring task' = PBool true /\
      Task.recurrence_type task' = (PStr "weekly") /\
      Task.recurrence_interval task' = (PInt 1) /\
      (forall f, f <> Task.f_is_recurring -> f <> Task.f_recurrence_type ->
                 f <> Task.f_recurrence_interval -> f <> Task.f_updated_at ->
                 Task.getattr f task' = Task.getattr f Sample.reminder_task) /\
      exists found,
        TaskManager.get_recurring_tasks self' w' = (Return found, self', w') /\
        In task' found).
Proof.
  apply (set_priority_and_make_recurring_show_in_the_queries Sample.reminder_manager
           Sample.world0 "t-3" "low" Sample.reminder_task (PStr "weekly") (PInt 1)).
  - apply JSONStorage_saves_return.
  - reflexivity.
Defined.

Lemma bulk_delete_counts_the_removed_tasks_witness :
  exists count self' w',
    TaskManager.bulk_delete ["t-4"; "t-0"; "t-4"] Sample.manager_with_dependency Sample.world0
    = (Return count, self', w') /\
    count = Z.of_nat (List.length (TaskManager.tasks Sample.manager_with_dependency))
            - Z.of_nat (List.length (TaskManager.tasks self')) /\
    0 <= count <= Z.of_nat (List.length ["t-4"; "t-0"; "t-4"]) /\
    TaskManager.templates self' = TaskManager.templates Sample.manager_with_dependency.
Proof.
  apply (bulk_delete_counts_the_removed_tasks Sample.manager_with_dependency
           Sample.world0 ["t-4"; "t-0"; "t-4"]).
  - apply JSONStorage_saves_return.
Defined.

Lemma filter_tasks_keeps_the_tasks_that_meet_all_criteria_witness :
  TaskManager.filter_tasks (Some "pending") (Some "low") (Some "home") None (Some true) Sample.manager_with_dependency Sample.world0
  = (Return (filter (meets (Some "pending") (Some "low") (Some "home") None (Some true))
                    (mapping_values (TaskManager.tasks Sample.manager_with_dependency))), Sample.manager_with_dependency, Sample.world0) /\
  (forall p, p <> "" ->
      TaskManager.get_tasks_by_priority p Sample.manager_with_dependency Sample.world0
     
      = TaskManager.filter_tasks None (Some p) None None None Sample.manager_with_dependency Sample.world0) /\
  TaskManager.get_tasks_by_priority "" Sample.manager_with_dependency Sample.world0
  = (Return (filter (fun task => eq_str (Task.priority task) "")
                    (mapping_values (TaskManager.tasks Sample.manager_with_dependency))), Sample.manager_with_dependency, Sample.world0) /\
  TaskManager.filter_tasks None (Some "") None None None Sample.manager_with_dependency Sample.world0
 
  = (Return (mapping_values (TaskManager.tasks Sample.manager_with_dependency)), Sample.manager_with_dependency, Sample.world0).
Proof.
  apply (filter_tasks_keeps_the_tasks_that_meet_all_criteria
           Sample.manager_with_dependency Sample.world0 (Some "pending") (Some "low")
           (Some "home") None (Some true)).
  - repeat constructor; eexists; eexists; split; reflexivity.
Defined.

Lemma start_time_tracking_adds_an_active_entry_witness :
  let entry :=
    TimeEntry.mk (PStr (uuid_source Sample.world0 (uuid_drawn Sample.world0)))
                 (PStr (isoformat (pf Sample.world0) (naive (clock Sample.world0 (clock_reads Sample.world0)))))
                 PNone (PFloat (Float64 0)) (PStr "watering") in
  exists self' w',
    TaskManager.start_time_tracking "t-4" (PStr "watering") Sample.manager Sample.world0
    = (Return (Some entry), self', w') /\
    TaskManager.get_active_time_entries "t-4" self' w'
    = (Return (filter is_active [Sample.completed_time_entry] ++ [entry])%list, self', w').
Proof.
  apply (start_time_tracking_adds_an_active_entry Sample.manager Sample.world0 "t-4"
           Sample.recurring_task (PStr "watering") [Sample.completed_time_entry]).
  - apply JSONStorage_saves_return.
  - reflexivity.
  - reflexivity.
Defined.

Lemma stop_time_tracking_closes_the_entry_witness :
  let stopped :=
    TimeEntry.mk (TimeEntry.id Sample.active_time_entry) (TimeEntry.start_time Sample.active_time_entry)
                 (PStr (isoformat (pf Sample.world0) (naive (clock Sample.world0 (clock_reads Sample.world0)))))
                 (PFloat ((fun _ : Z => Float64 0) (clock Sample.world0 (clock_reads Sample.world0) - (Reference.the_clock 0 - us_per_hour))))
                 (TimeEntry.notes Sample.active_time_entry) in
  exists task' self' w',
    TaskManager.stop_time_tracking (fun _ : Z => Float64 0) "t-1" "e-2" Sample.tracking_manager Sample.world0
    = (Return (Some stopped), self', w') /\
    mapping_get (TaskManager.tasks self') (PStr "t-1") = Some task' /\
    Task.time_entries task'
    = PList (map entry_dict ([Sample.completed_time_entry] ++ stopped :: [])) /\
    TaskManager.get_active_time_entries "t-1" self' w'
    = (Return (filter is_active ([Sample.completed_time_entry] ++ [])), self', w').
Proof.
  apply (stop_time_tracking_closes_the_entry Sample.tracking_manager Sample.world0
           (fun _ : Z => Float64 0) "t-1" "e-2" "2026-11-03T09:00:00" Sample.task
           [Sample.completed_time_entry] [] Sample.active_time_entry
           (Reference.the_clock 0 - us_per_hour)).
  - apply JSONStorage_saves_return.
  - reflexivity.
  - reflexivity.
  - repeat constructor.
  - reflexivity.
  - reflexivity.
  - vm_compute. reflexivity.
  - vm_compute. reflexivity.
  - vm_compute. discriminate.
Defined.


Lemma complete_task_failure_leaves_the_completion_unsaved_witness :
  exists completed self' w',
    TaskManager.complete_task (PStr "t-4") Sample.broken_manager Sample.world0
    = (Raise (ValueError "Invalid isoformat string: tomorrow"), self', w') /\
    mapping_get (TaskManager.tasks self') (PStr "t-4") = Some completed /\
    Task.status completed = PStr "completed" /\
    TaskManager.templates self' = TaskManager.templates Sample.broken_manager /\
    fs w' = fs Sample.world0 /\ conn w' = conn Sample.world0.
Proof.
  apply (complete_task_failure_leaves_the_completion_unsaved Sample.broken_manager
           Sample.world0 "t-4" "tomorrow" Sample.broken_task
           (ValueError "Invalid isoformat string: tomorrow")).
  - reflexivity.
  - reflexivity.
  - reflexivity.
  - reflexivity.
  - discriminate.
  - vm_compute. reflexivity.
Defined.

Lemma due_date_queries_fail_on_an_unparsable_due_date_witness :
  (forall w0, pf w0 = pf Sample.world0 -> Task.is_overdue Sample.broken_task w0 = (Raise (ValueError "Invalid isoformat string: tomorrow"), w0)) /\
  (exists e w', TaskManager.get_overdue_tasks Sample.broken_manager Sample.world0 = (Raise e, Sample.broken_manager, w')) /\
  (exists e w', TaskManager.get_tasks_due_soon (PInt 24) Sample.broken_manager Sample.world0 = (Raise e, Sample.broken_manager, w')).
Proof.
  apply (due_date_queries_fail_on_an_unparsable_due_date Sample.broken_manager
           Sample.world0 (PStr "t-4") Sample.broken_task "tomorrow"
           (ValueError "Invalid isoformat string: tomorrow") (PInt 24)).
  - simpl. tauto.
  - reflexivity.
  - discriminate.
  - reflexivity.
  - vm_compute. reflexivity.
Defined.

Lemma create_template_with_a_used_name_stays_in_memory_only_witness :
  exists template self' w',
    TaskManager.create_template (PStr "standup") (PStr "Standup again") (PStr "") (PStr "medium") PNone PNone
                                Sample.template_manager Sample.world0
    = (Return template, self', w') /\
    TaskTemplate.name template = PStr "standup" /\
    TaskManager.templates self'
    = (TaskManager.templates Sample.template_manager
         ++ [(PStr (uuid_source Sample.world0 (uuid_drawn Sample.world0)), template)])%list /\
    TaskManager.list_templates self' w'
   
    = (Return (mapping_values (TaskManager.templates Sample.template_manager) ++ [template])%list,
       self', w') /\
    (forall t, is_template_table t = true ->
               committed (conn w') t = committed (conn Sample.world0) t) /\
    TaskManager.get_template "standup" self' w'
    = (Return (find (fun t => eq_str (TaskTemplate.name t) "standup")
                    (mapping_values (TaskManager.templates Sample.template_manager))), self', w') /\
    find (fun t => eq_str (TaskTemplate.name t) "standup")
         (mapping_values (TaskManager.templates Sample.template_manager)) <> None.
Proof.
  apply (create_template_with_a_used_name_stays_in_memory_only Sample.template_manager
           Sample.world0 [] [] (PStr "tpl-1") Sample.template_a "standup"
           (PStr "Standup again") (PStr "") (PStr "medium") PNone PNone).
  - reflexivity.
  - reflexivity.
  - vm_compute. reflexivity.
  - vm_compute. reflexivity.
Defined.




Lemma SQLiteStorage_rejects_a_task_without_title_witness :
  SQLiteStorage.save_tasks Sample.sqlite (keyed Task.t ([] ++ ("t-1", Sample.untitled_task) :: [])) Sample.world0
  = (Return false, set_conn (Connection (committed (conn Sample.world0)) None) Sample.world0) /\
  exists w1,
    JSONStorage.save_tasks Sample.json (keyed Task.t ([] ++ ("t-1", Sample.untitled_task) :: [])) Sample.world0
    = (Return true, w1) /\
    JSONStorage.load_tasks Sample.json w1
    = (Return (keyed Task.t ([] ++ ("t-1", Sample.untitled_task) :: [])), w1).
Proof.
  apply (SQLiteStorage_rejects_a_task_without_title Sample.sqlite Sample.json [] []
           "t-1" Sample.untitled_task Sample.world0).
  - reflexivity.
  - simpl. repeat constructor; simpl; intuition discriminate.
  - vm_compute. reflexivity.
  - vm_compute. reflexivity.
Defined.

Lemma SQLiteStorage_templates_round_trip_witness :
  exists w1,
    SQLiteStorage.save_templates Sample.sqlite [(PStr "tpl-1", Sample.template_a); (PStr "tpl-3", Sample.template_c)] Sample.world0
    = (Return true, w1) /\
    SQLiteStorage.load_templates Sample.sqlite w1
   
    = (Return (map (fun t => (TaskTemplate.id t, t)) (mapping_values [(PStr "tpl-1", Sample.template_a); (PStr "tpl-3", Sample.template_c)])), w1) /\
    (Forall (fun kt => fst kt = TaskTemplate.id (snd kt)) [(PStr "tpl-1", Sample.template_a); (PStr "tpl-3", Sample.template_c)] ->
     SQLiteStorage.load_templates Sample.sqlite w1
     = (Return [(PStr "tpl-1", Sample.template_a); (PStr "tpl-3", Sample.template_c)], w1)).
Proof.
  apply (SQLiteStorage_templates_round_trip Sample.sqlite
           [(PStr "tpl-1", Sample.template_a); (PStr "tpl-3", Sample.template_c)]
           Sample.world0).
  - intros t Hin. simpl in Hin. destruct Hin as [<- | [<- | [<- | []]]]; vm_compute; discriminate.
  - repeat constructor.
  - simpl. repeat constructor; simpl; intuition discriminate.
  - simpl. repeat constructor; simpl; intuition discriminate.
Defined.

Lemma JSONStorage_tasks_path_clash_witness :
  JSONStorage.load_templates (JSONStorage.mk "templates.json" "templates.json")
    (snd (JSONStorage.save_tasks (JSONStorage.mk "templates.json" "templates.json")
            Sample.tasks Sample.world0))
  = (Return [],
     snd (JSONStorage.save_tasks (JSONStorage.mk "templates.json" "templates.json")
            Sample.tasks Sample.world0)).
Proof.
  apply (proj1 (JSONStorage_tasks_path_clash_loses_templates
                  (JSONStorage.mk "templates.json" "templates.json") Sample.tasks []
                  Sample.world0
                  (snd (JSONStorage.save_tasks
                          (JSONStorage.mk "templates.json" "templates.json")
                          Sample.tasks Sample.world0))
                  eq_refl)).
  apply run_returns. vm_compute. reflexivity.
Defined.

Lemma check_reminders_witness :
  let reminded :=
    Task.set_last_reminded
      (PStr (isoformat (pf Sample.world0)
               (naive (clock Sample.world0 (S (clock_reads Sample.world0))))))
      Sample.reminder_task in
  let self' :=
    TaskManager.set_tasks
      (mapping_set (TaskManager.tasks Sample.reminder_manager) (PStr "t-3") reminded)
      Sample.reminder_manager in
  TaskManager.check_reminders Sample.reminder_manager Sample.world0
  = (Return [reminded], self', after_save self' (tick (tick Sample.world0))) /\
  TaskManager.check_reminders Sample.manager Sample.world0
  = (Return [], Sample.manager, Sample.world0).
Proof.
  split.
  - apply (proj2 (check_reminders_stamps_the_task_it_reports
                    Sample.reminder_manager Sample.world0)
             [(PStr "t-4", Sample.recurring_task)] [] "t-3" "2026-11-03T11:00:00"
             Sample.reminder_task (Reference.the_clock 0 + us_per_hour) 120).
    + apply JSONStorage_saves_return.
    + reflexivity.
    + repeat constructor.
    + reflexivity.
    + discriminate.
    + reflexivity.
    + discriminate.
    + reflexivity.
    + reflexivity.
    + vm_compute. reflexivity.
    + vm_compute. split; discriminate.
    + vm_compute. split; discriminate.
  - apply (proj1 (check_reminders_stamps_the_task_it_reports Sample.manager Sample.world0)).
    repeat constructor.
Defined.

